(** * Reading planner: the scheduling engine of [plan_lectura.py]

    A shallow embedding of the plan generator ([create_reading_plan] and the
    helpers it calls) and of the validation done by the button handler that
    calls it, followed by the properties of the engine.

    Numeric conventions.  Python's [float] and [int] minute quantities are
    embedded as exact rationals ([Q]); the completion tolerance [0.1] is the
    rational [1/10].  The minute quantities of every concrete input used
    below are dyadic rationals of small magnitude, on which binary floating
    point computes the same sessions.  A [date] is its proleptic Gregorian
    ordinal ([date.toordinal()]), a [datetime] is the number of minutes
    elapsed since midnight of ordinal 0.  The calendar's upper end (year
    9999), the microseconds of a [time] and the rounding of a [timedelta] to
    microseconds are not modelled.

    The interpreter computes the minutes in binary64, which rounds every
    product and difference, and stores the end of an event to the
    microsecond.  The properties below are therefore stated so that this
    rounding cannot decide them: on the order and the kinds of the events,
    on dates and counts; with inequalities that are not strict and bounds
    that leave a margin; or for whole numbers of minutes, which binary64
    adds and subtracts exactly.  The lemmas that serve their proofs are
    about the exact numbers of the model. *)

From Stdlib Require Import QArith Qround Lqa ZArith Lia List Sorted String Ascii
DecimalString.
From stdpp Require Import base gmap strings list.

Local Open Scope string_scope.

(** ** Outcomes of a computation

    A [while] loop is run with a bound on its iterations: [StillRunning] is the
    outcome of a loop that is still running when the bound is reached.
    [Raises] is a Python exception escaping the function. *)

Inductive exn := IndexError.

Inductive outcome (A : Type) : Type :=
| Ok (a : A)
| Raises (e : exn)
| StillRunning.
Arguments Ok {A} a.
Arguments Raises {A} e.
Arguments StillRunning {A}.

Definition bind {A B} (m : outcome A) (k : A -> outcome B) : outcome B :=
  match m with
  | Ok a => k a
  | Raises e => Raises e
  | StillRunning => StillRunning
  end.

Notation "'let*' x := m 'in' k" := (bind m (fun x => k))
  (at level 10, x name, m at level 100, k at level 200).

(** How one iteration of a loop body ends: falling through to the next test
    of the condition, or [break]. *)
Inductive ctl := Next | Break.

Fixpoint while {S : Type} (cond : S -> bool) (body : S -> outcome (ctl * S))
    (fuel : nat) (s : S) : outcome S :=
  match fuel with
  | O => StillRunning
  | Datatypes.S k =>
      if cond s then
        match body s with
        | Ok (Next, s') => while cond body k s'
        | Ok (Break, s') => Ok s'
        | Raises e => Raises e
        | StillRunning => StillRunning
        end
      else Ok s
  end.

(** ** Rational comparisons as the code writes them *)

Definition Qltb (x y : Q) : bool := negb (Qle_bool y x).

(** [min(a, b)]: the first argument unless the second is strictly smaller. *)
Definition py_min (a b : Q) : Q := if Qltb b a then b else a.

(** [round(x, 2)] of the exact value: to the nearest hundredth, ties to
    even.  (The interpreter rounds the binary64 value of the hours, which
    can lie on the other side of a tie.) *)
Definition round2 (x : Q) : Q :=
  let n := (x * 100)%Q in
  let f := Qfloor n in
  let r := (n - inject_Z f)%Q in
  let up :=
    if Qltb (1 # 2) r then true
    else if Qltb r (1 # 2) then false
    else Z.odd f in
  inject_Z (if up then f + 1 else f) / 100.

(** ** Dates and times *)

Definition date := Z.
Definition datetime := Q.

Record time := { hour : Z; minute : Z; second : Z }.

(** [date.weekday()]: Monday is 0, Sunday is 6; ordinal 1 is a Monday. *)
Definition weekday (d : date) : Z := ((d + 6) mod 7)%Z.

Definition minutes_of_time (t : time) : Q :=
  (inject_Z (hour t * 60 + minute t) + inject_Z (second t) / 60)%Q.

(** [datetime.datetime.combine(d, t)] *)
Definition combine (d : date) (t : time) : datetime :=
  (inject_Z (d * 1440) + minutes_of_time t)%Q.

(** [dt + timedelta(minutes=m)], without the rounding of the duration to
    whole microseconds. *)
Definition add_minutes (dt : datetime) (m : Q) : datetime := (dt + m)%Q.

(** The date fields of a [datetime]. *)
Definition date_of (dt : datetime) : date := Qfloor (dt / 1440).

(** ** What the Python runtime provides

    The string hash is seeded per interpreter session, the wall clock is read
    once per event; number and date formatting are the runtime's. *)

Class PyRuntime := {
  hash : string -> Z;
  now : nat -> datetime;
  strftime : string -> date -> string;
  format_int : Z -> string;
  format_float : nat -> Q -> string
}.

(** ** Books and reading time *)

Record Book := { title : string; pages : Z; category : string }.

Definition calculate_reading_time_minutes
    (book : Book) (reading_speeds : gmap string Q) : Q :=
  let minutes_per_page := default (2 # 1) (reading_speeds !! category book) in
  (inject_Z (pages book) * minutes_per_page)%Q.

Definition calculate_reading_time_hours
    (book : Book) (reading_speeds : gmap string Q) : Q :=
  (calculate_reading_time_minutes book reading_speeds / 60)%Q.

(** ** ICS text *)

Definition nl : string := String (ascii_of_nat 10) EmptyString.
Definition backslash : ascii := ascii_of_nat 92.
Definition comma : ascii := ascii_of_nat 44.
Definition semicolon : ascii := ascii_of_nat 59.
Definition newline : ascii := ascii_of_nat 10.
Definition letter_n : ascii := ascii_of_nat 110.

Definition esc (c : ascii) : string := String backslash (String c EmptyString).

(** [text.replace(old, new)] for a one-character [old]. *)
Fixpoint str_replace (old : ascii) (new : string) (text : string) : string :=
  match text with
  | EmptyString => EmptyString
  | String c rest =>
      if Ascii.eqb c old then new ++ str_replace old new rest
      else String c (str_replace old new rest)
  end.

Definition escape_ics_text (text : string) : string :=
  str_replace newline (esc letter_n)
    (str_replace semicolon (esc semicolon)
      (str_replace comma (esc comma)
        (str_replace backslash (esc backslash) text))).

(** What the four passes do to one character. *)
Definition escape_char (c : ascii) : string :=
  if Ascii.eqb c backslash then esc backslash
  else if Ascii.eqb c comma then esc comma
  else if Ascii.eqb c semicolon then esc semicolon
  else if Ascii.eqb c newline then esc letter_n
  else String c EmptyString.

Fixpoint escape_chars (text : string) : string :=
  match text with
  | EmptyString => EmptyString
  | String c rest => escape_char c ++ escape_chars rest
  end.

(** The inverse reading: a backslash announces one escaped character, and an
    escaped [n] stands for the newline. *)
Fixpoint unescape_ics_text (text : string) : string :=
  match text with
  | EmptyString => EmptyString
  | String c rest =>
      if Ascii.eqb c backslash then
        match rest with
        | EmptyString => String c EmptyString
        | String d rest' =>
            String (if Ascii.eqb d letter_n then newline else d)
                   (unescape_ics_text rest')
        end
      else String c (unescape_ics_text rest)
  end.

Fixpoint join (sep : string) (parts : list string) : string :=
  match parts with
  | [] => EmptyString
  | [p] => p
  | p :: rest => p ++ sep ++ join sep rest
  end.

(** ** Calendar events *)

Record Reminder := { minutes : Z; rem_description : string }.

Record RemindersConfig := { normal : list Reminder; review : list Reminder }.

(** The dictionary appended by [add_event].  [dtstamp], [dtstart] and [dtend]
    hold the [datetime] whose [format_ics_datetime] rendering the source
    stores. *)
Record Event := {
  uid : string;
  dtstamp : datetime;
  dtstart : datetime;
  dtend : datetime;
  summary : string;
  description : string;
  location : string;
  ev_organizer_email : string;
  ev_organizer_name : string;
  status : string;
  valarms : list string;
  sequence : Z;
  transp : string;
  ev_class : string;
  priority : Z
}.

(** The mutable objects and effects the engine acts on: the event list that
    [add_event] appends to, the number of wall-clock readings made so far,
    and the messages shown through [st.success]. *)
Record World := {
  events_list : list Event;
  clock_reads : nat;
  st_messages : list string
}.

Record CompletedBook := {
  Libro : string;
  Horas : Q;
  Fecha_de_finalizacion : date
}.

Record Stats := {
  total_events : nat;
  books_completed_count : nat;
  total_book_hours : Q;
  total_days : option Z
}.

(** The arguments of [create_reading_plan]. *)
Record PlanInput := {
  book_schedule_list : list Book;
  start_date : date;
  end_date : date;
  daily_time_total_minutes : Z;
  review_time_per_book_min : Z;
  reading_speeds : gmap string Q;
  reading_weekdays : list Z;
  start_time_books : time;
  start_time_review : time;
  organizer_email : string;
  organizer_name : string
}.

(** What a run of [create_reading_plan] returns, and its effects. *)
Record PlanOutput := {
  out_events : list Event;
  out_books_completed : list CompletedBook;
  out_stats : Stats;
  out_clock_reads : nat;
  out_messages : list string
}.

(** The engine's working variables. *)
Record PlanState := {
  world : World;
  books_completed : list CompletedBook;
  current_book_index : nat;
  current_date : date;
  current_book_remaining_min : Q;
  session_start_time : datetime;
  remaining_session_time : Q
}.

(** [x in l] on a list of integers. *)
Definition in_list (x : Z) (l : list Z) : bool := existsb (Z.eqb x) l.

Definition reading_summary (book_name : string) : string :=
  "📚 LECTURA: " ++ book_name.

Definition review_summary (book_name : string) : string :=
  "🔄 REVISIÓN COMPLETA: " ++ book_name.

Definition final_summary : string := "🎓 REVISIÓN GENERAL FINAL".

Section Engine.
Context {RT : PyRuntime}.

Definition get_ics_uid (date_obj : datetime) (text : string) : string :=
  strftime "%Y%m%d" (date_of date_obj) ++ "-" ++ format_int (hash text)
    ++ "@planlector.streamlit.app".

Definition create_valarm_blocks (reminders : list Reminder) : list string :=
  map (fun reminder =>
         let duration := "-PT" ++ format_int (minutes reminder) ++ "M" in
         join nl [ "BEGIN:VALARM"; "ACTION:DISPLAY";
                   "DESCRIPTION:" ++ escape_ics_text (rem_description reminder);
                   "TRIGGER:" ++ duration; "END:VALARM" ])
      reminders.

(** The dictionary literal of [add_event]; [stamp] is the reading of
    [datetime.datetime.now()]. *)
Definition event_dict (stamp : datetime) (dt_start : datetime) (mins : Q)
    (summary_text description_text organizer_email_ organizer_name_ : string)
    (reminders_config : RemindersConfig)
    (location_text status_text : string) (is_review : bool) : Event :=
  let dt_end := add_minutes dt_start mins in
  let active_reminders :=
    if is_review then review reminders_config else normal reminders_config in
  let valarm_blocks := create_valarm_blocks active_reminders in
  {| uid := get_ics_uid dt_start summary_text;
     dtstamp := stamp;
     dtstart := dt_start;
     dtend := dt_end;
     summary := escape_ics_text summary_text;
     description := escape_ics_text description_text;
     location := escape_ics_text location_text;
     ev_organizer_email := organizer_email_;
     ev_organizer_name := escape_ics_text organizer_name_;
     status := status_text;
     valarms := valarm_blocks;
     sequence := 0%Z;
     transp := "OPAQUE";
     ev_class := "PUBLIC";
     priority := if is_review then 3%Z else 5%Z |}.

Definition add_event (w : World) (dt_start : datetime) (mins : Q)
    (summary_text description_text organizer_email_ organizer_name_ : string)
    (reminders_config : RemindersConfig)
    (location_text status_text : string) (is_review : bool) : World :=
  {| events_list :=
       (events_list w ++
        [ event_dict (now (clock_reads w)) dt_start mins summary_text
            description_text organizer_email_ organizer_name_
            reminders_config location_text status_text is_review ])%list;
     clock_reads := S (clock_reads w);
     st_messages := st_messages w |}.

(** The search loop of [schedule_book_review]: the first date from
    [review_date] on whose weekday is a reading day.  (Dates have no last
    day here; in the source the search ends with an [OverflowError] when it
    passes 9999-12-31.) *)
Definition next_reading_day (fuel : nat) (review_date : date)
    (weekdays : list Z) : outcome date :=
  while (fun d => negb (in_list (weekday d) weekdays))
        (fun d => Ok (Next, (d + 1)%Z)) fuel review_date.

Definition review_description (book_name : string) (book_hours : Q)
    (review_time_min : Z) : string :=
  "Sesión de consolidación y Active Recall" ++ nl ++ nl
  ++ "📚 Libro completado: " ++ book_name ++ nl
  ++ "⏱️ Tiempo total invertido: " ++ format_float 2 book_hours ++ " horas" ++ nl
  ++ "🎯 Duración de revisión: " ++ format_int review_time_min ++ " minutos"
  ++ nl ++ nl
  ++ "OBJETIVOS DE LA SESIÓN:" ++ nl
  ++ "✓ Active Recall completo del libro" ++ nl
  ++ "✓ Revisar todas las notas y anotaciones" ++ nl
  ++ "✓ Crear/actualizar mapa conceptual" ++ nl
  ++ "✓ Conectar con otros libros leídos" ++ nl
  ++ "✓ Elaborar resumen ejecutivo".

Definition schedule_book_review (fuel : nat) (w : World) (review_date : date)
    (book_name : string) (book_hours : Q) (review_time_min : Z)
    (start_time_review_ : time) (weekdays : list Z)
    (organizer_email_ organizer_name_ : string)
    (reminders_config : RemindersConfig) : outcome World :=
  let* review_date := next_reading_day fuel review_date weekdays in
  let review_start_time := combine review_date start_time_review_ in
  Ok (add_event w review_start_time (inject_Z review_time_min)
        (review_summary book_name)
        (review_description book_name book_hours review_time_min)
        organizer_email_ organizer_name_ reminders_config
        "Espacio de estudio tranquilo" "CONFIRMED" true).

Definition the_reminders_config : RemindersConfig :=
  {| normal := [ {| minutes := 5%Z;
                    rem_description := "5 minutos antes - Prepara materiales" |} ];
     review := [ {| minutes := 10%Z;
                    rem_description :=
                      "10 minutos antes - Sesión de consolidación" |} ] |}.

Definition reading_description (book_name : string)
    (remaining time_to_dedicate : Q) : string :=
  "Sesión de lectura profunda" ++ nl ++ nl
  ++ "📖 Libro: " ++ book_name ++ nl
  ++ "⏳ Tiempo restante del libro: " ++ format_float 0 remaining ++ " min" ++ nl
  ++ "⏱️ Duración sesión: " ++ format_float 0 time_to_dedicate ++ " min".

Definition final_description (completed : nat) : string :=
  "Sesión de integración. ¡Todos los libros completados!" ++ nl
  ++ "Libros completados: " ++ format_int (Z.of_nat completed).

(** One iteration of the session loop of a reading day. *)
Definition session_body (fuel : nat) (inp : PlanInput) (st : PlanState)
    : outcome (ctl * PlanState) :=
  match nth_error (book_schedule_list inp) (current_book_index st) with
  | None => Raises IndexError
  | Some current_book =>
    let book_name := title current_book in
    let book_hours :=
      calculate_reading_time_hours current_book (reading_speeds inp) in
    let time_to_dedicate :=
      py_min (remaining_session_time st) (current_book_remaining_min st) in
    if Qle_bool time_to_dedicate 0 then Ok (Break, st)
    else
      let w1 :=
        add_event (world st) (session_start_time st) time_to_dedicate
          (reading_summary book_name)
          (reading_description book_name (current_book_remaining_min st)
             time_to_dedicate)
          (organizer_email inp) (organizer_name inp) the_reminders_config
          "Sala de estudio" "CONFIRMED" false in
      let remaining_min := (current_book_remaining_min st - time_to_dedicate)%Q in
      let remaining_time := (remaining_session_time st - time_to_dedicate)%Q in
      let start_time := add_minutes (session_start_time st) time_to_dedicate in
      if Qle_bool remaining_min (1 # 10) then
        let completed :=
          (books_completed st ++
           [ {| Libro := book_name;
                Horas := round2 book_hours;
                Fecha_de_finalizacion := current_date st |} ])%list in
        let next_review_date := (current_date st + 1)%Z in
        let* w2 :=
          schedule_book_review fuel w1 next_review_date book_name book_hours
            (review_time_per_book_min inp) (start_time_review inp)
            (reading_weekdays inp) (organizer_email inp) (organizer_name inp)
            the_reminders_config in
        let index := S (current_book_index st) in
        if (index <? length (book_schedule_list inp))%nat then
          match nth_error (book_schedule_list inp) index with
          | None => Raises IndexError
          | Some next_book =>
              Ok (Next,
                  {| world := w2;
                     books_completed := completed;
                     current_book_index := index;
                     current_date := current_date st;
                     current_book_remaining_min :=
                       calculate_reading_time_minutes next_book
                         (reading_speeds inp);
                     session_start_time := start_time;
                     remaining_session_time := remaining_time |})
          end
        else
          let w3 :=
            if Qltb 0 remaining_time then
              add_event w2 start_time remaining_time final_summary
                (final_description (length completed))
                (organizer_email inp) (organizer_name inp)
                the_reminders_config "" "CONFIRMED" true
            else w2 in
          Ok (Break,
              {| world := w3;
                 books_completed := completed;
                 current_book_index := index;
                 current_date := current_date st;
                 current_book_remaining_min := remaining_min;
                 session_start_time := start_time;
                 remaining_session_time := 0%Q |})
      else
        Ok (Next,
            {| world := w1;
               books_completed := books_completed st;
               current_book_index := current_book_index st;
               current_date := current_date st;
               current_book_remaining_min := remaining_min;
               session_start_time := start_time;
               remaining_session_time := remaining_time |})
  end.

Definition session_cond (inp : PlanInput) (st : PlanState) : bool :=
  Qltb 0 (remaining_session_time st)
  && (current_book_index st <? length (book_schedule_list inp))%nat.

Definition session_loop (fuel : nat) (inp : PlanInput) (st : PlanState)
    : outcome PlanState :=
  while (session_cond inp) (session_body fuel inp) fuel st.

Definition begin_session (inp : PlanInput) (st : PlanState) : PlanState :=
  {| world := world st;
     books_completed := books_completed st;
     current_book_index := current_book_index st;
     current_date := current_date st;
     current_book_remaining_min := current_book_remaining_min st;
     session_start_time := combine (current_date st) (start_time_books inp);
     remaining_session_time := inject_Z (daily_time_total_minutes inp) |}.

Definition next_day (st : PlanState) : PlanState :=
  {| world := world st;
     books_completed := books_completed st;
     current_book_index := current_book_index st;
     current_date := (current_date st + 1)%Z;
     current_book_remaining_min := current_book_remaining_min st;
     session_start_time := session_start_time st;
     remaining_session_time := remaining_session_time st |}.

Definition st_success (msg : string) (st : PlanState) : PlanState :=
  {| world := {| events_list := events_list (world st);
                 clock_reads := clock_reads (world st);
                 st_messages := (st_messages (world st) ++ [msg])%list |};
     books_completed := books_completed st;
     current_book_index := current_book_index st;
     current_date := current_date st;
     current_book_remaining_min := current_book_remaining_min st;
     session_start_time := session_start_time st;
     remaining_session_time := remaining_session_time st |}.

(** One iteration of the main loop over the days. *)
Definition day_body (fuel : nat) (inp : PlanInput) (st : PlanState)
    : outcome (ctl * PlanState) :=
  let* st1 :=
    if in_list (weekday (current_date st)) (reading_weekdays inp)
    then session_loop fuel inp (begin_session inp st)
    else Ok st in
  let st2 := next_day st1 in
  if (length (book_schedule_list inp) <=? current_book_index st2)%nat then
    Ok (Break,
        st_success ("¡Todos los libros se completarán el "
                    ++ strftime "%Y-%m-%d" (current_date st2) ++ "!") st2)
  else Ok (Next, st2).

Definition day_cond (inp : PlanInput) (st : PlanState) : bool :=
  (current_date st <=? end_date inp)%Z.

Definition day_loop (fuel : nat) (inp : PlanInput) (st : PlanState)
    : outcome PlanState :=
  while (day_cond inp) (day_body fuel inp) fuel st.

Definition initial_state (inp : PlanInput) (first : Book) : PlanState :=
  {| world := {| events_list := []; clock_reads := 0; st_messages := [] |};
     books_completed := [];
     current_book_index := 0;
     current_date := start_date inp;
     current_book_remaining_min :=
       calculate_reading_time_minutes first (reading_speeds inp);
     session_start_time := 0%Q;
     remaining_session_time := 0%Q |}.

Definition plan_output (inp : PlanInput) (total_book_hours_calc : Q)
    (st : PlanState) : PlanOutput :=
  {| out_events := events_list (world st);
     out_books_completed := books_completed st;
     out_stats :=
       {| total_events := length (events_list (world st));
          books_completed_count := length (books_completed st);
          total_book_hours := total_book_hours_calc;
          total_days := Some (Z.abs (start_date inp - current_date st)) |};
     out_clock_reads := clock_reads (world st);
     out_messages := st_messages (world st) |}.

Definition empty_output : PlanOutput :=
  {| out_events := [];
     out_books_completed := [];
     out_stats := {| total_events := 0; books_completed_count := 0;
                     total_book_hours := 0%Q; total_days := None |};
     out_clock_reads := 0;
     out_messages := [] |}.

(** Every [while] loop of a run may iterate at most [fuel] times. *)
Definition create_reading_plan (fuel : nat) (inp : PlanInput)
    : outcome PlanOutput :=
  match book_schedule_list inp with
  | [] => Ok empty_output
  | first :: _ =>
      let total_book_hours_calc :=
        fold_left Qplus
          (map (fun book => calculate_reading_time_hours book (reading_speeds inp))
               (book_schedule_list inp)) 0%Q in
      let* st := day_loop fuel inp (initial_state inp first) in
      Ok (plan_output inp total_book_hours_calc st)
  end.

(** ** The button handler: validation, then the engine

    The handler of "Generar Plan de Lectura".  It validates
    [st.session_state.book_list] ([book_list] here) and hands the engine the
    [Book] tuples built from the rows of the editable table ([edited_df]),
    which are the [book_schedule_list] of [inp]: rows can be removed or
    changed in the table without the session list changing.  What the
    handler does with the returned plan (rendering, download) is left
    out. *)

Inductive ui_outcome :=
| StError (msg : string)
| Generated (result : outcome PlanOutput).

Definition on_generate (fuel : nat) (book_list : list Book) (inp : PlanInput)
    : ui_outcome :=
  match book_list with
  | [] => StError "¡Añade al menos un libro a la lista!"
  | _ :: _ =>
      match reading_weekdays inp with
      | [] => StError "¡Selecciona al menos un día de lectura a la semana!"
      | _ :: _ =>
          if (end_date inp <=? start_date inp)%Z
          then StError "La fecha de fin debe ser posterior a la fecha de inicio."
          else Generated (create_reading_plan fuel inp)
      end
  end.

End Engine.

(** ** The four ways an iteration of the session loop can go *)

Section Steps.
Context {RT : PyRuntime}.
Variable inp : PlanInput.

Definition time_to_dedicate_of (st : PlanState) : Q :=
  py_min (remaining_session_time st) (current_book_remaining_min st).

Definition reading_world (st : PlanState) (book : Book) : World :=
  add_event (world st) (session_start_time st) (time_to_dedicate_of st)
    (reading_summary (title book))
    (reading_description (title book) (current_book_remaining_min st)
       (time_to_dedicate_of st))
    (organizer_email inp) (organizer_name inp) the_reminders_config
    "Sala de estudio" "CONFIRMED" false.

Definition review_world (w : World) (d : date) (book : Book) : World :=
  add_event w (combine d (start_time_review inp))
    (inject_Z (review_time_per_book_min inp))
    (review_summary (title book))
    (review_description (title book)
       (calculate_reading_time_hours book (reading_speeds inp))
       (review_time_per_book_min inp))
    (organizer_email inp) (organizer_name inp) the_reminders_config
    "Espacio de estudio tranquilo" "CONFIRMED" true.

Definition final_world (w : World) (start : datetime) (mins : Q)
    (completed : nat) : World :=
  add_event w start mins final_summary (final_description completed)
    (organizer_email inp) (organizer_name inp) the_reminders_config
    "" "CONFIRMED" true.

Definition completed_record (st : PlanState) (book : Book) : CompletedBook :=
  {| Libro := title book;
     Horas := round2 (calculate_reading_time_hours book (reading_speeds inp));
     Fecha_de_finalizacion := current_date st |}.

(** The session goes on with the same book. *)
Definition after_read (st : PlanState) (book : Book) : PlanState :=
  {| world := reading_world st book;
     books_completed := books_completed st;
     current_book_index := current_book_index st;
     current_date := current_date st;
     current_book_remaining_min :=
       (current_book_remaining_min st - time_to_dedicate_of st)%Q;
     session_start_time :=
       add_minutes (session_start_time st) (time_to_dedicate_of st);
     remaining_session_time :=
       (remaining_session_time st - time_to_dedicate_of st)%Q |}.

(** The book is completed and another one follows. *)
Definition after_complete (st : PlanState) (book : Book) (d : date)
    (next_book : Book) : PlanState :=
  {| world := review_world (reading_world st book) d book;
     books_completed := (books_completed st ++ [completed_record st book])%list;
     current_book_index := S (current_book_index st);
     current_date := current_date st;
     current_book_remaining_min :=
       calculate_reading_time_minutes next_book (reading_speeds inp);
     session_start_time :=
       add_minutes (session_start_time st) (time_to_dedicate_of st);
     remaining_session_time :=
       (remaining_session_time st - time_to_dedicate_of st)%Q |}.

(** The last book is completed. *)
Definition after_last (st : PlanState) (book : Book) (d : date) : PlanState :=
  let w2 := review_world (reading_world st book) d book in
  let start := add_minutes (session_start_time st) (time_to_dedicate_of st) in
  let left := (remaining_session_time st - time_to_dedicate_of st)%Q in
  {| world :=
       if Qltb 0 left
       then final_world w2 start left (S (length (books_completed st)))
       else w2;
     books_completed := (books_completed st ++ [completed_record st book])%list;
     current_book_index := S (current_book_index st);
     current_date := current_date st;
     current_book_remaining_min :=
       (current_book_remaining_min st - time_to_dedicate_of st)%Q;
     session_start_time := start;
     remaining_session_time := 0%Q |}.

Inductive session_step (fuel : nat) (st : PlanState) : ctl -> PlanState -> Prop :=
| step_idle book :
    nth_error (book_schedule_list inp) (current_book_index st) = Some book ->
    (time_to_dedicate_of st <= 0)%Q ->
    session_step fuel st Break st
| step_read book :
    nth_error (book_schedule_list inp) (current_book_index st) = Some book ->
    (0 < time_to_dedicate_of st)%Q ->
    (1 # 10 < current_book_remaining_min st - time_to_dedicate_of st)%Q ->
    session_step fuel st Next (after_read st book)
| step_complete book d next_book :
    nth_error (book_schedule_list inp) (current_book_index st) = Some book ->
    (0 < time_to_dedicate_of st)%Q ->
    (current_book_remaining_min st - time_to_dedicate_of st <= 1 # 10)%Q ->
    next_reading_day fuel (current_date st + 1)%Z (reading_weekdays inp) = Ok d ->
    nth_error (book_schedule_list inp) (S (current_book_index st))
      = Some next_book ->
    session_step fuel st Next (after_complete st book d next_book)
| step_last book d :
    nth_error (book_schedule_list inp) (current_book_index st) = Some book ->
    (0 < time_to_dedicate_of st)%Q ->
    (current_book_remaining_min st - time_to_dedicate_of st <= 1 # 10)%Q ->
    next_reading_day fuel (current_date st + 1)%Z (reading_weekdays inp) = Ok d ->
    (length (book_schedule_list inp) <= S (current_book_index st))%nat ->
    session_step fuel st Break (after_last st book d).

End Steps.

(** ** Bounds on the loops *)

Definition session_measure (inp : PlanInput) (st : PlanState) : nat :=
  2 * (length (book_schedule_list inp) - current_book_index st)
  + (if Qltb 0 (remaining_session_time st) then 1 else 0).

Definition days_left (inp : PlanInput) (st : PlanState) : nat :=
  Z.to_nat (end_date inp - current_date st + 1).

(** A number of iterations no loop of a run on [inp] exceeds. *)
Definition enough_fuel (inp : PlanInput) : nat :=
  8 + 2 * length (book_schedule_list inp)
  + Z.to_nat (end_date inp - start_date inp + 1).


(** ** Vocabulary of the properties *)

(** The duration of an event: what separates its end from its start. *)
Definition duration (e : Event) : Q := (dtend e - dtstart e)%Q.

(** Reading sessions are the events of normal priority. *)
Definition is_reading_session (e : Event) : bool := (priority e =? 5)%Z.

Definition reading_sessions (evs : list Event) : list Event :=
  List.filter is_reading_session evs.

(** The reading sessions of the book called [book_name]. *)
Definition sessions_of (book_name : string) (evs : list Event) : list Event :=
  List.filter (fun e => is_reading_session e
                   && String.eqb (summary e)
                        (escape_ics_text (reading_summary book_name)))
         evs.

Fixpoint total_minutes (evs : list Event) : Q :=
  match evs with
  | [] => 0%Q
  | e :: rest => (duration e + total_minutes rest)%Q
  end.

(** The book reviews appended by [schedule_book_review]. *)
Definition is_book_review (book_name : string) (e : Event) : bool :=
  String.eqb (summary e) (escape_ics_text (review_summary book_name)).

(** One event ends before the other starts. *)
Definition precedes (e1 e2 : Event) : Prop := (dtend e1 <= dtstart e2)%Q.

(** The list is in the order of the start times. *)
Definition starts_nondecreasing (evs : list Event) : Prop :=
  forall i e1 e2,
    nth_error evs i = Some e1 -> nth_error evs (S i) = Some e2 ->
    (dtstart e1 <= dtstart e2)%Q.

(** The call is refused with an exception. *)
Definition rejected {A} (o : outcome A) : Prop := exists e, o = Raises e.

(** What is known of the ledger between two days... *)
Definition ledger_between_days (inp : PlanInput) (st : PlanState) : Prop :=
  current_book_index st = length (books_completed st) /\
  (start_date inp <= current_date st)%Z /\
  Forall (fun c => start_date inp <= Fecha_de_finalizacion c <= end_date inp
                   /\ Fecha_de_finalizacion c < current_date st)%Z
         (books_completed st) /\
  ((length (book_schedule_list inp) <= current_book_index st)%nat ->
   exists c, last (books_completed st) = Some c /\
             (Fecha_de_finalizacion c + 1)%Z = current_date st).

(** ... and during the session of a day. *)
Definition ledger_in_session (inp : PlanInput) (st : PlanState) : Prop :=
  current_book_index st = length (books_completed st) /\
  (start_date inp <= current_date st <= end_date inp)%Z /\
  Forall (fun c => start_date inp <= Fecha_de_finalizacion c <= current_date st)%Z
         (books_completed st) /\
  ((length (book_schedule_list inp) <= current_book_index st)%nat ->
   exists c, last (books_completed st) = Some c /\
             Fecha_de_finalizacion c = current_date st).

(** The reading sessions so far are in order, one after the other, and all
    end by [bound]. *)
Definition sessions_chained (bound : datetime) (evs : list Event) : Prop :=
  StronglySorted precedes (reading_sessions evs) /\
  Forall (fun e => dtstart e < dtend e)%Q (reading_sessions evs) /\
  Forall (fun e => dtend e <= bound)%Q (reading_sessions evs).

(** The minutes a book requires, and those its reading sessions add up to. *)
Definition required (inp : PlanInput) (b : Book) : Q :=
  calculate_reading_time_minutes b (reading_speeds inp).

Definition minutes_read (b : Book) (evs : list Event) : Q :=
  total_minutes (sessions_of (title b) evs).






(** Nothing has happened yet: no event, no completed book, no clock reading,
    no message, and the date is within the days the loop can reach. *)
Definition untouched (inp : PlanInput) (st : PlanState) : Prop :=
  events_list (world st) = [] /\ clock_reads (world st) = 0%nat /\
  st_messages (world st) = [] /\ books_completed st = [] /\
  current_book_index st = 0%nat /\
  (start_date inp <= current_date st)%Z /\
  (current_date st <= Z.max (start_date inp) (end_date inp + 1))%Z.

(** When the reading of the current day starts. *)
Definition day_start (inp : PlanInput) (st : PlanState) : datetime :=
  combine (current_date st) (start_time_books inp).

(** An event as (summary, day, minute of the day, duration). *)
Definition event_view (e : Event) : string * date * Q * Q :=
  (summary e, date_of (dtstart e),
   Qred (dtstart e - inject_Z (date_of (dtstart e) * 1440)),
   Qred (duration e)).

Definition clear_stamp (e : Event) : Event :=
  {| uid := uid e; dtstamp := 0%Q; dtstart := dtstart e; dtend := dtend e;
     summary := summary e; description := description e;
     location := location e; ev_organizer_email := ev_organizer_email e;
     ev_organizer_name := ev_organizer_name e; status := status e;
     valarms := valarms e; sequence := sequence e; transp := transp e;
     ev_class := ev_class e; priority := priority e |}.

(** Two computations end the same way, with related results. *)
Inductive outcome_rel {A B} (R : A -> B -> Prop)
    : outcome A -> outcome B -> Prop :=
| rel_Ok a b : R a b -> outcome_rel R (Ok a) (Ok b)
| rel_Raises e : outcome_rel R (Raises e) (Raises e)
| rel_StillRunning : outcome_rel R StillRunning StillRunning.

(** The runtime [rt] with another wall clock. *)
Definition with_clock (rt : PyRuntime) (clock : nat -> datetime) : PyRuntime :=
  {| hash := @hash rt; now := clock; strftime := @strftime rt;
     format_int := @format_int rt; format_float := @format_float rt |}.

(** Two runtimes that differ at most in their wall clock. *)
Definition same_but_clock (rt1 rt2 : PyRuntime) : Prop :=
  @hash rt1 = @hash rt2 /\ @strftime rt1 = @strftime rt2 /\
  @format_int rt1 = @format_int rt2 /\ @format_float rt1 = @format_float rt2.

Definition same_world_but_stamps (w1 w2 : World) : Prop :=
  map clear_stamp (events_list w1) = map clear_stamp (events_list w2) /\
  clock_reads w1 = clock_reads w2 /\
  st_messages w1 = st_messages w2.

Definition same_state_but_stamps (s1 s2 : PlanState) : Prop :=
  same_world_but_stamps (world s1) (world s2) /\
  books_completed s1 = books_completed s2 /\
  current_book_index s1 = current_book_index s2 /\
  current_date s1 = current_date s2 /\
  current_book_remaining_min s1 = current_book_remaining_min s2 /\
  session_start_time s1 = session_start_time s2 /\
  remaining_session_time s1 = remaining_session_time s2.

(** The identifier a start date and a summary title determine. *)
Definition uid_of {RT : PyRuntime} (d : date) (summary_text : string) : string :=
  strftime "%Y%m%d" d ++ "-" ++ format_int (hash summary_text)
    ++ "@planlector.streamlit.app".

(** Two outputs that differ at most in the [dtstamp] of their events. *)
Definition same_but_stamps (o1 o2 : PlanOutput) : Prop :=
  map clear_stamp (out_events o1) = map clear_stamp (out_events o2) /\
  out_books_completed o1 = out_books_completed o2 /\
  out_stats o1 = out_stats o2 /\
  out_clock_reads o1 = out_clock_reads o2 /\
  out_messages o1 = out_messages o2.

(** ** Sample runtime and inputs *)

Definition sample_runtime : PyRuntime :=
  {| hash := fun s => Z.of_nat (String.length s);
     now := fun k => inject_Z (Z.of_nat k);
     strftime := fun fmt d => fmt;
     format_int := fun z => "#";
     format_float := fun n x => "#" |}.

(** The same runtime, its clock a thousand minutes later. *)
Definition sample_runtime_later : PyRuntime :=
  {| hash := fun s => Z.of_nat (String.length s);
     now := fun k => inject_Z (1000 + Z.of_nat k);
     strftime := fun fmt d => fmt;
     format_int := fun z => "#";
     format_float := fun n x => "#" |}.

Definition ten_o_clock : time := {| hour := 10; minute := 0; second := 0 |}.
Definition seven_pm : time := {| hour := 19; minute := 0; second := 0 |}.

(** Ordinal 738886 is Monday 2024-01-01. *)
Definition monday : date := 738886%Z.

Definition sample_input (books : list Book) (budget : Z)
    (speeds : gmap string Q) (weekdays : list Z) : PlanInput :=
  {| book_schedule_list := books;
     start_date := monday;
     end_date := (monday + 13)%Z;
     daily_time_total_minutes := budget;
     review_time_per_book_min := 60;
     reading_speeds := speeds;
     reading_weekdays := weekdays;
     start_time_books := ten_o_clock;
     start_time_review := seven_pm;
     organizer_email := "reader@example.org";
     organizer_name := "Reader" |}.

(** One book of 10 pages at 2 minutes a page, 15 minutes a day. *)
Definition twenty_minute_book : PlanInput :=
  sample_input [ {| title := "A"; pages := 10; category := "D" |} ] 15
    {[ "D" := 2 # 1 ]} [0; 1; 2; 3; 4; 5]%Z.


(** Two books of 40 minutes each, 60 minutes a day. *)
Definition two_short_books : PlanInput :=
  sample_input [ {| title := "A"; pages := 20; category := "D" |};
                 {| title := "B"; pages := 20; category := "D" |} ] 60
    {[ "D" := 2 # 1 ]} [0; 1; 2; 3; 4; 5]%Z.

(** Two books of 40 and 20 minutes under the same title. *)
Definition same_title_twice : PlanInput :=
  sample_input [ {| title := "A"; pages := 20; category := "D" |};
                 {| title := "A"; pages := 10; category := "D" |} ] 60
    {[ "D" := 2 # 1 ]} [0; 1; 2; 3; 4; 5]%Z.

(** One book of 4000 minutes, 2000 minutes a day. *)
Definition budget_over_a_day : PlanInput :=
  sample_input [ {| title := "A"; pages := 2000; category := "D" |} ] 2000
    {[ "D" := 2 # 1 ]} [0; 1; 2; 3; 4; 5]%Z.

(** The same book read on Mondays and Tuesdays only. *)
Definition monday_and_tuesday : PlanInput :=
  sample_input [ {| title := "A"; pages := 10; category := "D" |} ] 15
    {[ "D" := 2 # 1 ]} [0; 1]%Z.

(** The session of the Tuesday, with 5 minutes of the book left. *)
Definition tuesday_session : PlanState :=
  {| world := {| events_list := []; clock_reads := 0; st_messages := [] |};
     books_completed := [];
     current_book_index := 0;
     current_date := (monday + 1)%Z;
     current_book_remaining_min := 5;
     session_start_time := combine (monday + 1)%Z ten_o_clock;
     remaining_session_time := 15 |}.

(** A book and no reading day. *)
Definition no_reading_day : PlanInput :=
  sample_input [ {| title := "A"; pages := 10; category := "D" |} ] 15
    {[ "D" := 2 # 1 ]} [].


(** ** Further vocabulary: the kinds of events, the ledger, the window *)

Definition review_location : string := "Espacio de estudio tranquilo".

(** The reviews of the completed books are the events at the review
    location; the final integration event has review priority and no
    location. *)
Definition book_reviews (evs : list Event) : list Event :=
  List.filter (fun e => String.eqb (location e) review_location) evs.

Definition final_events (evs : list Event) : list Event :=
  List.filter (fun e => (priority e =? 3)%Z && String.eqb (location e) "") evs.

(** What is scheduled in the daily reading time: everything but the
    reviews of the books. *)
Definition daily_events (evs : list Event) : list Event :=
  List.filter (fun e => negb (String.eqb (location e) review_location)) evs.

(** The ledger record of a book. *)
Definition record_matches (inp : PlanInput) (b : Book) (c : CompletedBook)
    : Prop :=
  Libro c = title b /\
  Horas c = round2 (calculate_reading_time_hours b (reading_speeds inp)).

(** A day of the window on which reading takes place. *)
Definition is_reading_day (inp : PlanInput) (d : date) : Prop :=
  (start_date inp <= d <= end_date inp)%Z /\
  in_list (weekday d) (reading_weekdays inp) = true.

Definition completed_before (c1 c2 : CompletedBook) : Prop :=
  (Fecha_de_finalizacion c1 <= Fecha_de_finalizacion c2)%Z.

(** The ledger holds the first books of the list, in their order, completed
    on reading days up to [bound], one no later than the next. *)
Definition ledger_in_order (inp : PlanInput) (bound : date) (index : nat)
    (ledger : list CompletedBook) : Prop :=
  index = length ledger /\
  (index <= length (book_schedule_list inp))%nat /\
  Forall2 (record_matches inp) (firstn index (book_schedule_list inp)) ledger /\
  Forall (fun c => is_reading_day inp (Fecha_de_finalizacion c) /\
                   (Fecha_de_finalizacion c <= bound)%Z) ledger /\
  StronglySorted completed_before ledger.

(** The review of a completed book: on the first reading weekday after the
    completion date, at the review time, for the review duration. *)
Definition review_follows (inp : PlanInput) (c : CompletedBook) (e : Event)
    : Prop :=
  summary e = escape_ics_text (review_summary (Libro c)) /\
  priority e = 3%Z /\
  dtend e = add_minutes (dtstart e) (inject_Z (review_time_per_book_min inp)) /\
  exists d : date,
    dtstart e = combine d (start_time_review inp) /\
    (Fecha_de_finalizacion c < d <= Fecha_de_finalizacion c + 7)%Z /\
    in_list (weekday d) (reading_weekdays inp) = true /\
    (forall x, (Fecha_de_finalizacion c < x < d)%Z ->
               in_list (weekday x) (reading_weekdays inp) = false).

(** The event lasts a positive time within the daily reading time of a
    reading day. *)
Definition within_daily_time (inp : PlanInput) (e : Event) : Prop :=
  (dtstart e < dtend e)%Q /\
  exists d : date,
    is_reading_day inp d /\
    (combine d (start_time_books inp) <= dtstart e)%Q /\
    (dtend e <= combine d (start_time_books inp)
                + inject_Z (daily_time_total_minutes inp))%Q.

(** What is known of the daily events between two days and during the
    session of a day. *)
Definition daily_events_between_days (inp : PlanInput) (st : PlanState)
    : Prop :=
  (start_date inp <= current_date st)%Z /\
  Forall (within_daily_time inp) (daily_events (events_list (world st))).

Definition daily_events_in_session (inp : PlanInput) (st : PlanState)
    : Prop :=
  Forall (within_daily_time inp) (daily_events (events_list (world st))) /\
  is_reading_day inp (current_date st) /\
  (day_start inp st <= session_start_time st)%Q /\
  (session_start_time st + remaining_session_time st
   <= day_start inp st + inject_Z (daily_time_total_minutes inp))%Q.

(** A time of the day in minutes, from midnight to midnight. *)
Definition valid_time (t : time) : Prop :=
  (0 <= minutes_of_time t)%Q /\ (minutes_of_time t < 1440)%Q.

(** The ledger follows the book list and each record has its review. *)
Definition ledger_and_reviews (inp : PlanInput) (st : PlanState) : Prop :=
  (start_date inp <= current_date st)%Z /\
  ledger_in_order inp (current_date st) (current_book_index st)
    (books_completed st) /\
  Forall2 (review_follows inp) (books_completed st)
    (book_reviews (events_list (world st))).

(** Every event is of one of the three kinds, and a final integration event
    comes last, once, after the last book. *)
Definition events_accounted (inp : PlanInput) (st : PlanState) : Prop :=
  let evs := events_list (world st) in
  clock_reads (world st) = length evs /\
  length evs
  = (length (reading_sessions evs) + length (book_reviews evs)
     + length (final_events evs))%nat /\
  ((current_book_index st < length (book_schedule_list inp))%nat ->
   final_events evs = []) /\
  (final_events evs = [] \/
   exists l e, evs = (l ++ [e])%list /\ final_events evs = [e]).

(** The event is a reading session of the book at position [j]. *)
Definition session_of_index (inp : PlanInput) (j : nat) (e : Event) : Prop :=
  exists b,
    nth_error (book_schedule_list inp) j = Some b /\
    summary e = escape_ics_text (reading_summary (title b)).

Definition in_book_order (inp : PlanInput) (e1 e2 : Event) : Prop :=
  exists j1 j2,
    (j1 <= j2)%nat /\ session_of_index inp j1 e1 /\ session_of_index inp j2 e2.

Definition sessions_in_book_order (inp : PlanInput) (st : PlanState) : Prop :=
  StronglySorted (in_book_order inp)
    (reading_sessions (events_list (world st))) /\
  Forall (fun e => exists j, (j <= current_book_index st)%nat /\
                             session_of_index inp j e)
    (reading_sessions (events_list (world st))).

(** The reminder and the fixed fields of an event of the plan. *)
Definition well_formed_event {RT : PyRuntime} (inp : PlanInput) (e : Event)
    : Prop :=
  status e = "CONFIRMED" /\ sequence e = 0%Z /\
  transp e = "OPAQUE" /\ ev_class e = "PUBLIC" /\
  ev_organizer_email e = organizer_email inp /\
  ev_organizer_name e = escape_ics_text (organizer_name inp) /\
  length (valarms e) = 1%nat /\
  ((priority e = 5%Z /\
    valarms e = create_valarm_blocks (normal the_reminders_config)) \/
   (priority e = 3%Z /\
    valarms e = create_valarm_blocks (review the_reminders_config))).

(** The first book asks for no time: nothing is ever scheduled. *)
Definition stalled (st : PlanState) : Prop :=
  events_list (world st) = [] /\ books_completed st = [] /\
  st_messages (world st) = [] /\ current_book_index st = 0%nat /\
  (current_book_remaining_min st <= 0)%Q.

(** The loop over the days is under way, or it has stopped: at the end of
    the window with books left, or with every book read and the message
    shown. *)
Definition walking (inp : PlanInput) (st : PlanState) : Prop :=
  (current_book_index st < length (book_schedule_list inp))%nat /\
  st_messages (world st) = [] /\
  (start_date inp <= current_date st
   <= Z.max (start_date inp) (end_date inp + 1))%Z.

Definition stopped (inp : PlanInput) (st : PlanState) : Prop :=
  ((current_book_index st < length (book_schedule_list inp))%nat /\
   st_messages (world st) = [] /\
   current_date st = Z.max (start_date inp) (end_date inp + 1)) \/
  ((length (book_schedule_list inp) <= current_book_index st)%nat /\
   exists msg, st_messages (world st) = [msg]).


(** ** The size of the window *)

(** The reading days among the [n] days from [from] on. *)
Fixpoint count_reading_days (weekdays : list Z) (from : date) (n : nat) : nat :=
  match n with
  | O => O
  | S k => (if in_list (weekday from) weekdays then 1 else 0)
           + count_reading_days weekdays (from + 1)%Z k
  end.

Definition reading_days_in_window (inp : PlanInput) : nat :=
  count_reading_days (reading_weekdays inp) (start_date inp)
    (Z.to_nat (end_date inp - start_date inp + 1)).

Fixpoint sum_required (inp : PlanInput) (books : list Book) : Q :=
  match books with
  | [] => 0%Q
  | b :: rest => (required inp b + sum_required inp rest)%Q
  end.

(** The minutes still to be scheduled: what remains of the current book and
    the books after it. *)
Definition pending (inp : PlanInput) (st : PlanState) : Q :=
  (current_book_remaining_min st
   + sum_required inp
       (skipn (S (current_book_index st)) (book_schedule_list inp)))%Q.

(** The daily minutes of the reading days before the current date. *)
Definition budget_so_far (inp : PlanInput) (st : PlanState) : Q :=
  (inject_Z (daily_time_total_minutes inp)
   * inject_Z (Z.of_nat
       (count_reading_days (reading_weekdays inp) (start_date inp)
          (Z.to_nat (current_date st - start_date inp)))))%Q.

Definition on_schedule (inp : PlanInput) (st : PlanState) : Prop :=
  (start_date inp <= current_date st)%Z /\
  ((current_book_index st < length (book_schedule_list inp))%nat ->
   (0 < current_book_remaining_min st)%Q /\
   (pending inp st + budget_so_far inp st
    <= sum_required inp (book_schedule_list inp))%Q).

Definition on_schedule_in_session (inp : PlanInput) (st : PlanState) : Prop :=
  (start_date inp <= current_date st)%Z /\
  in_list (weekday (current_date st)) (reading_weekdays inp) = true /\
  ((current_book_index st < length (book_schedule_list inp))%nat ->
   (0 < current_book_remaining_min st)%Q /\
   (pending inp st - remaining_session_time st + budget_so_far inp st
    + inject_Z (daily_time_total_minutes inp)
    <= sum_required inp (book_schedule_list inp))%Q).


(** ** The rest of [plan_lectura.py]: the badge of a reading speed *)

(** [divmod(a, 60)], as the quotient and the remainder of the exact division.
    On a float this is what Python computes for a number of seconds from 0
    up to 2^53; below 0 and beyond, the float remainder is rounded. *)
Definition divmod60 (a : Q) : Q * Q :=
  let q := inject_Z (Qfloor (a / 60)) in (q, (a - 60 * q)%Q).

(** [int(x)], which is what [%d] makes of a float: the fraction is dropped. *)
Definition truncate (x : Q) : Z :=
  if Qltb x 0 then (- Qfloor (- x))%Z else Qfloor x.

(** ["%02d" % n]: the decimal digits of [n], with a zero in front of a lone
    digit. *)
Definition format_02d (n : Z) : string :=
  let digits := NilZero.string_of_int (Z.to_int n) in
  if (String.length digits <? 2)%nat then "0" ++ digits else digits.

Definition convert (seconds : Q) : string :=
  let '(min, sec) := divmod60 seconds in
  let '(hour, min) := divmod60 min in
  format_02d (truncate min) ++ ":" ++ format_02d (truncate sec).

(** ** The settings and the book form *)

(** The code stored with a book added through the form. *)
Definition category_code (book_category : string) : string :=
  if String.eqb book_category "Análisis" then "A"
  else if String.eqb book_category "Divulgación" then "D"
  else "T".

(** [reading_speeds_dict], from the seconds per page of the three inputs. *)
Definition reading_speeds_dict (speed_d speed_t speed_a : Q) : gmap string Q :=
  <["A" := (speed_a / 60)%Q]>
    (<["T" := (speed_t / 60)%Q]> (<["D" := (speed_d / 60)%Q]> ∅)).

(** The seconds per page the settings give for a category of the form. *)
Definition form_speed (speed_d speed_t speed_a : Q) (book_category : string)
    : Q :=
  if String.eqb book_category "Análisis" then speed_a
  else if String.eqb book_category "Divulgación" then speed_d
  else speed_t.

Definition day_names : list string :=
  [ "Lunes"; "Martes"; "Miércoles"; "Jueves"; "Viernes"; "Sábado"; "Domingo" ].

(** [enumerate(l)], counting from [i]. *)
Fixpoint enumerate {A} (i : Z) (l : list A) : list (Z * A) :=
  match l with
  | [] => []
  | x :: rest => (i, x) :: enumerate (i + 1)%Z rest
  end.

(** [{name: i for i, name in enumerate(day_names)}] *)
Definition day_map : gmap string Z :=
  fold_left (fun m '(i, name) => <[name := i]> m) (enumerate 0 day_names) ∅.

(** [[day_map[name] for name in selected_day_names]]; [None] is the
    [KeyError] of a name that is not a key. *)
Fixpoint selected_weekdays (selected_day_names : list string)
    : option (list Z) :=
  match selected_day_names with
  | [] => Some []
  | name :: rest =>
      match day_map !! name with
      | None => None
      | Some i =>
          match selected_weekdays rest with
          | None => None
          | Some l => Some (i :: l)
          end
      end
  end.

(** ** Vocabulary of the text properties *)

Definition is_special (c : ascii) : bool :=
  Ascii.eqb c backslash || Ascii.eqb c comma || Ascii.eqb c semicolon
  || Ascii.eqb c newline.

(** The number of characters of [text] that [escape_ics_text] rewrites. *)
Fixpoint specials (text : string) : nat :=
  match text with
  | EmptyString => O
  | String c rest => ((if is_special c then 1 else 0) + specials rest)%nat
  end.

(** [c in text] *)
Fixpoint occurs (c : ascii) (text : string) : bool :=
  match text with
  | EmptyString => false
  | String x rest => Ascii.eqb x c || occurs c rest
  end.


(** ** The calendar file *)

Section IcsFile.
Context {RT : PyRuntime}.

(** [format_ics_datetime], the runtime's [dt.strftime("%Y%m%dT%H%M%S")]: it
    renders the three dates of an event, which [add_event] stores rendered. *)
Variable format_ics_datetime : datetime -> string.

Definition ics_header (cal_name : string) : list string :=
  [ "BEGIN:VCALENDAR";
    "VERSION:2.0";
    "PRODID:-//Streamlit Plan Lector//ES";
    "CALSCALE:GREGREGORIAN";
    "METHOD:PUBLISH";
    "X-WR-CALNAME:" ++ escape_ics_text cal_name;
    "X-WR-TIMEZONE:Europe/Madrid" ].

Definition event_lines (event : Event) : list string :=
  [ "BEGIN:VEVENT";
    "UID:" ++ uid event;
    "DTSTAMP:" ++ format_ics_datetime (dtstamp event);
    "DTSTART:" ++ format_ics_datetime (dtstart event);
    "DTEND:" ++ format_ics_datetime (dtend event);
    "SUMMARY:" ++ summary event;
    "DESCRIPTION:" ++ description event;
    "ORGANIZER;CN=" ++ ev_organizer_name event ++ ":mailto:"
      ++ ev_organizer_email event;
    "LOCATION:" ++ location event;
    "STATUS:" ++ status event;
    "SEQUENCE:" ++ format_int (sequence event);
    "TRANSP:" ++ transp event;
    "CLASS:" ++ ev_class event;
    "PRIORITY:" ++ format_int (priority event) ].

(** The list [ics_content] when it is joined: the header, then for each event
    its lines, its reminders one by one and the closing line. *)
Definition ics_content (events : list Event) (cal_name : string)
    : list string :=
  let ics_content := ics_header cal_name in
  let ics_content :=
    fold_left
      (fun ics_content event =>
         let ics_content := (ics_content ++ event_lines event)%list in
         let ics_content :=
           fold_left (fun ics_content valarm => (ics_content ++ [valarm])%list)
             (valarms event) ics_content in
         (ics_content ++ ["END:VEVENT"])%list)
      events ics_content in
  (ics_content ++ ["END:VCALENDAR"])%list.

(** The two organizer arguments are not read: the organizer of every event is
    the one stored with it. *)
Definition generate_ics_content (events : list Event)
    (organizer_name_ organizer_email_ cal_name : string) : string :=
  join nl (ics_content events cal_name).

(** What one event adds to [ics_content]. *)
Definition event_block (event : Event) : list string :=
  (event_lines event ++ valarms event ++ ["END:VEVENT"])%list.

End IcsFile.

(** The entries of [lines] that are [line]. *)
Definition count_lines (line : string) (lines : list string) : nat :=
  length (List.filter (String.eqb line) lines).


(** ** A plan without events *)

(** Until the first event: no reading day has come since the start date and
    the first book waits untouched. *)
Definition waiting (inp : PlanInput) (first : Book) (st : PlanState) : Prop :=
  (start_date inp <= current_date st)%Z /\
  (events_list (world st) = [] ->
   current_book_index st = 0%nat /\
   current_book_remaining_min st = required inp first /\
   count_reading_days (reading_weekdays inp) (start_date inp)
     (Z.to_nat (current_date st - start_date inp)) = 0%nat).

Definition waiting_in_session (inp : PlanInput) (first : Book)
    (st : PlanState) : Prop :=
  (start_date inp <= current_date st)%Z /\
  (events_list (world st) = [] ->
   current_book_index st = 0%nat /\
   current_book_remaining_min st = required inp first /\
   remaining_session_time st = inject_Z (daily_time_total_minutes inp)).


(** The rows of the table were all removed. *)
Definition emptied_table : PlanInput :=
  sample_input [] 60 {[ "D" := 2 # 1 ]} [0; 1; 2; 3; 4; 5]%Z.

(** A book without pages before a book of 20 minutes, 60 minutes a day. *)
Definition zero_page_first : PlanInput :=
  sample_input [ {| title := "Z"; pages := 0; category := "D" |};
                 {| title := "A"; pages := 10; category := "D" |} ] 60
    {[ "D" := 2 # 1 ]} [0; 1; 2; 3; 4; 5]%Z.


(* ================================================================== *)
(** * Properties *)

(** ** Text escaping *)

Lemma app_String c (a b : string) : String c a ++ b = String c (a ++ b).
Proof. reflexivity. Qed.

Lemma app_Empty (b : string) : EmptyString ++ b = b.
Proof. reflexivity. Qed.

Lemma string_app_assoc (a b c : string) : (a ++ b) ++ c = a ++ b ++ c.
Proof.
  induction a as [|x a IH]; [reflexivity|].
  now rewrite !app_String, IH.
Qed.

Lemma str_replace_app old new a b :
  str_replace old new (a ++ b) = str_replace old new a ++ str_replace old new b.
Proof.
  induction a as [|c a IH]; [reflexivity|].
  rewrite app_String. simpl.
  destruct (Ascii.eqb c old); rewrite IH.
  - now rewrite string_app_assoc.
  - reflexivity.
Qed.

Lemma escape_ics_text_app a b :
  escape_ics_text (a ++ b) = escape_ics_text a ++ escape_ics_text b.
Proof. unfold escape_ics_text. now rewrite !str_replace_app. Qed.

Lemma escape_ics_text_char c :
  escape_ics_text (String c EmptyString) = escape_char c.
Proof.
  unfold escape_ics_text, escape_char.
  destruct (Ascii.eqb_spec c backslash) as [->|Hb]; [reflexivity|].
  destruct (Ascii.eqb_spec c comma) as [->|Hc]; [reflexivity|].
  destruct (Ascii.eqb_spec c semicolon) as [->|Hs]; [reflexivity|].
  destruct (Ascii.eqb_spec c newline) as [->|Hn]; [reflexivity|].
  simpl.
  destruct (Ascii.eqb_spec c backslash); [contradiction|]. simpl.
  destruct (Ascii.eqb_spec c comma); [contradiction|]. simpl.
  destruct (Ascii.eqb_spec c semicolon); [contradiction|]. simpl.
  destruct (Ascii.eqb_spec c newline); [contradiction|]. reflexivity.
Qed.

Lemma escape_ics_text_chars text : escape_ics_text text = escape_chars text.
Proof.
  induction text as [|c text IH]; [reflexivity|].
  change (String c text) with (String c EmptyString ++ text).
  rewrite escape_ics_text_app, escape_ics_text_char, IH. reflexivity.
Qed.

Lemma unescape_escape_chars text :
  unescape_ics_text (escape_chars text) = text.
Proof.
  induction text as [|c text IH]; [reflexivity|].
  simpl. unfold escape_char, esc.
  destruct (Ascii.eqb_spec c backslash) as [->|Hb];
    [rewrite !app_String, app_Empty; simpl; now rewrite IH|].
  destruct (Ascii.eqb_spec c comma) as [->|Hc];
    [rewrite !app_String, app_Empty; simpl; now rewrite IH|].
  destruct (Ascii.eqb_spec c semicolon) as [->|Hs];
    [rewrite !app_String, app_Empty; simpl; now rewrite IH|].
  destruct (Ascii.eqb_spec c newline) as [->|Hn];
    [rewrite !app_String, app_Empty; simpl; now rewrite IH|].
  rewrite app_String, app_Empty. simpl.
  destruct (Ascii.eqb_spec c backslash); [contradiction|].
  now rewrite IH.
Qed.


(** C9.  The four replacement passes of [escape_ics_text], backslash first,
    amount to rewriting each character on its own: backslash, comma,
    semicolon and newline become a backslash followed by the character (by
    the letter n for the newline) and every other character is kept; and
    [unescape_ics_text] reads the original text back from the escaped one. *)
Theorem escape_ics_text_roundtrip :
  forall text : string,
    escape_ics_text text = escape_chars text /\
    (forall c, c <> backslash -> c <> comma -> c <> semicolon -> c <> newline ->
               escape_char c = String c EmptyString) /\
    escape_char backslash = esc backslash /\
    escape_char comma = esc comma /\
    escape_char semicolon = esc semicolon /\
    escape_char newline = esc letter_n /\
    unescape_ics_text (escape_ics_text text) = text.
Proof.
  intros text. split; [apply escape_ics_text_chars|].
  split.
  { intros c Hb Hc Hs Hn. unfold escape_char.
    destruct (Ascii.eqb_spec c backslash); [contradiction|].
    destruct (Ascii.eqb_spec c comma); [contradiction|].
    destruct (Ascii.eqb_spec c semicolon); [contradiction|].
    destruct (Ascii.eqb_spec c newline); [contradiction|reflexivity]. }
  repeat (split; [reflexivity|]).
  rewrite escape_ics_text_chars. apply unescape_escape_chars.
Qed.

(** ** Loops *)

Section WhileRules.
Context {St : Type} (cond : St -> bool) (body : St -> outcome (ctl * St)).

(** Partial correctness: an invariant kept by every continuing iteration
    yields the postcondition at the exit, be it through the condition or
    through [break]. *)
Lemma while_partial (I P : St -> Prop) :
  (forall s, I s -> cond s = false -> P s) ->
  (forall s c s', I s -> cond s = true -> body s = Ok (c, s') ->
                  match c with Next => I s' | Break => P s' end) ->
  forall fuel s s', I s -> while cond body fuel s = Ok s' -> P s'.
Proof.
  intros Hexit Hstep fuel.
  induction fuel as [|k IH]; intros s s' Hs Hrun; [discriminate|].
  simpl in Hrun. destruct (cond s) eqn:Hc.
  - destruct (body s) as [[[|] s1]| |] eqn:Hb; try discriminate.
    + apply (IH s1 s'); [|exact Hrun]. exact (Hstep s Next s1 Hs Hc Hb).
    + injection Hrun as <-. exact (Hstep s Break s1 Hs Hc Hb).
  - injection Hrun as <-. now apply Hexit.
Qed.

(** Termination: when every iteration returns and the continuing ones lower
    a measure, a bound above the measure is enough. *)
Lemma while_terminates (I : St -> Prop) (m : St -> nat) :
  (forall s, I s -> cond s = true ->
             exists c s', body s = Ok (c, s') /\
                          (c = Next -> I s' /\ (m s' < m s)%nat)) ->
  forall fuel s, I s -> (m s < fuel)%nat ->
                 exists s', while cond body fuel s = Ok s'.
Proof.
  intros Hstep fuel.
  induction fuel as [|k IH]; intros s Hs Hm; [lia|].
  simpl. destruct (cond s) eqn:Hc; [|eauto].
  destruct (Hstep s Hs Hc) as (c & s1 & Hb & Hnext). rewrite Hb.
  destruct c; [|eauto].
  destruct (Hnext eq_refl) as [Hs1 Hlt]. apply IH; [exact Hs1|lia].
Qed.

End WhileRules.

(** Two loops that move in step. *)
Lemma while_sim {A B} (R : A -> B -> Prop)
    (c1 : A -> bool) (b1 : A -> outcome (ctl * A))
    (c2 : B -> bool) (b2 : B -> outcome (ctl * B)) :
  (forall s1 s2, R s1 s2 -> c1 s1 = c2 s2) ->
  (forall s1 s2, R s1 s2 ->
     outcome_rel (fun x y => fst x = fst y /\ R (snd x) (snd y)) (b1 s1) (b2 s2)) ->
  forall fuel s1 s2, R s1 s2 ->
    outcome_rel R (while c1 b1 fuel s1) (while c2 b2 fuel s2).
Proof.
  intros Hc Hb fuel. induction fuel as [|k IH]; intros s1 s2 HR; simpl.
  - constructor.
  - rewrite <- (Hc s1 s2 HR). destruct (c1 s1); [|now constructor].
    destruct (Hb s1 s2 HR) as [[k1 a] [k2 b] [Hk Hab]| |]; simpl in *.
    + subst k2. destruct k1; [now apply IH|now constructor].
    + constructor.
    + constructor.
Qed.

(** ** Weekdays and the search for the next reading day *)

Lemma in_list_true x l : in_list x l = true <-> In x l.
Proof.
  unfold in_list. rewrite existsb_exists. split.
  - intros (y & Hy & Heq). apply Z.eqb_eq in Heq. now subst.
  - intros H. exists x. split; [exact H|apply Z.eqb_refl].
Qed.

Lemma weekday_range d : (0 <= weekday d < 7)%Z.
Proof. unfold weekday. apply Z.mod_pos_bound. lia. Qed.

Lemma weekday_reach (d : date) w :
  (0 <= w < 7)%Z -> exists n, (n < 7)%nat /\ weekday (d + Z.of_nat n)%Z = w.
Proof.
  intros Hw. exists (Z.to_nat ((w - weekday d) mod 7)).
  pose proof (Z.mod_pos_bound (w - weekday d) 7 ltac:(lia)) as Hb.
  split; [lia|]. rewrite Z2Nat.id by lia.
  unfold weekday in *. 
  pose proof (Z.mod_pos_bound (d + 6) 7 ltac:(lia)).
  Z.div_mod_to_equations. lia.
Qed.

Lemma next_reading_day_search weekdays n :
  forall fuel (d : date),
    in_list (weekday (d + Z.of_nat n)%Z) weekdays = true -> (n < fuel)%nat ->
    exists d', next_reading_day fuel d weekdays = Ok d' /\
               (d <= d' <= d + Z.of_nat n)%Z /\
               in_list (weekday d') weekdays = true /\
               (forall x, (d <= x < d')%Z -> in_list (weekday x) weekdays = false).
Proof.
  induction n as [|n IH]; intros fuel d Hin Hlt.
  - destruct fuel as [|k]; [lia|]. unfold next_reading_day. simpl.
    replace (d + Z.of_nat 0)%Z with d in Hin by lia. rewrite Hin. simpl.
    exists d. repeat split; try lia. exact Hin.
  - destruct fuel as [|k]; [lia|]. unfold next_reading_day. simpl.
    destruct (in_list (weekday d) weekdays) eqn:Hd; simpl.
    + exists d. repeat split; try lia. exact Hd.
    + destruct (IH k (d + 1)%Z) as (d' & Hrun & Hrange & Hd' & Hmin).
      * replace (d + 1 + Z.of_nat n)%Z with (d + Z.of_nat (S n))%Z by lia.
        exact Hin.
      * lia.
      * exists d'. split; [exact Hrun|]. split; [lia|]. split; [exact Hd'|].
        intros x Hx. destruct (Z.eq_dec x d) as [->|Hne]; [exact Hd|].
        apply Hmin. lia.
Qed.

Lemma next_reading_day_total weekdays w fuel d :
  In w weekdays -> (0 <= w < 7)%Z -> (7 <= fuel)%nat ->
  exists d', next_reading_day fuel d weekdays = Ok d' /\
             (d <= d' < d + 7)%Z /\
             in_list (weekday d') weekdays = true /\
             (forall x, (d <= x < d')%Z -> in_list (weekday x) weekdays = false).
Proof.
  intros Hin Hw Hfuel.
  destruct (weekday_reach d w Hw) as (n & Hn & Hwd).
  destruct (next_reading_day_search weekdays n fuel d) as (d' & H1 & H2 & H3 & H4).
  - rewrite Hwd. now apply in_list_true.
  - lia.
  - exists d'. repeat split; try assumption; lia.
Qed.

(** ** Comparisons *)

Lemma Qltb_true x y : Qltb x y = true <-> (x < y)%Q.
Proof.
  unfold Qltb. rewrite negb_true_iff. split.
  - intros H. apply Qnot_le_lt. intros Hle.
    apply Qle_bool_iff in Hle. congruence.
  - intros H. destruct (Qle_bool y x) eqn:E; [|reflexivity].
    apply Qle_bool_iff in E. lra.
Qed.

Lemma Qltb_false x y : Qltb x y = false <-> (y <= x)%Q.
Proof.
  unfold Qltb. rewrite negb_false_iff. apply Qle_bool_iff.
Qed.

Lemma Qle_bool_false x y : Qle_bool x y = false <-> (y < x)%Q.
Proof.
  split.
  - intros H. apply Qnot_le_lt. intros Hle.
    apply Qle_bool_iff in Hle. congruence.
  - intros H. destruct (Qle_bool x y) eqn:E; [|reflexivity].
    apply Qle_bool_iff in E. lra.
Qed.

Lemma py_min_spec a b :
  ((b < a)%Q /\ py_min a b = b) \/ ((a <= b)%Q /\ py_min a b = a).
Proof.
  unfold py_min. destruct (Qltb b a) eqn:E.
  - left. split; [now apply Qltb_true|reflexivity].
  - right. split; [now apply Qltb_false|reflexivity].
Qed.

(** ** The session loop, one iteration at a time *)

Section StepLemmas.
Context {RT : PyRuntime}.
Variable inp : PlanInput.

Lemma session_body_step fuel st c st' :
  session_body fuel inp st = Ok (c, st') -> session_step inp fuel st c st'.
Proof.
  unfold session_body.
  destruct (nth_error (book_schedule_list inp) (current_book_index st))
    as [book|] eqn:Hbook; [|discriminate].
  fold (time_to_dedicate_of st).
  destruct (Qle_bool (time_to_dedicate_of st) 0) eqn:Ht.
  { intros [= <- <-]. apply Qle_bool_iff in Ht. eapply step_idle; eauto. }
  apply Qle_bool_false in Ht.
  destruct (Qle_bool (current_book_remaining_min st - time_to_dedicate_of st)
                     (1 # 10)) eqn:Hdone.
  2:{ intros [= <- <-]. apply Qle_bool_false in Hdone.
      now apply step_read. }
  apply Qle_bool_iff in Hdone.
  unfold schedule_book_review.
  destruct (next_reading_day fuel (current_date st + 1)%Z (reading_weekdays inp))
    as [d| |] eqn:Hd; cbn [bind]; try discriminate.
  destruct (S (current_book_index st) <? length (book_schedule_list inp))%nat
    eqn:Hidx.
  - destruct (nth_error (book_schedule_list inp) (S (current_book_index st)))
      as [next_book|] eqn:Hnext; [|discriminate].
    intros [= <- <-]. now apply (step_complete inp fuel st book d next_book).
  - apply Nat.ltb_ge in Hidx.
    intros [= <- <-].
    pose proof (step_last inp fuel st book d Hbook Ht Hdone Hd Hidx) as Hs.
    unfold after_last in Hs. rewrite length_app, Nat.add_comm in *. exact Hs.
Qed.

(** On a reading day an iteration always returns. *)
Lemma session_body_returns fuel st :
  (7 <= fuel)%nat ->
  in_list (weekday (current_date st)) (reading_weekdays inp) = true ->
  (current_book_index st < length (book_schedule_list inp))%nat ->
  exists c st', session_body fuel inp st = Ok (c, st').
Proof.
  intros Hfuel Hday Hidx. unfold session_body.
  destruct (nth_error (book_schedule_list inp) (current_book_index st))
    as [book|] eqn:Hbook.
  2:{ apply nth_error_None in Hbook. lia. }
  destruct (Qle_bool _ 0); [eauto|].
  destruct (Qle_bool _ (1 # 10)); [|eauto].
  unfold schedule_book_review.
  apply in_list_true in Hday.
  destruct (next_reading_day_total (reading_weekdays inp) _ fuel
              (current_date st + 1)%Z Hday (weekday_range _) Hfuel)
    as (d & -> & _). cbn [bind].
  destruct (S (current_book_index st) <? length (book_schedule_list inp))%nat
    eqn:Hnext; [|eauto].
  apply Nat.ltb_lt in Hnext.
  destruct (nth_error (book_schedule_list inp) (S (current_book_index st)))
    eqn:Hb; [eauto|].
  apply nth_error_None in Hb. lia.
Qed.

End StepLemmas.

(** ** Termination of the engine *)

Section Termination.
Context {RT : PyRuntime}.
Variable inp : PlanInput.
Variable fuel : nat.

Lemma session_step_date st c st' :
  session_step inp fuel st c st' -> current_date st' = current_date st.
Proof. destruct 1; reflexivity. Qed.

Lemma session_loop_date n st st' :
  while (session_cond inp) (session_body fuel inp) n st = Ok st' ->
  current_date st' = current_date st.
Proof.
  apply (while_partial _ _ (fun s => current_date s = current_date st)
           (fun s => current_date s = current_date st)); [auto| |reflexivity].
  intros s c s' Hs _ Hb. apply session_body_step in Hb.
  apply session_step_date in Hb. destruct c; congruence.
Qed.

Lemma session_loop_returns st :
  (7 <= fuel)%nat ->
  (2 * length (book_schedule_list inp) + 2 <= fuel)%nat ->
  in_list (weekday (current_date st)) (reading_weekdays inp) = true ->
  exists st', session_loop fuel inp st = Ok st'.
Proof.
  intros H7 Hlen Hday. unfold session_loop.
  apply (while_terminates _ _
           (fun s => in_list (weekday (current_date s)) (reading_weekdays inp)
                     = true)
           (session_measure inp)); [|exact Hday|].
  - intros s Hs Hc. unfold session_cond in Hc.
    apply andb_true_iff in Hc as [Hrs Hidx]. apply Nat.ltb_lt in Hidx.
    destruct (session_body_returns inp fuel s H7 Hs Hidx) as (c & s' & Hb).
    exists c, s'. split; [exact Hb|]. intros ->.
    apply session_body_step in Hb.
    pose proof (session_step_date _ _ _ Hb) as Hdate.
    split; [now rewrite Hdate|].
    unfold session_measure. rewrite Hrs.
    inversion Hb; subst; cbn [after_read after_complete current_book_index
                                remaining_session_time].
    + assert (Hz : Qltb 0 (remaining_session_time s - time_to_dedicate_of s)
                   = false).
      { apply Qltb_false. unfold time_to_dedicate_of in *.
        destruct (py_min_spec (remaining_session_time s)
                    (current_book_remaining_min s)) as [[? E]|[? E]];
          rewrite E in *; lra. }
      rewrite Hz. cbv iota. lia.
    + clear - Hidx. destruct (Qltb 0 _); lia.
  - unfold session_measure. destruct (Qltb 0 _); lia.
Qed.

Lemma day_body_returns st :
  (7 <= fuel)%nat ->
  (2 * length (book_schedule_list inp) + 2 <= fuel)%nat ->
  exists c st', day_body fuel inp st = Ok (c, st') /\
                current_date st' = (current_date st + 1)%Z.
Proof.
  intros H7 Hlen. unfold day_body.
  destruct (in_list (weekday (current_date st)) (reading_weekdays inp)) eqn:Hday.
  - destruct (session_loop_returns (begin_session inp st) H7 Hlen Hday)
      as (st1 & Hrun).
    rewrite Hrun. cbn [bind].
    apply session_loop_date in Hrun. cbn [begin_session current_date] in Hrun.
    destruct (_ <=? _)%nat; eexists _, _; (split; [reflexivity|]);
      cbn [st_success next_day current_date]; lia.
  - cbn [bind].
    destruct (_ <=? _)%nat; eexists _, _; (split; [reflexivity|]);
      cbn [st_success next_day current_date]; lia.
Qed.

Lemma day_loop_returns st :
  (7 <= fuel)%nat ->
  (2 * length (book_schedule_list inp) + 2 <= fuel)%nat ->
  (days_left inp st < fuel)%nat ->
  exists st', day_loop fuel inp st = Ok st'.
Proof.
  intros H7 Hlen Hdays. unfold day_loop.
  apply (while_terminates _ _ (fun _ => True) (days_left inp)); [|exact I|exact Hdays].
  intros s _ Hc. unfold day_cond in Hc. apply Z.leb_le in Hc.
  destruct (day_body_returns s H7 Hlen) as (c & s' & Hb & Hdate).
  exists c, s'. split; [exact Hb|]. intros _. split; [exact I|].
  unfold days_left. rewrite Hdate. lia.
Qed.

Lemma create_reading_plan_returns :
  (enough_fuel inp <= fuel)%nat ->
  exists out, create_reading_plan fuel inp = Ok out.
Proof.
  intros Hfuel. unfold enough_fuel in Hfuel. unfold create_reading_plan.
  destruct (book_schedule_list inp) as [|first rest] eqn:Hbooks; [eauto|].
  destruct (day_loop_returns (initial_state inp first)) as (st & Hrun).
  - lia.
  - rewrite Hbooks. lia.
  - unfold days_left. cbn [initial_state current_date]. lia.
  - rewrite Hrun. cbn [bind]. eauto.
Qed.

(** ** Invariants of the engine

    [D] holds between the days, [Sx] inside the session loop of a reading
    day. *)
Lemma engine_invariant (D Sx : PlanState -> Prop) :
  (forall st, D st ->
     (current_book_index st < length (book_schedule_list inp))%nat ->
     (current_date st <= end_date inp)%Z ->
     in_list (weekday (current_date st)) (reading_weekdays inp) = true ->
     Sx (begin_session inp st)) ->
  (forall st c st', Sx st -> session_cond inp st = true ->
     session_step inp fuel st c st' -> Sx st') ->
  (forall st, Sx st -> D (next_day st)) ->
  (forall st, D st ->
     (current_book_index st < length (book_schedule_list inp))%nat ->
     (current_date st <= end_date inp)%Z ->
     in_list (weekday (current_date st)) (reading_weekdays inp) = false ->
     D (next_day st)) ->
  (forall st msg, D st ->
     (length (book_schedule_list inp) <= current_book_index st)%nat ->
     D (st_success msg st)) ->
  forall st st',
    D st -> (current_book_index st < length (book_schedule_list inp))%nat ->
    day_loop fuel inp st = Ok st' -> D st'.
Proof.
  intros Hbegin Hstep Hend Hskip Hmsg st st' HD Hidx Hrun.
  unfold day_loop in Hrun. revert Hrun.
  apply (while_partial _ _
           (fun s => D s /\
              (current_book_index s < length (book_schedule_list inp))%nat)
           D); [tauto| |tauto].
  clear st st' HD Hidx. intros s c s' [HD Hidx] Hc Hb.
  unfold day_cond in Hc. apply Z.leb_le in Hc.
  unfold day_body in Hb.
  destruct (in_list (weekday (current_date s)) (reading_weekdays inp)) eqn:Hday.
  - destruct (session_loop fuel inp (begin_session inp s)) as [s1| |] eqn:Hs;
      cbn [bind] in Hb; try discriminate.
    assert (HS1 : Sx s1).
    { unfold session_loop in Hs. revert Hs.
      apply (while_partial _ _ Sx Sx); [tauto| |now apply Hbegin].
      intros x k x' Hx Hcx Hbx. apply session_body_step in Hbx.
      destruct k; eapply Hstep; eauto. }
    destruct (_ <=? _)%nat eqn:Hall; injection Hb as <- <-.
    + apply Nat.leb_le in Hall. apply Hmsg; [apply Hend, HS1|exact Hall].
    + apply Nat.leb_gt in Hall. split; [apply Hend, HS1|exact Hall].
  - cbn [bind] in Hb.
    destruct (_ <=? _)%nat eqn:Hall; injection Hb as <- <-.
    + apply Nat.leb_le in Hall. apply Hmsg; [now apply Hskip|exact Hall].
    + apply Nat.leb_gt in Hall. split; [now apply Hskip|exact Hall].
Qed.

(** The loop over the days stops past the end date or with every book read. *)
Lemma day_loop_exit st st' :
  (current_book_index st < length (book_schedule_list inp))%nat ->
  day_loop fuel inp st = Ok st' ->
  (end_date inp < current_date st')%Z \/
  (length (book_schedule_list inp) <= current_book_index st')%nat.
Proof.
  unfold day_loop.
  apply (while_partial _ _
           (fun s => (current_book_index s
                      < length (book_schedule_list inp))%nat)
           (fun s => (end_date inp < current_date s)%Z \/
                     (length (book_schedule_list inp)
                      <= current_book_index s)%nat)).
  - intros s _ Hc. unfold day_cond in Hc. apply Z.leb_gt in Hc. now left.
  - intros s c s' _ _ Hb. unfold day_body in Hb.
    destruct (if in_list (weekday (current_date s)) (reading_weekdays inp)
              then session_loop fuel inp (begin_session inp s) else Ok s)
      as [s1| |]; cbn [bind] in Hb; try discriminate.
    destruct (_ <=? _)%nat eqn:Hall; injection Hb as <- <-.
    + apply Nat.leb_le in Hall. right. exact Hall.
    + apply Nat.leb_gt in Hall. exact Hall.
Qed.

End Termination.

(** ** The bound on the loops does not show in the results *)

Section FuelIndependence.
Context {RT : PyRuntime}.
Variable inp : PlanInput.

Lemma while_mono {St} (cond : St -> bool)
    (body body' : St -> outcome (ctl * St)) :
  (forall s r, body s = Ok r -> body' s = Ok r) ->
  forall n n' s s',
    (n <= n')%nat ->
    while cond body n s = Ok s' -> while cond body' n' s = Ok s'.
Proof.
  intros Hbody n. induction n as [|k IH]; intros n' s s' Hle Hrun;
    [discriminate|].
  destruct n' as [|k']; [lia|]. simpl in *.
  destruct (cond s); [|exact Hrun].
  destruct (body s) as [[c s1]| |] eqn:Hb; try discriminate.
  rewrite (Hbody s _ Hb). destruct c; [|exact Hrun].
  apply IH; [lia|exact Hrun].
Qed.

Lemma next_reading_day_mono n n' d weekdays d' :
  (n <= n')%nat ->
  next_reading_day n d weekdays = Ok d' ->
  next_reading_day n' d weekdays = Ok d'.
Proof. unfold next_reading_day. apply while_mono. auto. Qed.

Lemma session_body_mono n n' st r :
  (n <= n')%nat ->
  session_body n inp st = Ok r -> session_body n' inp st = Ok r.
Proof.
  intros Hle. unfold session_body.
  destruct (nth_error _ _); [|discriminate].
  destruct (Qle_bool _ 0); [auto|].
  destruct (Qle_bool _ (1 # 10)); [|auto].
  unfold schedule_book_review.
  destruct (next_reading_day n _ _) as [d| |] eqn:Hd; cbn [bind];
    try discriminate.
  now rewrite (next_reading_day_mono n n' _ _ d Hle Hd).
Qed.

Lemma session_loop_mono n n' st st' :
  (n <= n')%nat ->
  session_loop n inp st = Ok st' -> session_loop n' inp st = Ok st'.
Proof.
  intros Hle. unfold session_loop. apply while_mono; [|exact Hle].
  intros s r. now apply session_body_mono.
Qed.

Lemma day_body_mono n n' st r :
  (n <= n')%nat ->
  day_body n inp st = Ok r -> day_body n' inp st = Ok r.
Proof.
  intros Hle. unfold day_body.
  destruct (in_list _ _); [|auto].
  destruct (session_loop n inp (begin_session inp st)) as [s1| |] eqn:Hs;
    cbn [bind]; try discriminate.
  now rewrite (session_loop_mono n n' _ s1 Hle Hs).
Qed.

(** A run that returns under a bound returns the same under a larger one. *)
Lemma create_reading_plan_mono n n' out :
  (n <= n')%nat ->
  create_reading_plan n inp = Ok out -> create_reading_plan n' inp = Ok out.
Proof.
  intros Hle. unfold create_reading_plan.
  destruct (book_schedule_list inp) as [|first rest]; [auto|].
  destruct (day_loop n inp (initial_state inp first)) as [st| |] eqn:Hloop;
    cbn [bind]; try discriminate.
  assert (Hloop' : day_loop n' inp (initial_state inp first) = Ok st).
  { revert Hloop. unfold day_loop. apply while_mono; [|exact Hle].
    intros s r. now apply day_body_mono. }
  now rewrite Hloop'.
Qed.

End FuelIndependence.

(** ** What the events look like *)

Section Events.
Context {RT : PyRuntime}.

Lemma Forall_add_event (P : Event -> Prop) w dt mins s d oe on rc loc stat rev :
  Forall P (events_list w) ->
  P (event_dict (now (clock_reads w)) dt mins s d oe on rc loc stat rev) ->
  Forall P (events_list (add_event w dt mins s d oe on rc loc stat rev)).
Proof.
  intros Hw He. unfold add_event. cbn [events_list].
  apply Forall_app. split; [exact Hw|]. now constructor.
Qed.

(** An invariant of the event list alone, kept by the three kinds of
    events, holds of the list the engine returns. *)
Lemma events_invariant (P : Event -> Prop) fuel inp :
  (forall st book,
      nth_error (book_schedule_list inp) (current_book_index st) = Some book ->
      (0 < time_to_dedicate_of st)%Q ->
      P (event_dict (now (clock_reads (world st))) (session_start_time st)
           (time_to_dedicate_of st) (reading_summary (title book))
           (reading_description (title book) (current_book_remaining_min st)
              (time_to_dedicate_of st))
           (organizer_email inp) (organizer_name inp) the_reminders_config
           "Sala de estudio" "CONFIRMED" false)) ->
  (forall k d book,
      P (event_dict (now k) (combine d (start_time_review inp))
           (inject_Z (review_time_per_book_min inp))
           (review_summary (title book))
           (review_description (title book)
              (calculate_reading_time_hours book (reading_speeds inp))
              (review_time_per_book_min inp))
           (organizer_email inp) (organizer_name inp) the_reminders_config
           "Espacio de estudio tranquilo" "CONFIRMED" true)) ->
  (forall k start mins n,
      (0 < mins)%Q ->
      P (event_dict (now k) start mins final_summary (final_description n)
           (organizer_email inp) (organizer_name inp) the_reminders_config
           "" "CONFIRMED" true)) ->
  forall st st',
    Forall P (events_list (world st)) ->
    (current_book_index st < length (book_schedule_list inp))%nat ->
    day_loop fuel inp st = Ok st' ->
    Forall P (events_list (world st')).
Proof.
  intros Hread Hreview Hfinal st st'.
  apply (engine_invariant inp fuel
           (fun s => Forall P (events_list (world s)))
           (fun s => Forall P (events_list (world s)))); try (intros; assumption).
  intros s c s' Hs _ Hstep.
  destruct Hstep as [book Hb Ht|book Hb Ht Hrem|book d nb Hb Ht Hrem Hd Hn
                    |book d Hb Ht Hrem Hd Hn].
  - exact Hs.
  - cbn [after_read world]. apply Forall_add_event; [exact Hs|]. now apply Hread.
  - cbn [after_complete world]. apply Forall_add_event; [|apply Hreview].
    apply Forall_add_event; [exact Hs|]. now apply Hread.
  - cbn [after_last world].
    assert (Hw2 : Forall P (events_list
                              (review_world inp (reading_world inp s book) d book))).
    { apply Forall_add_event; [|apply Hreview].
      apply Forall_add_event; [exact Hs|]. now apply Hread. }
    destruct (Qltb 0 _) eqn:Hleft; [|exact Hw2].
    apply Forall_add_event; [exact Hw2|]. apply Hfinal. now apply Qltb_true.
Qed.

End Events.

(** ** The claims *)

Section Claims.
Context {RT : PyRuntime}.

(** What the guards of the session loop are written for.  On exact numbers
    they do keep empty events out: with a positive review duration, every
    event of a run was built from a strictly positive number of minutes.
    This is a fact of the exact arithmetic of this development only: the
    binary64 subtractions of the interpreter can leave a remainder of the
    daily minutes of the order of 1e-14, which passes both guards and which
    [timedelta] rounds to no time at all. *)
Lemma guards_keep_empty_events_out fuel inp :
  (0 < review_time_per_book_min inp)%Z ->
  (enough_fuel inp <= fuel)%nat ->
  exists out,
    create_reading_plan fuel inp = Ok out /\
    Forall (fun e => exists mins,
                (0 < mins)%Q /\ dtend e = add_minutes (dtstart e) mins /\
                (0 < duration e)%Q)
           (out_events out).
Proof.
  intros Hrev Hfuel.
  destruct (create_reading_plan_returns inp fuel Hfuel) as (out & Hrun).
  exists out. split; [exact Hrun|].
  unfold create_reading_plan in Hrun.
  destruct (book_schedule_list inp) as [|first rest] eqn:Hbooks.
  { injection Hrun as <-. constructor. }
  destruct (day_loop fuel inp (initial_state inp first)) as [st| |] eqn:Hloop;
    cbn [bind] in Hrun; try discriminate.
  injection Hrun as <-. cbn [plan_output out_events].
  assert (Hpos : forall stamp start mins s d oe on rc loc stat rev,
             (0 < mins)%Q ->
             exists m, (0 < m)%Q /\
               dtend (event_dict stamp start mins s d oe on rc loc stat rev)
               = add_minutes
                   (dtstart (event_dict stamp start mins s d oe on rc loc stat rev))
                   m /\
               (0 < duration (event_dict stamp start mins s d oe on rc loc stat rev))%Q).
  { intros. exists mins. split; [assumption|]. split; [reflexivity|].
    unfold duration, event_dict, add_minutes. cbn [dtend dtstart]. lra. }
  revert Hloop. apply events_invariant.
  - intros. now apply Hpos.
  - intros. apply Hpos. change 0%Q with (inject_Z 0). rewrite <- Zlt_Qlt. exact Hrev.
  - intros. now apply Hpos.
  - constructor.
  - rewrite Hbooks. cbn. lia.
Qed.

(** C7.  For every candidate date and every non-empty set of weekdays
    (indices 0 to 6), [schedule_book_review] returns after at most seven
    tests of its loop, and the one event it appends starts at the review
    time of the earliest date, from the candidate date on, whose weekday is
    in the set: the candidate date itself when its weekday qualifies. *)
Theorem schedule_book_review_next_reading_day
    fuel w (review_date : date) book_name book_hours review_time_min
    start_time weekdays oe on rc :
  weekdays <> [] ->
  Forall (fun x => 0 <= x < 7)%Z weekdays ->
  (7 <= fuel)%nat ->
  exists (d : date) (e : Event),
    schedule_book_review fuel w review_date book_name book_hours
      review_time_min start_time weekdays oe on rc
    = Ok {| events_list := (events_list w ++ [e])%list;
            clock_reads := S (clock_reads w);
            st_messages := st_messages w |} /\
    dtstart e = combine d start_time /\
    (review_date <= d)%Z /\
    in_list (weekday d) weekdays = true /\
    (forall x, (review_date <= x < d)%Z -> in_list (weekday x) weekdays = false) /\
    (in_list (weekday review_date) weekdays = true -> d = review_date).
Proof.
  intros Hne Hvalid Hfuel.
  destruct weekdays as [|w0 rest]; [contradiction|].
  assert (Hw0 : (0 <= w0 < 7)%Z) by (now inversion Hvalid).
  destruct (next_reading_day_total (w0 :: rest) w0 fuel review_date)
    as (d & Hrun & Hrange & Hd & Hmin); [now left|exact Hw0|exact Hfuel|].
  unfold schedule_book_review. rewrite Hrun. cbn [bind].
  eexists d, _. split; [reflexivity|].
  split; [reflexivity|]. split; [lia|]. split; [exact Hd|].
  split; [exact Hmin|].
  intros Hin. destruct (Z.eq_dec d review_date) as [->|Hneq]; [reflexivity|].
  rewrite (Hmin review_date) in Hin; [discriminate|lia].
Qed.

(** C8.  On an empty book list [create_reading_plan] returns at once, before
    any loop (no iteration is needed, whatever the bound), an empty event
    list, an empty ledger and the three zero statistics, having read no clock
    and shown no message. *)
Theorem empty_book_list_returns_empty_plan
    fuel s e budget rev speeds weekdays tb tr oe on :
  create_reading_plan fuel
    {| book_schedule_list := []; start_date := s; end_date := e;
       daily_time_total_minutes := budget; review_time_per_book_min := rev;
       reading_speeds := speeds; reading_weekdays := weekdays;
       start_time_books := tb; start_time_review := tr;
       organizer_email := oe; organizer_name := on |}
  = Ok {| out_events := [];
          out_books_completed := [];
          out_stats := {| total_events := 0; books_completed_count := 0;
                          total_book_hours := 0%Q; total_days := None |};
          out_clock_reads := 0;
          out_messages := [] |}.
Proof. reflexivity. Qed.

End Claims.

(** ** The ledger and the day the loop stops *)

Section Ledger.
Context {RT : PyRuntime}.
Variable inp : PlanInput.
Variable fuel : nat.

Lemma ledger_invariant st st' :
  ledger_between_days inp st ->
  (current_book_index st < length (book_schedule_list inp))%nat ->
  day_loop fuel inp st = Ok st' ->
  ledger_between_days inp st'.
Proof.
  apply (engine_invariant inp fuel (ledger_between_days inp)
           (ledger_in_session inp)).
  - intros s (Hidx & Hstart & Hall & _) Hlt Hend _.
    unfold ledger_in_session. cbn [begin_session current_book_index
      books_completed current_date].
    split; [exact Hidx|]. split; [lia|]. split.
    + eapply List.Forall_impl; [|exact Hall]. cbv beta. intros c ?. lia.
    + intros ?. lia.
  - intros s c s' (Hidx & Hdate & Hall & Hlast) _ Hstep.
    assert (Hsnoc : forall book,
      ledger_in_session inp
        {| world := world s';
           books_completed :=
             (books_completed s ++ [completed_record inp s book])%list;
           current_book_index := S (current_book_index s);
           current_date := current_date s;
           current_book_remaining_min := current_book_remaining_min s';
           session_start_time := session_start_time s';
           remaining_session_time := remaining_session_time s' |}).
    { intros book. unfold ledger_in_session.
      cbn [current_book_index books_completed current_date].
      split; [rewrite length_app; cbn [length]; lia|].
      split; [exact Hdate|]. split.
      - apply Forall_app. split; [exact Hall|].
        constructor; [|constructor].
        cbn [completed_record Fecha_de_finalizacion]. lia.
      - intros _. exists (completed_record inp s book). split.
        + apply last_snoc.
        + reflexivity. }
    destruct Hstep.
    + now repeat split.
    + now repeat split.
    + apply (Hsnoc book).
    + apply (Hsnoc book).
  - intros s (Hidx & Hdate & Hall & Hlast).
    unfold ledger_between_days. cbn [next_day current_book_index
      books_completed current_date].
    split; [exact Hidx|]. split; [lia|]. split.
    + eapply List.Forall_impl; [|exact Hall]. cbv beta. intros c ?. lia.
    + intros Hlen. destruct (Hlast Hlen) as (c & Hc & Hd).
      exists c. split; [exact Hc|lia].
  - intros s (Hidx & Hstart & Hall & _) Hlt Hend _.
    unfold ledger_between_days. cbn [next_day current_book_index
      books_completed current_date].
    split; [exact Hidx|]. split; [lia|]. split.
    + eapply List.Forall_impl; [|exact Hall]. cbv beta. intros c ?. lia.
    + intros ?. lia.
  - intros s msg H _. exact H.
Qed.

End Ledger.

Section StopDate.
Context {RT : PyRuntime}.

(** C5.  The [total_days] statistic is the absolute difference, in days,
    between the start date and the date at which the loop over the days
    stopped; when every book was completed, that date is the day after the
    last completion, which lies in the window, so that [total_days] counts
    the days from the start date to the last completion and not the whole
    window. *)
Theorem total_days_is_stop_date fuel inp :
  book_schedule_list inp <> [] ->
  (enough_fuel inp <= fuel)%nat ->
  exists first st out,
    head (book_schedule_list inp) = Some first /\
    day_loop fuel inp (initial_state inp first) = Ok st /\
    create_reading_plan fuel inp = Ok out /\
    total_days (out_stats out)
      = Some (Z.abs (start_date inp - current_date st)) /\
    (books_completed_count (out_stats out) = length (book_schedule_list inp) ->
     exists c,
       last (out_books_completed out) = Some c /\
       (start_date inp <= Fecha_de_finalizacion c <= end_date inp)%Z /\
       current_date st = (Fecha_de_finalizacion c + 1)%Z /\
       total_days (out_stats out)
         = Some (Fecha_de_finalizacion c - start_date inp + 1)%Z).
Proof.
  intros Hne Hfuel.
  destruct (create_reading_plan_returns inp fuel Hfuel) as (out & Hrun).
  unfold create_reading_plan in Hrun.
  destruct (book_schedule_list inp) as [|first rest] eqn:Hbooks;
    [contradiction|].
  destruct (day_loop fuel inp (initial_state inp first)) as [st| |] eqn:Hloop;
    cbn [bind] in Hrun; try discriminate.
  exists first, st, out. split; [reflexivity|]. split; [exact Hloop|].
  split.
  { unfold create_reading_plan. rewrite Hbooks, Hloop. exact Hrun. }
  injection Hrun as <-.
  cbn [plan_output out_stats total_days books_completed_count
         out_books_completed].
  split; [reflexivity|].
  intros Hall.
  assert (Hinv : ledger_between_days inp st).
  { apply (ledger_invariant inp fuel (initial_state inp first)); [| |exact Hloop].
    - unfold ledger_between_days.
      cbn [initial_state current_book_index books_completed current_date].
      split; [reflexivity|]. split; [lia|]. split; [constructor|].
      rewrite Hbooks. cbn [length]. lia.
    - rewrite Hbooks. cbn. lia. }
  destruct Hinv as (Hidx & Hstart & Hdates & Hlast).
  destruct Hlast as (c & Hc & Hd); [rewrite Hbooks; lia|].
  exists c. split; [exact Hc|].
  assert (Hin : (start_date inp <= Fecha_de_finalizacion c <= end_date inp)%Z).
  { rewrite List.Forall_forall in Hdates. apply Hdates.
    apply last_Some_elem_of in Hc. now apply list_elem_of_In. }
  split; [exact Hin|]. split; [lia|].
  f_equal. lia.
Qed.

End StopDate.

(** ** The order of the events *)

Section Order.
Context {RT : PyRuntime}.
Variable inp : PlanInput.
Variable fuel : nat.

Lemma StronglySorted_snoc {A} (R : A -> A -> Prop) l x :
  StronglySorted R l -> Forall (fun y => R y x) l -> StronglySorted R (l ++ [x]).
Proof.
  induction 1 as [|a l Hl IH Ha]; intros Hx; cbn.
  - constructor; constructor.
  - inversion Hx; subst. constructor; [now apply IH|].
    apply Forall_app. split; [exact Ha|]. now constructor.
Qed.

Lemma StronglySorted_nth {A} (R : A -> A -> Prop) l :
  StronglySorted R l ->
  forall i j x y, (i < j)%nat ->
    nth_error l i = Some x -> nth_error l j = Some y -> R x y.
Proof.
  induction 1 as [|a l Hl IH Ha]; intros i j x y Hij Hi Hj.
  - destruct i; discriminate.
  - destruct j as [|j]; [lia|]. cbn in Hj. destruct i as [|i].
    + cbn in Hi. injection Hi as <-. rewrite List.Forall_forall in Ha.
      apply Ha. eapply nth_error_In; eauto.
    + cbn in Hi. apply (IH i j); [lia|assumption|assumption].
Qed.

Lemma reading_sessions_add_event w dt mins s d oe on rc loc stat (rev : bool) :
  reading_sessions (events_list (add_event w dt mins s d oe on rc loc stat rev))
  = (reading_sessions (events_list w) ++
     if rev then []
     else [event_dict (now (clock_reads w)) dt mins s d oe on rc loc stat rev])%list.
Proof.
  unfold reading_sessions, add_event. cbn [events_list].
  rewrite List.filter_app. f_equal. destruct rev; reflexivity.
Qed.

Lemma sessions_chained_review bound w dt mins s d oe on rc loc stat :
  sessions_chained bound (events_list w) ->
  sessions_chained bound
    (events_list (add_event w dt mins s d oe on rc loc stat true)).
Proof.
  unfold sessions_chained. rewrite reading_sessions_add_event.
  now rewrite app_nil_r.
Qed.

Lemma sessions_chained_later bound bound' evs :
  (bound <= bound')%Q ->
  sessions_chained bound evs -> sessions_chained bound' evs.
Proof.
  intros Hle (Hs & Hp & Hb). repeat split; try assumption.
  eapply List.Forall_impl; [|exact Hb]. cbv beta. intros e ?. lra.
Qed.

Lemma sessions_chained_reading w dt mins s d oe on rc loc stat :
  (0 < mins)%Q ->
  sessions_chained dt (events_list w) ->
  sessions_chained (add_minutes dt mins)
    (events_list (add_event w dt mins s d oe on rc loc stat false)).
Proof.
  intros Hpos (Hs & Hp & Hb). unfold sessions_chained.
  rewrite reading_sessions_add_event. repeat split.
  - apply StronglySorted_snoc; [exact Hs|].
    eapply List.Forall_impl; [|exact Hb]. cbv beta. intros e He.
    unfold precedes, event_dict. cbn [dtstart]. exact He.
  - apply Forall_app. split; [exact Hp|]. constructor; [|constructor].
    unfold event_dict, add_minutes. cbn [dtstart dtend]. lra.
  - apply Forall_app. split.
    + eapply List.Forall_impl; [|exact Hb]. cbv beta. intros e He.
      unfold add_minutes. lra.
    + constructor; [|constructor].
      unfold event_dict. cbn [dtend]. lra.
Qed.

Lemma combine_next_day (d : date) t :
  (combine (d + 1)%Z t == combine d t + 1440)%Q.
Proof.
  unfold combine.
  replace ((d + 1) * 1440)%Z with (d * 1440 + 1440)%Z by lia.
  rewrite inject_Z_plus. change (inject_Z 1440) with 1440%Q. lra.
Qed.

Lemma time_to_dedicate_le st :
  (time_to_dedicate_of st <= remaining_session_time st)%Q /\
  (time_to_dedicate_of st <= current_book_remaining_min st)%Q.
Proof.
  unfold time_to_dedicate_of.
  destruct (py_min_spec (remaining_session_time st)
              (current_book_remaining_min st)) as [[? ->]|[? ->]]; lra.
Qed.

Lemma sessions_invariant st st' :
  (daily_time_total_minutes inp <= 1440)%Z ->
  sessions_chained (day_start inp st) (events_list (world st)) ->
  (current_book_index st < length (book_schedule_list inp))%nat ->
  day_loop fuel inp st = Ok st' ->
  sessions_chained (day_start inp st') (events_list (world st')).
Proof.
  intros Hbudget.
  apply (engine_invariant inp fuel
           (fun s => sessions_chained (day_start inp s) (events_list (world s)))
           (fun s => sessions_chained (session_start_time s)
                       (events_list (world s)) /\
                     (session_start_time s <= day_start inp s + 1440)%Q /\
                     (session_start_time s + remaining_session_time s
                      <= day_start inp s + 1440)%Q)).
  - intros s Hs _ _ _. unfold day_start in *.
    cbn [begin_session world session_start_time remaining_session_time
           current_date].
    split; [exact Hs|]. split; [lra|].
    rewrite Zle_Qle in Hbudget. change (inject_Z 1440) with 1440%Q in Hbudget.
    lra.
  - intros s c s' (Hs & Hsst & Hsum) _ Hstep.
    pose proof (time_to_dedicate_le s) as [Hle _].
    destruct Hstep as [book Hb Ht|book Hb Ht Hrem|book d nb Hb Ht Hrem Hd Hn
                      |book d Hb Ht Hrem Hd Hn]; unfold day_start in *.
    + auto.
    + cbn [after_read world session_start_time remaining_session_time
             current_date].
      split; [now apply sessions_chained_reading|].
      unfold add_minutes. split; lra.
    + cbn [after_complete world session_start_time remaining_session_time
             current_date].
      split; [now apply sessions_chained_review, sessions_chained_reading|].
      unfold add_minutes. split; lra.
    + cbn [after_last world session_start_time remaining_session_time
             current_date].
      split.
      * destruct (Qltb 0 _);
          [apply sessions_chained_review|];
          now apply sessions_chained_review, sessions_chained_reading.
      * unfold add_minutes. split; lra.
  - intros s (Hs & Hsst & _). unfold day_start in *.
    cbn [next_day world current_date].
    eapply sessions_chained_later; [|exact Hs].
    rewrite combine_next_day. exact Hsst.
  - intros s Hs _ _ _. unfold day_start in *.
    cbn [next_day world current_date].
    eapply sessions_chained_later; [|exact Hs].
    rewrite combine_next_day. lra.
  - intros s msg Hs _. exact Hs.
Qed.

End Order.

Section OrderClaim.
Context {RT : PyRuntime}.

(** C2 (amended).  With daily minutes of less than the 1440 minutes of a
    day, the reading sessions of the returned list are in chronological
    order and do not overlap: of two reading sessions, the one appended
    first ends no earlier than it starts, ends no later than the other
    starts, and so starts no later than the other.  (Reviews are appended
    when a book is completed and start on a later day, so the list as a whole
    is not in the order of the start times.) *)
Theorem reading_sessions_do_not_overlap fuel inp :
  (daily_time_total_minutes inp < 1440)%Z ->
  (enough_fuel inp <= fuel)%nat ->
  exists out,
    create_reading_plan fuel inp = Ok out /\
    forall i j e1 e2,
      (i < j)%nat ->
      nth_error (reading_sessions (out_events out)) i = Some e1 ->
      nth_error (reading_sessions (out_events out)) j = Some e2 ->
      (dtstart e1 <= dtend e1)%Q /\ (dtend e1 <= dtstart e2)%Q /\
      (dtstart e1 <= dtstart e2)%Q.
Proof.
  intros Hbudget Hfuel.
  assert (Hday : (daily_time_total_minutes inp <= 1440)%Z) by lia.
  destruct (create_reading_plan_returns inp fuel Hfuel) as (out & Hrun).
  exists out. split; [exact Hrun|].
  unfold create_reading_plan in Hrun.
  destruct (book_schedule_list inp) as [|first rest] eqn:Hbooks.
  { injection Hrun as <-. intros i j e1 e2 _ Hi. destruct i; discriminate. }
  destruct (day_loop fuel inp (initial_state inp first)) as [st| |] eqn:Hloop;
    cbn [bind] in Hrun; try discriminate.
  injection Hrun as <-. cbn [plan_output out_events].
  destruct (sessions_invariant inp fuel (initial_state inp first) st Hday)
    as (Hsorted & Hpos & _).
  { repeat split; constructor. }
  { rewrite Hbooks. cbn. lia. }
  { exact Hloop. }
  intros i j e1 e2 Hij Hi Hj.
  pose proof (StronglySorted_nth _ _ Hsorted i j e1 e2 Hij Hi Hj) as Hprec.
  unfold precedes in Hprec.
  rewrite List.Forall_forall in Hpos.
  pose proof (Hpos e1 (nth_error_In _ _ Hi)) as H1.
  cbv beta in H1. repeat split; lra.
Qed.

End OrderClaim.

(** The claim C2 as stated fails: with two books of 40 minutes and 60 minutes
    a day, the review of the first book (Tuesday, 19:00) is appended before
    the first session of the second book (Monday, 10:40). *)
Lemma review_appended_before_earlier_session :
  exists out,
    create_reading_plan (RT := sample_runtime) 40 two_short_books = Ok out /\
    map event_view (out_events out)
    = [ ("📚 LECTURA: A", monday, 600%Q, 40%Q);
        ("🔄 REVISIÓN COMPLETA: A", (monday + 1)%Z, 1140%Q, 60%Q);
        ("📚 LECTURA: B", monday, 640%Q, 20%Q);
        ("📚 LECTURA: B", (monday + 1)%Z, 600%Q, 20%Q);
        ("🔄 REVISIÓN COMPLETA: B", (monday + 2)%Z, 1140%Q, 60%Q);
        ("🎓 REVISIÓN GENERAL FINAL", (monday + 1)%Z, 620%Q, 40%Q) ] /\
    ~ starts_nondecreasing (out_events out).
Proof.
  eexists. split; [vm_compute; reflexivity|].
  split; [vm_compute; reflexivity|].
  intros H. specialize (H 1%nat _ _ eq_refl eq_refl).
  vm_compute in H. apply H. reflexivity.
Qed.

(** The bound on the daily budget is needed: a session of 2000 minutes that
    starts on Monday at 10:00 is still running when Tuesday's starts. *)
Lemma budget_over_a_day_overlaps :
  exists out e1 e2,
    create_reading_plan (RT := sample_runtime) 40 budget_over_a_day = Ok out /\
    reading_sessions (out_events out) = [e1; e2] /\
    (dtstart e2 < dtend e1)%Q.
Proof.
  eexists _, _, _. split; [vm_compute; reflexivity|].
  split; [reflexivity|]. vm_compute. reflexivity.
Qed.

Lemma reading_sessions_do_not_overlap_witness :
  (daily_time_total_minutes two_short_books < 1440)%Z /\
  (enough_fuel two_short_books <= 40)%nat /\
  exists out,
    create_reading_plan (RT := sample_runtime) 40 two_short_books = Ok out /\
    forall i j e1 e2,
      (i < j)%nat ->
      nth_error (reading_sessions (out_events out)) i = Some e1 ->
      nth_error (reading_sessions (out_events out)) j = Some e2 ->
      (dtstart e1 <= dtend e1)%Q /\ (dtend e1 <= dtstart e2)%Q /\
      (dtstart e1 <= dtstart e2)%Q.
Proof.
  assert (H1 : (daily_time_total_minutes two_short_books < 1440)%Z)
    by reflexivity.
  assert (H2 : (enough_fuel two_short_books <= 40)%nat)
    by (vm_compute; lia).
  split; [exact H1|]. split; [exact H2|].
  exact (reading_sessions_do_not_overlap (RT := sample_runtime) 40
           two_short_books H1 H2).
Defined.

(** ** Conservation of the reading time *)

Section Conservation.
Context {RT : PyRuntime}.
Variable inp : PlanInput.
Variable fuel : nat.








End Conservation.

Section WholeMinutes.
Context {RT : PyRuntime}.
Variable inp : PlanInput.
Variable fuel : nat.









End WholeMinutes.

Section ConservationClaim.
Context {RT : PyRuntime}.


End ConservationClaim.


(** The titles have to differ: the sessions are attributed by their
    summary, which holds nothing of a book but its title.  Of two books
    called A, of 40 and 20 minutes, both completed, the sessions of "A" last
    60 minutes. *)
Lemma same_title_merges_sessions :
  exists out b1 b2,
    create_reading_plan (RT := sample_runtime) 40 same_title_twice = Ok out /\
    book_schedule_list same_title_twice = [b1; b2] /\
    books_completed_count (out_stats out) = 2%nat /\
    (required same_title_twice b1 == 40)%Q /\
    (required same_title_twice b2 == 20)%Q /\
    (minutes_read b1 (out_events out) == 60)%Q /\
    (minutes_read b2 (out_events out) == 60)%Q.
Proof.
  eexists _, _, _. split; [vm_compute; reflexivity|].
  split; [reflexivity|]. split; [reflexivity|].
  repeat split; vm_compute; reflexivity.
Qed.


(** ** No reading day *)

Section NoReadingDay.
Context {RT : PyRuntime}.

Lemma untouched_invariant fuel inp st st' :
  book_schedule_list inp <> [] ->
  reading_weekdays inp = [] ->
  untouched inp st ->
  (current_book_index st < length (book_schedule_list inp))%nat ->
  day_loop fuel inp st = Ok st' ->
  untouched inp st'.
Proof.
  intros Hbooks Hdays.
  apply (engine_invariant inp fuel (untouched inp) (fun _ => False)).
  - intros s _ _ _ Hin. rewrite Hdays in Hin. discriminate.
  - intros s c s' [].
  - intros s [].
  - intros s (He & Hc & Hm & Hl & Hi & Hlo & Hhi) _ Hend _.
    unfold untouched. cbn [next_day world books_completed current_book_index
                             current_date].
    repeat split; try assumption; lia.
  - intros s msg (_ & _ & _ & _ & Hi & _) Hlen.
    rewrite Hi in Hlen. destruct (book_schedule_list inp); [contradiction|].
    cbn in Hlen. lia.
Qed.

(** C4 (amended).  With a non-empty book list and an empty set of reading
    weekdays, [create_reading_plan] does not refuse the call: it skips every
    day of the window, appends no event (no review is scheduled), reads no
    clock, shows no message, and returns an empty event list and an empty
    ledger, with the days of the window as [total_days].  The refusal is the
    button handler's: whatever its book list, it reports an error without
    calling the engine, the missing reading day when the list is not
    empty. *)
Theorem empty_weekdays_skip_every_day fuel inp :
  book_schedule_list inp <> [] ->
  reading_weekdays inp = [] ->
  (enough_fuel inp <= fuel)%nat ->
  (exists out,
      create_reading_plan fuel inp = Ok out /\
      out_events out = [] /\ out_books_completed out = [] /\
      out_clock_reads out = 0%nat /\ out_messages out = [] /\
      total_events (out_stats out) = 0%nat /\
      books_completed_count (out_stats out) = 0%nat /\
      total_days (out_stats out)
        = Some (Z.max 0 (end_date inp - start_date inp + 1))) /\
  (forall book_list,
      exists msg, on_generate fuel book_list inp = StError msg) /\
  (forall book_list,
      book_list <> [] ->
      on_generate fuel book_list inp
      = StError "¡Selecciona al menos un día de lectura a la semana!").
Proof.
  intros Hbooks Hdays Hfuel. split; [|split].
  - destruct (create_reading_plan_returns inp fuel Hfuel) as (out & Hrun).
    exists out. split; [exact Hrun|].
    unfold create_reading_plan in Hrun.
    destruct (book_schedule_list inp) as [|first rest] eqn:Hlist;
      [contradiction|].
    destruct (day_loop fuel inp (initial_state inp first)) as [st| |] eqn:Hloop;
      cbn [bind] in Hrun; try discriminate.
    injection Hrun as <-.
    assert (Hidx0 : (current_book_index (initial_state inp first)
                     < length (book_schedule_list inp))%nat)
      by (rewrite Hlist; cbn; lia).
    destruct (untouched_invariant fuel inp (initial_state inp first) st)
      as (He & Hc & Hm & Hl & Hi & Hlo & Hhi);
      [congruence|exact Hdays| |exact Hidx0|exact Hloop|].
    { unfold untouched. cbn [initial_state world events_list clock_reads
        st_messages books_completed current_book_index current_date].
      repeat split; lia. }
    destruct (day_loop_exit inp fuel _ _ Hidx0 Hloop) as [Hpast|Hall].
    2:{ rewrite Hi, Hlist in Hall. cbn in Hall. lia. }
    cbn [plan_output out_events out_books_completed out_clock_reads
           out_messages out_stats total_events books_completed_count
           total_days].
    rewrite He, Hl, Hc, Hm. repeat split. f_equal. lia.
  - intros book_list. unfold on_generate. rewrite Hdays.
    destruct book_list; eexists; reflexivity.
  - intros book_list Hlist. unfold on_generate. rewrite Hdays.
    destruct book_list; [contradiction|reflexivity].
Qed.

End NoReadingDay.

(** The claim C4 as stated fails: the engine accepts a book list with no
    reading day and returns an empty plan for the fourteen days of the
    window. *)
Lemma empty_weekdays_not_rejected :
  exists out,
    create_reading_plan (RT := sample_runtime) 40 no_reading_day = Ok out /\
    book_schedule_list no_reading_day <> [] /\
    reading_weekdays no_reading_day = [] /\
    out_events out = [] /\
    total_days (out_stats out) = Some 14%Z /\
    ~ rejected (create_reading_plan (RT := sample_runtime) 40 no_reading_day).
Proof.
  eexists. split; [vm_compute; reflexivity|].
  split; [discriminate|]. split; [reflexivity|]. split; [reflexivity|].
  split; [reflexivity|].
  intros [e He]. vm_compute in He. discriminate.
Qed.

Lemma empty_weekdays_skip_every_day_witness :
  book_schedule_list no_reading_day <> [] /\
  reading_weekdays no_reading_day = [] /\
  (enough_fuel no_reading_day <= 40)%nat /\
  (exists out,
      create_reading_plan (RT := sample_runtime) 40 no_reading_day = Ok out /\
      out_events out = [] /\ total_days (out_stats out) = Some 14%Z) /\
  on_generate (RT := sample_runtime) 40 (book_schedule_list no_reading_day)
    no_reading_day
  = StError "¡Selecciona al menos un día de lectura a la semana!".
Proof.
  assert (H1 : book_schedule_list no_reading_day <> []) by discriminate.
  assert (H2 : reading_weekdays no_reading_day = []) by reflexivity.
  assert (H3 : (enough_fuel no_reading_day <= 40)%nat) by (vm_compute; lia).
  split; [exact H1|]. split; [exact H2|]. split; [exact H3|].
  destruct (empty_weekdays_skip_every_day (RT := sample_runtime) 40
              no_reading_day H1 H2 H3)
    as ((out & Hrun & He & _ & _ & _ & _ & _ & Hd) & _ & Hui).
  split.
  - exists out. split; [exact Hrun|]. split; [exact He|exact Hd].
  - exact (Hui (book_schedule_list no_reading_day) H1).
Defined.

(** ** Two runs that differ in the clock *)

Section TwoClocks.
Variable rt1 : PyRuntime.
Variable clock : nat -> datetime.

Lemma add_event_sim w1 w2 dt mins s d oe on rc loc stat rev :
  same_world_but_stamps w1 w2 ->
  same_world_but_stamps
    (add_event (RT := rt1) w1 dt mins s d oe on rc loc stat rev)
    (add_event (RT := with_clock rt1 clock) w2 dt mins s d oe on rc loc stat rev).
Proof.
  intros (He & Hc & Hm). unfold same_world_but_stamps, add_event.
  cbn [events_list clock_reads st_messages].
  rewrite !map_app, He, Hc, Hm. repeat split.
Qed.

Lemma session_body_sim fuel inp s1 s2 :
  same_state_but_stamps s1 s2 ->
  outcome_rel
    (fun x y => fst x = fst y /\ same_state_but_stamps (snd x) (snd y))
    (session_body (RT := rt1) fuel inp s1)
    (session_body (RT := with_clock rt1 clock) fuel inp s2).
Proof.
  intros HR. pose proof HR as (Hw & Hl & Hi & Hd & Hrb & Hsst & Hrs).
  unfold session_body. rewrite <- Hl, <- Hi, <- Hd, <- Hrb, <- Hsst, <- Hrs.
  destruct (nth_error (book_schedule_list inp) (current_book_index s1))
    as [book|]; [|constructor].
  destruct (Qle_bool _ 0); [constructor; split; [reflexivity|exact HR]|].
  destruct (Qle_bool _ (1 # 10)).
  2:{ constructor. split; [reflexivity|]. cbn [snd].
      unfold same_state_but_stamps.
      cbn [world books_completed current_book_index current_date
             current_book_remaining_min session_start_time
             remaining_session_time].
      split; [now apply add_event_sim|]. repeat split; assumption. }
  unfold schedule_book_review.
  destruct (next_reading_day fuel (current_date s1 + 1)%Z (reading_weekdays inp))
    as [d| |]; cbn [bind]; try constructor.
  destruct (S (current_book_index s1) <? length (book_schedule_list inp))%nat.
  - destruct (nth_error (book_schedule_list inp) (S (current_book_index s1)));
      constructor.
    split; [reflexivity|]. cbn [snd]. unfold same_state_but_stamps.
    cbn [world books_completed current_book_index current_date
           current_book_remaining_min session_start_time
           remaining_session_time].
    split; [now apply add_event_sim, add_event_sim|].
    repeat split; assumption.
  - constructor. split; [reflexivity|]. cbn [snd].
    unfold same_state_but_stamps.
    cbn [world books_completed current_book_index current_date
           current_book_remaining_min session_start_time
           remaining_session_time].
    split; [|repeat split; assumption].
    destruct (Qltb 0 _); now repeat apply add_event_sim.
Qed.

Lemma session_loop_sim fuel inp s1 s2 :
  same_state_but_stamps s1 s2 ->
  outcome_rel same_state_but_stamps
    (session_loop (RT := rt1) fuel inp s1)
    (session_loop (RT := with_clock rt1 clock) fuel inp s2).
Proof.
  intros HR. unfold session_loop. apply while_sim; [| |exact HR].
  - intros x y (_ & _ & Hi & _ & _ & _ & Hrs). unfold session_cond.
    now rewrite Hi, Hrs.
  - intros x y Hxy. now apply session_body_sim.
Qed.

Lemma day_body_sim fuel inp s1 s2 :
  same_state_but_stamps s1 s2 ->
  outcome_rel
    (fun x y => fst x = fst y /\ same_state_but_stamps (snd x) (snd y))
    (day_body (RT := rt1) fuel inp s1)
    (day_body (RT := with_clock rt1 clock) fuel inp s2).
Proof.
  intros HR. unfold day_body.
  assert (Hinner :
    outcome_rel same_state_but_stamps
      (if in_list (weekday (current_date s1)) (reading_weekdays inp)
       then session_loop (RT := rt1) fuel inp (begin_session inp s1)
       else Ok s1)
      (if in_list (weekday (current_date s2)) (reading_weekdays inp)
       then session_loop (RT := with_clock rt1 clock) fuel inp (begin_session inp s2)
       else Ok s2)).
  { destruct HR as (Hw & Hl & Hi & Hd & Hrb & Hsst & Hrs). rewrite <- Hd.
    destruct (in_list _ _).
    - apply session_loop_sim. unfold same_state_but_stamps.
      cbn [begin_session world books_completed current_book_index current_date
             current_book_remaining_min session_start_time
             remaining_session_time].
      rewrite Hd. split; [exact Hw|]. repeat split; assumption.
    - constructor. split; [exact Hw|]. repeat split; assumption. }
  destruct Hinner as [a b (Hw & Hl & Hi & Hd & Hrb & Hsst & Hrs)| |];
    cbn [bind]; try constructor.
  cbn [next_day current_book_index current_date]. rewrite <- Hi, <- Hd.
  destruct Hw as (He & Hc & Hm).
  destruct (_ <=? _)%nat; constructor; (split; [reflexivity|]); cbn [snd];
    unfold same_state_but_stamps, same_world_but_stamps;
    cbn [st_success next_day world events_list clock_reads st_messages
           books_completed current_book_index current_date
           current_book_remaining_min session_start_time
           remaining_session_time];
    rewrite ?He, ?Hc, ?Hm, ?Hl, ?Hrb, ?Hsst, ?Hrs; repeat split;
    congruence.
Qed.

Lemma create_reading_plan_sim fuel inp :
  outcome_rel same_but_stamps
    (create_reading_plan (RT := rt1) fuel inp)
    (create_reading_plan (RT := with_clock rt1 clock) fuel inp).
Proof.
  unfold create_reading_plan.
  destruct (book_schedule_list inp) as [|first rest].
  { constructor. repeat split. }
  assert (Hloop :
    outcome_rel same_state_but_stamps
      (day_loop (RT := rt1) fuel inp (initial_state inp first))
      (day_loop (RT := with_clock rt1 clock) fuel inp (initial_state inp first))).
  { unfold day_loop. apply while_sim.
    - intros x y (_ & _ & _ & Hd & _). unfold day_cond. now rewrite Hd.
    - intros x y Hxy. now apply day_body_sim.
    - repeat split. }
  destruct Hloop as [a b ((He & Hc & Hm) & Hl & Hi & Hd & Hrb & Hsst & Hrs)| |];
    cbn [bind]; constructor.
  unfold same_but_stamps, plan_output.
  cbn [out_events out_books_completed out_stats out_clock_reads out_messages].
  assert (Hlen : length (events_list (world a))
                 = length (events_list (world b))).
  { rewrite <- (length_map clear_stamp (events_list (world a))), He.
    apply length_map. }
  rewrite Hlen, Hl, Hd, Hc, Hm. repeat split. exact He.
Qed.

End TwoClocks.

Section Determinism.

Lemma unescape_escape_ics_text text :
  unescape_ics_text (escape_ics_text text) = text.
Proof. rewrite escape_ics_text_chars. apply unescape_escape_chars. Qed.

(** C10.  Two runs on the same input, under runtimes that agree on the
    string hash and on the formatting and differ at most in the wall clock,
    both return, and what they return is the same in every field but the
    [dtstamp] of the events: the event lists are equal once the stamps are
    cleared, and the ledgers, the statistics and the messages are equal.  The
    [uid] of every event is the one its start date and its summary title
    determine. *)
Theorem runs_differ_only_in_dtstamp (rt1 rt2 : PyRuntime) fuel inp :
  same_but_clock rt1 rt2 ->
  (enough_fuel inp <= fuel)%nat ->
  exists out1 out2,
    create_reading_plan (RT := rt1) fuel inp = Ok out1 /\
    create_reading_plan (RT := rt2) fuel inp = Ok out2 /\
    same_but_stamps out1 out2 /\
    Forall (fun e => uid e
                     = uid_of (RT := rt1) (date_of (dtstart e))
                         (unescape_ics_text (summary e)))
           (out_events out1).
Proof.
  intros Hsame Hfuel.
  destruct (create_reading_plan_returns (RT := rt1) inp fuel Hfuel)
    as (out1 & Hrun1).
  assert (Hsim : outcome_rel same_but_stamps
                   (create_reading_plan (RT := rt1) fuel inp)
                   (create_reading_plan (RT := rt2) fuel inp)).
  { assert (E : rt2 = with_clock rt1 (@now rt2)).
    { destruct rt1 as [h1 n1 s1 i1 f1], rt2 as [h2 n2 s2 i2 f2].
      destruct Hsame as (Hh & Hs & Hi & Hf). cbn in Hh, Hs, Hi, Hf.
      now subst. }
    rewrite E. apply create_reading_plan_sim. }
  rewrite Hrun1 in Hsim. inversion Hsim as [a out2 Hrel Ha Hb| |]; subst a.
  exists out1, out2. split; [exact Hrun1|]. split; [now symmetry|].
  split; [exact Hrel|]. clear Hsim Hb Hrel out2.
  unfold create_reading_plan in Hrun1.
  destruct (book_schedule_list inp) as [|first rest] eqn:Hbooks.
  { injection Hrun1 as <-. constructor. }
  destruct (day_loop fuel inp (initial_state inp first)) as [st| |] eqn:Hloop;
    cbn [bind] in Hrun1; try discriminate.
  injection Hrun1 as <-. cbn [plan_output out_events].
  assert (Huid : forall stamp start mins s d oe on rc loc stat rev,
             uid (event_dict (RT := rt1) stamp start mins s d oe on rc loc stat rev)
             = uid_of (RT := rt1)
                 (date_of (dtstart (event_dict (RT := rt1) stamp start mins s d
                                      oe on rc loc stat rev)))
                 (unescape_ics_text
                    (summary (event_dict (RT := rt1) stamp start mins s d oe on
                                rc loc stat rev)))).
  { intros. unfold event_dict. cbn [uid dtstart summary].
    rewrite unescape_escape_ics_text. reflexivity. }
  revert Hloop. apply (events_invariant (RT := rt1)).
  - intros. apply Huid.
  - intros. apply Huid.
  - intros. apply Huid.
  - constructor.
  - rewrite Hbooks. cbn. lia.
Qed.

End Determinism.

Lemma runs_differ_only_in_dtstamp_witness :
  same_but_clock sample_runtime sample_runtime_later /\
  (enough_fuel two_short_books <= 40)%nat /\
  exists out1 out2,
    create_reading_plan (RT := sample_runtime) 40 two_short_books = Ok out1 /\
    create_reading_plan (RT := sample_runtime_later) 40 two_short_books
    = Ok out2 /\
    same_but_stamps out1 out2 /\
    Forall (fun e => uid e
                     = uid_of (RT := sample_runtime) (date_of (dtstart e))
                         (unescape_ics_text (summary e)))
           (out_events out1).
Proof.
  assert (H1 : same_but_clock sample_runtime sample_runtime_later)
    by (repeat split).
  assert (H2 : (enough_fuel two_short_books <= 40)%nat) by (vm_compute; lia).
  split; [exact H1|]. split; [exact H2|].
  exact (runs_differ_only_in_dtstamp sample_runtime sample_runtime_later 40
           two_short_books H1 H2).
Defined.

(** ** The theorems at sample inputs *)

Lemma schedule_book_review_next_reading_day_witness :
  let w := {| events_list := []; clock_reads := 0; st_messages := [] |} in
  let sunday := (monday + 6)%Z in
  [0; 2]%Z <> [] /\
  Forall (fun x => 0 <= x < 7)%Z [0; 2]%Z /\
  (7 <= 7)%nat /\
  exists (d : date) (e : Event),
    schedule_book_review (RT := sample_runtime) 7 w sunday "A" (1 # 3) 60
      seven_pm [0; 2]%Z "reader@example.org" "Reader" the_reminders_config
    = Ok {| events_list := (events_list w ++ [e])%list;
            clock_reads := S (clock_reads w);
            st_messages := st_messages w |} /\
    dtstart e = combine d seven_pm /\
    (sunday <= d)%Z /\
    in_list (weekday d) [0; 2]%Z = true /\
    (forall x, (sunday <= x < d)%Z -> in_list (weekday x) [0; 2]%Z = false) /\
    (in_list (weekday sunday) [0; 2]%Z = true -> d = sunday).
Proof.
  intros w sunday.
  assert (H1 : [0; 2]%Z <> []) by discriminate.
  assert (H2 : Forall (fun x => 0 <= x < 7)%Z [0; 2]%Z)
    by (repeat constructor; lia).
  assert (H3 : (7 <= 7)%nat) by lia.
  split; [exact H1|]. split; [exact H2|]. split; [exact H3|].
  exact (schedule_book_review_next_reading_day (RT := sample_runtime) 7 w
           sunday "A" (1 # 3) 60%Z seven_pm [0; 2]%Z "reader@example.org"
           "Reader" the_reminders_config H1 H2 H3).
Defined.

Lemma total_days_is_stop_date_witness :
  book_schedule_list twenty_minute_book <> [] /\
  (enough_fuel twenty_minute_book <= 40)%nat /\
  exists first st out,
    head (book_schedule_list twenty_minute_book) = Some first /\
    day_loop (RT := sample_runtime) 40 twenty_minute_book
      (initial_state twenty_minute_book first) = Ok st /\
    create_reading_plan (RT := sample_runtime) 40 twenty_minute_book = Ok out /\
    total_days (out_stats out)
      = Some (Z.abs (start_date twenty_minute_book - current_date st)) /\
    (books_completed_count (out_stats out)
     = length (book_schedule_list twenty_minute_book) ->
     exists c,
       last (out_books_completed out) = Some c /\
       (start_date twenty_minute_book <= Fecha_de_finalizacion c
        <= end_date twenty_minute_book)%Z /\
       current_date st = (Fecha_de_finalizacion c + 1)%Z /\
       total_days (out_stats out)
         = Some (Fecha_de_finalizacion c - start_date twenty_minute_book + 1)%Z).
Proof.
  assert (H1 : book_schedule_list twenty_minute_book <> []) by discriminate.
  assert (H2 : (enough_fuel twenty_minute_book <= 40)%nat)
    by (vm_compute; lia).
  split; [exact H1|]. split; [exact H2|].
  exact (total_days_is_stop_date (RT := sample_runtime) 40 twenty_minute_book
           H1 H2).
Defined.

(* ================================================================== *)
(** * Further properties of the engine *)

Section EngineRules.
Context {RT : PyRuntime}.
Variable inp : PlanInput.
Variable fuel : nat.

(** As [engine_invariant], with what is known when the session of a day
    ends: its condition is false, or the last book was completed, or no
    time could be dedicated. *)
Lemma engine_invariant_exit (D Sx : PlanState -> Prop) :
  (forall st, D st ->
     (current_book_index st < length (book_schedule_list inp))%nat ->
     (current_date st <= end_date inp)%Z ->
     in_list (weekday (current_date st)) (reading_weekdays inp) = true ->
     Sx (begin_session inp st)) ->
  (forall st c st', Sx st -> session_cond inp st = true ->
     session_step inp fuel st c st' -> Sx st') ->
  (forall st, Sx st ->
     session_cond inp st = false \/
     (length (book_schedule_list inp) <= current_book_index st)%nat \/
     (time_to_dedicate_of st <= 0)%Q ->
     D (next_day st)) ->
  (forall st, D st ->
     (current_book_index st < length (book_schedule_list inp))%nat ->
     (current_date st <= end_date inp)%Z ->
     in_list (weekday (current_date st)) (reading_weekdays inp) = false ->
     D (next_day st)) ->
  (forall st msg, D st ->
     (length (book_schedule_list inp) <= current_book_index st)%nat ->
     D (st_success msg st)) ->
  forall st st',
    D st -> (current_book_index st < length (book_schedule_list inp))%nat ->
    day_loop fuel inp st = Ok st' -> D st'.
Proof.
  intros Hbegin Hstep Hend Hskip Hmsg st st' HD Hidx Hrun.
  unfold day_loop in Hrun. revert Hrun.
  apply (while_partial _ _
           (fun s => D s /\
              (current_book_index s < length (book_schedule_list inp))%nat)
           D); [tauto| |tauto].
  clear st st' HD Hidx. intros s c s' [HD Hidx] Hc Hb.
  unfold day_cond in Hc. apply Z.leb_le in Hc.
  unfold day_body in Hb.
  destruct (in_list (weekday (current_date s)) (reading_weekdays inp)) eqn:Hday.
  - destruct (session_loop fuel inp (begin_session inp s)) as [s1| |] eqn:Hs;
      cbn [bind] in Hb; try discriminate.
    assert (HS1 : D (next_day s1)).
    { unfold session_loop in Hs. revert Hs.
      apply (while_partial _ _ Sx (fun x => D (next_day x)));
        [| |now apply Hbegin].
      - intros x Hx Hcx. apply Hend; [exact Hx|now left].
      - intros x k x' Hx Hcx Hbx. apply session_body_step in Hbx.
        pose proof (Hstep x k x' Hx Hcx Hbx) as Hx'.
        destruct k; [exact Hx'|]. apply Hend; [exact Hx'|].
        inversion Hbx; subst.
        + right. right. assumption.
        + right. left. cbn [after_last current_book_index]. assumption. }
    destruct (_ <=? _)%nat eqn:Hall; injection Hb as <- <-.
    + apply Nat.leb_le in Hall. apply Hmsg; [exact HS1|exact Hall].
    + apply Nat.leb_gt in Hall. split; [exact HS1|exact Hall].
  - cbn [bind] in Hb.
    destruct (_ <=? _)%nat eqn:Hall; injection Hb as <- <-.
    + apply Nat.leb_le in Hall. apply Hmsg; [now apply Hskip|exact Hall].
    + apply Nat.leb_gt in Hall. split; [now apply Hskip|exact Hall].
Qed.

(** The state a returning run ends in. *)
Lemma run_final_state first rest :
  book_schedule_list inp = first :: rest ->
  (enough_fuel inp <= fuel)%nat ->
  exists st out,
    day_loop fuel inp (initial_state inp first) = Ok st /\
    create_reading_plan fuel inp = Ok out /\
    out_events out = events_list (world st) /\
    out_books_completed out = books_completed st /\
    out_clock_reads out = clock_reads (world st) /\
    out_messages out = st_messages (world st) /\
    total_events (out_stats out) = length (events_list (world st)) /\
    books_completed_count (out_stats out) = length (books_completed st) /\
    total_days (out_stats out)
      = Some (Z.abs (start_date inp - current_date st)) /\
    (current_book_index (initial_state inp first)
     < length (book_schedule_list inp))%nat.
Proof.
  intros Hbooks Hfuel.
  destruct (create_reading_plan_returns inp fuel Hfuel) as (out & Hrun).
  pose proof Hrun as Hrun'.
  unfold create_reading_plan in Hrun. rewrite Hbooks in Hrun.
  destruct (day_loop fuel inp (initial_state inp first)) as [st| |] eqn:Hloop;
    cbn [bind] in Hrun; try discriminate.
  injection Hrun as <-. eexists st, _. split; [reflexivity|].
  split; [exact Hrun'|]. cbn [plan_output out_events out_books_completed
    out_clock_reads out_messages out_stats total_events books_completed_count
    total_days].
  repeat split; try (rewrite Hbooks; cbn; lia).
Qed.

Lemma filter_add_event (f : Event -> bool) w dt mins s d oe on rc loc stat rev :
  List.filter f
    (events_list (add_event w dt mins s d oe on rc loc stat rev))
  = (List.filter f (events_list w) ++
     if f (event_dict (now (clock_reads w)) dt mins s d oe on rc loc stat rev)
     then [event_dict (now (clock_reads w)) dt mins s d oe on rc loc stat rev]
     else [])%list.
Proof.
  unfold add_event. cbn [events_list]. rewrite List.filter_app. reflexivity.
Qed.

End EngineRules.

(** ** The search for the reading day of a review *)

Lemma weekday_next_week (d : date) : weekday (d + 7)%Z = weekday d.
Proof.
  unfold weekday. replace (d + 7 + 6)%Z with (d + 6 + 1 * 7)%Z by lia.
  apply Z.mod_add. lia.
Qed.

Lemma next_reading_day_first weekdays fuel :
  forall (d d' : date),
    next_reading_day fuel d weekdays = Ok d' ->
    (d <= d')%Z /\ in_list (weekday d') weekdays = true /\
    (forall x, (d <= x < d')%Z -> in_list (weekday x) weekdays = false).
Proof.
  unfold next_reading_day.
  induction fuel as [|k IH]; intros d d' Hrun; [discriminate|].
  simpl in Hrun. destruct (in_list (weekday d) weekdays) eqn:Hd; simpl in Hrun.
  - injection Hrun as <-. split; [lia|]. split; [exact Hd|]. intros x Hx. lia.
  - apply IH in Hrun. destruct Hrun as (Hle & Hin & Hmin).
    split; [lia|]. split; [exact Hin|].
    intros x Hx. destruct (Z.eq_dec x d) as [->|Hne]; [exact Hd|].
    apply Hmin. lia.
Qed.

(** From the day after a reading day, the search stops within the week. *)
Lemma next_reading_day_within_week weekdays fuel (today d : date) :
  in_list (weekday today) weekdays = true ->
  next_reading_day fuel (today + 1)%Z weekdays = Ok d ->
  (today < d <= today + 7)%Z /\ in_list (weekday d) weekdays = true /\
  (forall x, (today < x < d)%Z -> in_list (weekday x) weekdays = false).
Proof.
  intros Htoday Hrun.
  apply next_reading_day_first in Hrun. destruct Hrun as (Hle & Hin & Hmin).
  split; [|split; [exact Hin|intros x Hx; apply Hmin; lia]].
  split; [lia|].
  destruct (Z_le_gt_dec d (today + 7)) as [H|H]; [exact H|].
  specialize (Hmin (today + 7)%Z ltac:(lia)).
  rewrite weekday_next_week in Hmin. congruence.
Qed.

(** ** The ledger and the reviews *)

Section LedgerOrder.
Context {RT : PyRuntime}.
Variable inp : PlanInput.
Variable fuel : nat.

Lemma firstn_snoc {A} (l : list A) i x :
  nth_error l i = Some x -> firstn (S i) l = (firstn i l ++ [x])%list.
Proof.
  revert i. induction l as [|a l IH]; intros [|i] H; try discriminate.
  - injection H as ->. reflexivity.
  - cbn in H. cbn [firstn]. rewrite (IH i H). reflexivity.
Qed.

Lemma book_reviews_reading w dt mins s d oe on rc stat :
  book_reviews
    (events_list (add_event w dt mins s d oe on rc "Sala de estudio" stat false))
  = book_reviews (events_list w).
Proof.
  unfold book_reviews. rewrite filter_add_event.
  unfold event_dict. cbn [location].
  change (String.eqb (escape_ics_text "Sala de estudio") review_location)
    with false.
  apply app_nil_r.
Qed.

Lemma book_reviews_final w dt mins s d oe on rc stat :
  book_reviews (events_list (add_event w dt mins s d oe on rc "" stat true))
  = book_reviews (events_list w).
Proof.
  unfold book_reviews. rewrite filter_add_event.
  unfold event_dict. cbn [location].
  change (String.eqb (escape_ics_text "") review_location) with false.
  apply app_nil_r.
Qed.

Lemma book_reviews_review w dt mins s d oe on rc stat :
  book_reviews
    (events_list
       (add_event w dt mins s d oe on rc "Espacio de estudio tranquilo" stat
          true))
  = (book_reviews (events_list w) ++
     [event_dict (now (clock_reads w)) dt mins s d oe on rc
        "Espacio de estudio tranquilo" stat true])%list.
Proof.
  unfold book_reviews. rewrite filter_add_event.
  unfold event_dict at 1. cbn [location].
  change (String.eqb (escape_ics_text "Espacio de estudio tranquilo")
            review_location) with true.
  reflexivity.
Qed.

Lemma ledger_in_order_later bound bound' index ledger :
  (bound <= bound')%Z ->
  ledger_in_order inp bound index ledger ->
  ledger_in_order inp bound' index ledger.
Proof.
  intros Hle (H1 & H2 & H3 & H4 & H5). repeat split; try assumption.
  eapply List.Forall_impl; [|exact H4]. cbv beta. intros c [? ?].
  split; [assumption|lia].
Qed.

Lemma ledger_in_order_snoc (today : date) index ledger book st :
  current_date st = today ->
  is_reading_day inp today ->
  nth_error (book_schedule_list inp) index = Some book ->
  ledger_in_order inp today index ledger ->
  ledger_in_order inp today (S index)
    (ledger ++ [completed_record inp st book]).
Proof.
  intros Hdate Hday Hbook (H1 & H2 & H3 & H4 & H5).
  assert (Hlt : (index < length (book_schedule_list inp))%nat)
    by (apply nth_error_Some; congruence).
  split; [rewrite length_app; cbn [length]; lia|].
  split; [lia|]. split; [|split].
  - rewrite (firstn_snoc _ _ _ Hbook). apply List.Forall2_app; [exact H3|].
    constructor; [|constructor]. split; reflexivity.
  - apply Forall_app. split; [exact H4|]. constructor; [|constructor].
    cbn [completed_record Fecha_de_finalizacion]. rewrite Hdate.
    split; [exact Hday|lia].
  - apply StronglySorted_snoc; [exact H5|].
    eapply List.Forall_impl; [|exact H4]. cbv beta. intros c [_ Hc].
    unfold completed_before.
    cbn [completed_record Fecha_de_finalizacion]. lia.
Qed.

Lemma review_world_follows st book w d :
  in_list (weekday (current_date st)) (reading_weekdays inp) = true ->
  next_reading_day fuel (current_date st + 1)%Z (reading_weekdays inp) = Ok d ->
  review_follows inp (completed_record inp st book)
    (event_dict (now (clock_reads w)) (combine d (start_time_review inp))
       (inject_Z (review_time_per_book_min inp))
       (review_summary (title book))
       (review_description (title book)
          (calculate_reading_time_hours book (reading_speeds inp))
          (review_time_per_book_min inp))
       (organizer_email inp) (organizer_name inp) the_reminders_config
       "Espacio de estudio tranquilo" "CONFIRMED" true).
Proof.
  intros Hday Hd.
  destruct (next_reading_day_within_week _ _ _ _ Hday Hd) as (H1 & H2 & H3).
  unfold review_follows, event_dict.
  cbn [summary priority dtend dtstart completed_record Libro
         Fecha_de_finalizacion].
  repeat split; try reflexivity. exists d. repeat split; try assumption; lia.
Qed.

(** The ledger follows the book list, and each record has its review. *)
Lemma ledger_reviews_invariant st st' :
  ledger_and_reviews inp st ->
  (current_book_index st < length (book_schedule_list inp))%nat ->
  day_loop fuel inp st = Ok st' ->
  ledger_and_reviews inp st'.
Proof.
  apply (engine_invariant inp fuel (ledger_and_reviews inp)
    (fun s => ledger_and_reviews inp s /\
              is_reading_day inp (current_date s))).
  - intros s (Hstart & HL & HR) _ Hend Hday.
    split; [split; [exact Hstart|split; assumption]|].
    cbn [begin_session current_date]. split; [lia|exact Hday].
  - intros s c s' [(Hstart & HL & HR) Hday] _ Hstep.
    destruct Hstep as [book Hb Ht|book Hb Ht Hrem|book d nb Hb Ht Hrem Hd Hn
                      |book d Hb Ht Hrem Hd Hn].
    + split; [split; [exact Hstart|split; assumption]|exact Hday].
    + split; [|exact Hday]. split; [exact Hstart|]. split; [exact HL|].
      cbn [after_read world books_completed]. unfold reading_world.
      now rewrite book_reviews_reading.
    + split; [|exact Hday]. split; [exact Hstart|].
      cbn [after_complete world books_completed current_book_index
             current_date].
      split; [now apply ledger_in_order_snoc|].
      unfold review_world, reading_world.
      rewrite book_reviews_review, book_reviews_reading.
      apply List.Forall2_app; [exact HR|]. constructor; [|constructor].
      apply review_world_follows; [apply Hday|exact Hd].
    + split; [|exact Hday]. split; [exact Hstart|].
      cbn [after_last world books_completed current_book_index current_date].
      split; [now apply ledger_in_order_snoc|].
      assert (Hw : Forall2 (review_follows inp)
                     (books_completed s ++ [completed_record inp s book])
                     (book_reviews
                        (events_list
                           (review_world inp (reading_world inp s book) d
                              book)))).
      { unfold review_world, reading_world.
        rewrite book_reviews_review, book_reviews_reading.
        apply List.Forall2_app; [exact HR|]. constructor; [|constructor].
        apply review_world_follows; [apply Hday|exact Hd]. }
      destruct (Qltb 0 _); [|exact Hw].
      unfold final_world. now rewrite book_reviews_final.
  - intros s [(Hstart & HL & HR) _]. unfold ledger_and_reviews.
    cbn [next_day current_date current_book_index books_completed world].
    split; [lia|]. split; [|exact HR].
    eapply ledger_in_order_later; [|exact HL]. lia.
  - intros s (Hstart & HL & HR) _ _ _. unfold ledger_and_reviews.
    cbn [next_day current_date current_book_index books_completed world].
    split; [lia|]. split; [|exact HR].
    eapply ledger_in_order_later; [|exact HL]. lia.
  - intros s msg H _. exact H.
Qed.

Lemma ledger_and_reviews_of_run first rest st :
  book_schedule_list inp = first :: rest ->
  day_loop fuel inp (initial_state inp first) = Ok st ->
  ledger_and_reviews inp st.
Proof.
  intros Hbooks Hloop.
  apply (ledger_reviews_invariant (initial_state inp first)); [| |exact Hloop].
  - unfold ledger_and_reviews, ledger_in_order.
    cbn [initial_state current_date current_book_index books_completed world
           events_list book_reviews List.filter length firstn].
    split; [lia|]. split; [|constructor].
    repeat split; try constructor. lia.
  - rewrite Hbooks. cbn. lia.
Qed.

End LedgerOrder.

(** ** Completion of a book *)

Section Completion.
Context {RT : PyRuntime}.

(** C3.  An iteration of the session loop appends a book to the ledger
    exactly when a session took place and the minutes that remain after its
    subtraction are at most 0.1.  The record then carries the title of the
    current book and the current date, and exactly one review of the book is
    appended, at the review time of the first reading weekday after that
    date; otherwise the ledger and the reviews are left as they are.  For
    one book of 10 pages at 2.0 minutes a page and 15 minutes a day, read on
    Mondays and Tuesdays, the sessions last 15 and 5 minutes, the book is
    completed on the second reading day, a Tuesday, and its one review is on
    the Monday after. *)
Theorem completion_threshold :
  (forall fuel inp st c st',
      session_body fuel inp st = Ok (c, st') ->
      let left :=
        (current_book_remaining_min st - time_to_dedicate_of st)%Q in
      let completes := (0 < time_to_dedicate_of st)%Q /\ (left <= 1 # 10)%Q in
      (completes <->
       length (books_completed st') = S (length (books_completed st))) /\
      (completes ->
       exists book record review d,
         nth_error (book_schedule_list inp) (current_book_index st) = Some book
         /\ books_completed st' = (books_completed st ++ [record])%list
         /\ Libro record = title book
         /\ Fecha_de_finalizacion record = current_date st
         /\ book_reviews (events_list (world st'))
            = (book_reviews (events_list (world st)) ++ [review])%list
         /\ summary review = escape_ics_text (review_summary (title book))
         /\ dtstart review = combine d (start_time_review inp)
         /\ (current_date st < d)%Z
         /\ in_list (weekday d) (reading_weekdays inp) = true
         /\ (forall x, (current_date st < x < d)%Z ->
                       in_list (weekday x) (reading_weekdays inp) = false)) /\
      (~ completes ->
       books_completed st' = books_completed st /\
       book_reviews (events_list (world st'))
       = book_reviews (events_list (world st)))) /\
  (exists out,
      create_reading_plan (RT := sample_runtime) 40 monday_and_tuesday = Ok out /\
      map event_view (out_events out)
      = [ ("📚 LECTURA: A", monday, 600%Q, 15%Q);
          ("📚 LECTURA: A", (monday + 1)%Z, 600%Q, 5%Q);
          ("🔄 REVISIÓN COMPLETA: A", (monday + 7)%Z, 1140%Q, 60%Q);
          ("🎓 REVISIÓN GENERAL FINAL", (monday + 1)%Z, 605%Q, 10%Q) ] /\
      map (fun c => (Libro c, Fecha_de_finalizacion c))
        (out_books_completed out)
      = [ ("A", (monday + 1)%Z) ] /\
      length (List.filter (is_book_review "A") (out_events out)) = 1%nat /\
      map (fun d => in_list (weekday d) (reading_weekdays monday_and_tuesday))
        [ (monday + 2)%Z; (monday + 3)%Z; (monday + 4)%Z; (monday + 5)%Z;
          (monday + 6)%Z; (monday + 7)%Z ]
      = [ false; false; false; false; false; true ]).
Proof.
  split.
  - intros fuel inp st c st' Hb left completes.
    apply session_body_step in Hb. subst left completes.
    destruct Hb as [book Hb Ht|book Hb Ht Hrem|book d nb Hb Ht Hrem Hd Hn
                   |book d Hb Ht Hrem Hd Hn];
      cbn [after_read after_complete after_last books_completed world].
    + split; [|split].
      * split; [intros [? _]; lra|intros H; clear - H; lia].
      * intros [? _]. lra.
      * intros _. split; reflexivity.
    + split; [|split].
      * split; [intros [_ ?]; lra|intros H; clear - H; lia].
      * intros [_ ?]. lra.
      * intros _. split; [reflexivity|].
        unfold reading_world. apply book_reviews_reading.
    + apply next_reading_day_first in Hd. destruct Hd as (Hle & Hin & Hmin).
      split; [|split].
      * split; [intros _|tauto]. rewrite length_app. cbn [length].
        clear. lia.
      * intros _. eexists book, (completed_record inp st book), _, d.
        split; [exact Hb|]. split; [reflexivity|]. split; [reflexivity|].
        split; [reflexivity|].
        split; [unfold review_world, reading_world;
                rewrite book_reviews_review, book_reviews_reading;
                reflexivity|].
        split; [reflexivity|]. split; [reflexivity|].
        split; [lia|]. split; [exact Hin|].
        intros x Hx. apply Hmin. lia.
      * tauto.
    + apply next_reading_day_first in Hd. destruct Hd as (Hle & Hin & Hmin).
      split; [|split].
      * split; [intros _|tauto]. rewrite length_app. cbn [length].
        clear. lia.
      * intros _. eexists book, (completed_record inp st book), _, d.
        split; [exact Hb|]. split; [reflexivity|]. split; [reflexivity|].
        split; [reflexivity|].
        split; [destruct (Qltb 0 _); unfold final_world, review_world,
                  reading_world;
                rewrite ?book_reviews_final, book_reviews_review,
                  book_reviews_reading; reflexivity|].
        split; [reflexivity|]. split; [reflexivity|].
        split; [lia|]. split; [exact Hin|].
        intros x Hx. apply Hmin. lia.
      * tauto.
  - eexists. split; [vm_compute; reflexivity|].
    split; [vm_compute; reflexivity|].
    split; [vm_compute; reflexivity|].
    split; vm_compute; reflexivity.
Qed.

End Completion.

Lemma completion_threshold_witness :
  let inp := monday_and_tuesday in
  let st := tuesday_session in
  exists c st',
    session_body (RT := sample_runtime) 40 inp st = Ok (c, st') /\
    let left :=
      (current_book_remaining_min st - time_to_dedicate_of st)%Q in
    let completes := (0 < time_to_dedicate_of st)%Q /\ (left <= 1 # 10)%Q in
    completes /\
    (completes ->
     exists book record review d,
       nth_error (book_schedule_list inp) (current_book_index st) = Some book
       /\ books_completed st' = (books_completed st ++ [record])%list
       /\ Libro record = title book
       /\ Fecha_de_finalizacion record = current_date st
       /\ book_reviews (events_list (world st'))
          = (book_reviews (events_list (world st)) ++ [review])%list
       /\ summary review = escape_ics_text (review_summary (title book))
       /\ dtstart review = combine d (start_time_review inp)
       /\ (current_date st < d)%Z
       /\ in_list (weekday d) (reading_weekdays inp) = true
       /\ (forall x, (current_date st < x < d)%Z ->
                     in_list (weekday x) (reading_weekdays inp) = false)).
Proof.
  intros inp st.
  destruct (session_body (RT := sample_runtime) 40 inp st)
    as [[c st']| |] eqn:Hb.
  - exists c, st'. split; [reflexivity|]. split.
    + split; vm_compute; [reflexivity|discriminate].
    + exact (proj1 (proj2 (proj1 (completion_threshold (RT := sample_runtime))
                             40%nat inp st c st' Hb))).
  - vm_compute in Hb. discriminate.
  - vm_compute in Hb. discriminate.
Defined.

Section LedgerClaims.
Context {RT : PyRuntime}.

(** X1.  The ledger of a run holds the first books of the list, in the order
    of the list and without gaps: as many records as books were completed,
    never more than there are books, the record at each position carrying the
    title of the book at that position. *)
Theorem ledger_is_prefix_of_book_list fuel inp :
  (enough_fuel inp <= fuel)%nat ->
  exists out,
    create_reading_plan fuel inp = Ok out /\
    (books_completed_count (out_stats out)
     <= length (book_schedule_list inp))%nat /\
    length (out_books_completed out) = books_completed_count (out_stats out) /\
    Forall2 (fun b c => Libro c = title b)
      (firstn (books_completed_count (out_stats out)) (book_schedule_list inp))
      (out_books_completed out).
Proof.
  intros Hfuel.
  destruct (book_schedule_list inp) as [|first rest] eqn:Hbooks.
  { exists empty_output. unfold create_reading_plan. rewrite Hbooks.
    split; [reflexivity|]. cbn. repeat split; try lia. constructor. }
  destruct (run_final_state inp fuel first rest Hbooks Hfuel)
    as (st & out & Hloop & Hrun & _ & Hl & _ & _ & _ & Hc & _).
  exists out. split; [exact Hrun|].
  destruct (ledger_and_reviews_of_run inp fuel first rest st Hbooks Hloop)
    as (_ & (H1 & H2 & H3 & _) & _).
  rewrite Hc, Hl, <- H1, <- Hbooks. repeat split; try assumption.
  revert H3. apply List.Forall2_impl. intros b c [Htitle _]. exact Htitle.
Qed.

(** X2.  Every completion date of the ledger is a day of the window whose
    weekday is a reading weekday, and the dates never decrease along the
    ledger. *)
Theorem completion_dates_are_reading_days fuel inp :
  (enough_fuel inp <= fuel)%nat ->
  exists out,
    create_reading_plan fuel inp = Ok out /\
    Forall (fun c => is_reading_day inp (Fecha_de_finalizacion c))
      (out_books_completed out) /\
    forall i j c1 c2,
      (i < j)%nat ->
      nth_error (out_books_completed out) i = Some c1 ->
      nth_error (out_books_completed out) j = Some c2 ->
      (Fecha_de_finalizacion c1 <= Fecha_de_finalizacion c2)%Z.
Proof.
  intros Hfuel.
  destruct (book_schedule_list inp) as [|first rest] eqn:Hbooks.
  { exists empty_output. unfold create_reading_plan. rewrite Hbooks.
    split; [reflexivity|]. cbn. split; [constructor|].
    intros i j c1 c2 _ Hi. destruct i; discriminate. }
  destruct (run_final_state inp fuel first rest Hbooks Hfuel)
    as (st & out & Hloop & Hrun & _ & Hl & _).
  exists out. split; [exact Hrun|].
  destruct (ledger_and_reviews_of_run inp fuel first rest st Hbooks Hloop)
    as (_ & (_ & _ & _ & H4 & H5) & _).
  rewrite Hl. split.
  - eapply List.Forall_impl; [|exact H4]. cbv beta. tauto.
  - intros i j c1 c2 Hij Hi Hj.
    exact (StronglySorted_nth _ _ H5 i j c1 c2 Hij Hi Hj).
Qed.

(** X3.  Every completed book has exactly one review, and the reviews come
    in the order of the ledger: the events at the review location pair off
    with the ledger records, each with the summary of its book, the review
    priority and the review duration, starting at the review time of the
    first reading weekday after the completion date, at most a week later
    (which may lie beyond the end date). *)
Theorem one_review_per_completed_book fuel inp :
  (enough_fuel inp <= fuel)%nat ->
  exists out,
    create_reading_plan fuel inp = Ok out /\
    Forall2 (review_follows inp) (out_books_completed out)
      (book_reviews (out_events out)).
Proof.
  intros Hfuel.
  destruct (book_schedule_list inp) as [|first rest] eqn:Hbooks.
  { exists empty_output. unfold create_reading_plan. rewrite Hbooks.
    split; [reflexivity|]. constructor. }
  destruct (run_final_state inp fuel first rest Hbooks Hfuel)
    as (st & out & Hloop & Hrun & He & Hl & _).
  exists out. split; [exact Hrun|].
  destruct (ledger_and_reviews_of_run inp fuel first rest st Hbooks Hloop)
    as (_ & _ & HR).
  now rewrite He, Hl.
Qed.

End LedgerClaims.

(** ** The daily reading time *)

Section DailyTime.
Context {RT : PyRuntime}.
Variable inp : PlanInput.
Variable fuel : nat.

Lemma daily_events_daily w dt mins s d oe on rc loc stat rev :
  String.eqb (escape_ics_text loc) review_location = false ->
  daily_events (events_list (add_event w dt mins s d oe on rc loc stat rev))
  = (daily_events (events_list w) ++
     [event_dict (now (clock_reads w)) dt mins s d oe on rc loc stat rev])%list.
Proof.
  intros Hloc. unfold daily_events. rewrite filter_add_event.
  unfold event_dict at 1. cbn [location]. now rewrite Hloc.
Qed.

Lemma daily_events_review w dt mins s d oe on rc stat rev :
  daily_events
    (events_list
       (add_event w dt mins s d oe on rc "Espacio de estudio tranquilo" stat
          rev))
  = daily_events (events_list w).
Proof.
  unfold daily_events. rewrite filter_add_event.
  unfold event_dict at 1. cbn [location].
  change (String.eqb (escape_ics_text "Espacio de estudio tranquilo")
            review_location) with true.
  apply app_nil_r.
Qed.

Lemma within_daily_time_event st stamp start mins s d oe on rc loc stat rev :
  is_reading_day inp (current_date st) ->
  (0 < mins)%Q ->
  (day_start inp st <= start)%Q ->
  (start + mins
   <= day_start inp st + inject_Z (daily_time_total_minutes inp))%Q ->
  within_daily_time inp
    (event_dict stamp start mins s d oe on rc loc stat rev).
Proof.
  intros Hday Hpos Hlo Hhi. unfold within_daily_time, event_dict, add_minutes.
  cbn [dtstart dtend]. split; [lra|].
  exists (current_date st). split; [exact Hday|].
  unfold day_start in *. split; lra.
Qed.

Lemma daily_events_invariant st st' :
  daily_events_between_days inp st ->
  (current_book_index st < length (book_schedule_list inp))%nat ->
  day_loop fuel inp st = Ok st' ->
  daily_events_between_days inp st'.
Proof.
  apply (engine_invariant inp fuel (daily_events_between_days inp)
           (daily_events_in_session inp)).
  - intros s (Hstart & Hall) _ Hend Hday.
    unfold daily_events_in_session, day_start.
    cbn [begin_session world current_date session_start_time
           remaining_session_time].
    split; [exact Hall|]. split; [split; [lia|exact Hday]|]. split; lra.
  - intros s c s' (Hall & Hday & Hlo & Hhi) _ Hstep.
    pose proof (time_to_dedicate_le s) as [Hle _].
    assert (Hread : forall book,
      (0 < time_to_dedicate_of s)%Q ->
      Forall (within_daily_time inp)
        (daily_events (events_list (reading_world inp s book)))).
    { intros book Ht. unfold reading_world.
      rewrite daily_events_daily by reflexivity.
      apply Forall_app. split; [exact Hall|]. constructor; [|constructor].
      apply (within_daily_time_event s); [exact Hday|exact Ht|exact Hlo|lra]. }
    destruct Hstep as [book Hb Ht|book Hb Ht Hrem|book d nb Hb Ht Hrem Hd Hn
                      |book d Hb Ht Hrem Hd Hn];
      unfold daily_events_in_session, day_start in *.
    + auto.
    + cbn [after_read world current_date session_start_time
             remaining_session_time].
      split; [now apply Hread|]. split; [exact Hday|].
      unfold add_minutes. split; lra.
    + cbn [after_complete world current_date session_start_time
             remaining_session_time].
      split; [unfold review_world; rewrite daily_events_review;
              now apply Hread|].
      split; [exact Hday|]. unfold add_minutes. split; lra.
    + cbn [after_last world current_date session_start_time
             remaining_session_time].
      split; [|split; [exact Hday|unfold add_minutes; split; lra]].
      assert (Hw : Forall (within_daily_time inp)
                     (daily_events
                        (events_list
                           (review_world inp (reading_world inp s book) d
                              book)))).
      { unfold review_world. rewrite daily_events_review. now apply Hread. }
      destruct (Qltb 0 _) eqn:Hleft; [|exact Hw].
      apply Qltb_true in Hleft. unfold final_world.
      rewrite daily_events_daily by reflexivity.
      apply Forall_app. split; [exact Hw|]. constructor; [|constructor].
      apply (within_daily_time_event s); [exact Hday|exact Hleft| |];
        unfold day_start, add_minutes; lra.
  - intros s (Hall & (Hwin & _) & _). unfold daily_events_between_days.
    cbn [next_day world current_date]. split; [lia|exact Hall].
  - intros s (Hstart & Hall) _ _ _. unfold daily_events_between_days.
    cbn [next_day world current_date]. split; [lia|exact Hall].
  - intros s msg H _. exact H.
Qed.

Lemma daily_events_of_run first rest st :
  book_schedule_list inp = first :: rest ->
  day_loop fuel inp (initial_state inp first) = Ok st ->
  Forall (within_daily_time inp) (daily_events (events_list (world st))).
Proof.
  intros Hbooks Hloop.
  apply (daily_events_invariant (initial_state inp first)); [| |exact Hloop].
  - split; [cbn; lia|constructor].
  - rewrite Hbooks. cbn. lia.
Qed.

Lemma Forall2_In_r {A B} (R : A -> B -> Prop) l1 l2 y :
  Forall2 R l1 l2 -> In y l2 -> exists x, In x l1 /\ R x y.
Proof.
  induction 1 as [|a b l1 l2 Hab H IH]; intros Hin; [contradiction|].
  destruct Hin as [->|Hin].
  - exists a. split; [now left|exact Hab].
  - destruct (IH Hin) as (x & Hx & Hr). exists x. split; [now right|exact Hr].
Qed.

Lemma Qfloor_unique (q : Q) (n : Z) :
  (inject_Z n <= q)%Q -> (q < inject_Z (n + 1))%Q -> Qfloor q = n.
Proof.
  intros Hlo Hhi.
  pose proof (Qfloor_le q) as H1. pose proof (Qlt_floor q) as H2.
  assert (Ha : (Qfloor q < n + 1)%Z).
  { rewrite Zlt_Qlt. lra. }
  assert (Hb : (n < Qfloor q + 1)%Z).
  { rewrite Zlt_Qlt. lra. }
  lia.
Qed.

Lemma date_of_within_day (d : date) (x : datetime) :
  (inject_Z (d * 1440) <= x)%Q -> (x < inject_Z (d * 1440) + 1440)%Q ->
  date_of x = d.
Proof.
  intros Hlo Hhi. unfold date_of. apply Qfloor_unique.
  - apply Qle_shift_div_l; [reflexivity|].
    rewrite inject_Z_mult in Hlo. exact Hlo.
  - apply Qlt_shift_div_r; [reflexivity|].
    rewrite inject_Z_plus, inject_Z_mult in *.
    change (inject_Z 1) with 1%Q. change (inject_Z 1440) with 1440%Q in *.
    lra.
Qed.

End DailyTime.

Section DailyTimeClaims.
Context {RT : PyRuntime}.

(** X5.  When the reading start time and the review time are times of the
    day and the daily minutes end before midnight, every event of the plan
    starts on a date whose weekday is a reading weekday. *)
Theorem events_start_on_reading_weekdays fuel inp :
  valid_time (start_time_books inp) ->
  valid_time (start_time_review inp) ->
  (minutes_of_time (start_time_books inp)
   + inject_Z (daily_time_total_minutes inp) < 1440)%Q ->
  (enough_fuel inp <= fuel)%nat ->
  exists out,
    create_reading_plan fuel inp = Ok out /\
    Forall (fun e => in_list (weekday (date_of (dtstart e)))
                       (reading_weekdays inp) = true)
      (out_events out).
Proof.
  intros [Hb0 Hb1] [Hr0 Hr1] Hfit Hfuel. apply Qlt_le_weak in Hfit.
  destruct (book_schedule_list inp) as [|first rest] eqn:Hbooks.
  { exists empty_output. unfold create_reading_plan. rewrite Hbooks.
    split; [reflexivity|]. constructor. }
  destruct (run_final_state inp fuel first rest Hbooks Hfuel)
    as (st & out & Hloop & Hrun & He & Hl & _).
  exists out. split; [exact Hrun|]. rewrite He.
  pose proof (daily_events_of_run inp fuel first rest st Hbooks Hloop)
    as Hdaily.
  destruct (ledger_and_reviews_of_run inp fuel first rest st Hbooks Hloop)
    as (_ & _ & Hreviews).
  rewrite List.Forall_forall. intros e Hin.
  destruct (String.eqb (location e) review_location) eqn:Hloc.
  - assert (Hrev : In e (book_reviews (events_list (world st)))).
    { unfold book_reviews. apply List.filter_In. split; assumption. }
    destruct (Forall2_In_r _ _ _ _ Hreviews Hrev)
      as (c & _ & _ & _ & _ & d & Hstart & _ & Hday & _).
    rewrite Hstart, (date_of_within_day d); [exact Hday| |];
      unfold combine; lra.
  - assert (Hday : In e (daily_events (events_list (world st)))).
    { unfold daily_events. apply List.filter_In. split; [exact Hin|].
      now rewrite Hloc. }
    rewrite List.Forall_forall in Hdaily.
    destruct (Hdaily e Hday) as (Hpos & d & [_ Hwd] & Hlo & Hhi).
    rewrite (date_of_within_day d); [exact Hwd| |];
      unfold combine in *; lra.
Qed.

End DailyTimeClaims.

(** ** The kinds of events *)

Section Kinds.
Context {RT : PyRuntime}.
Variable inp : PlanInput.
Variable fuel : nat.

Lemma kinds_reading w dt mins s d oe on rc stat :
  let w' := add_event w dt mins s d oe on rc "Sala de estudio" stat false in
  reading_sessions (events_list w')
  = (reading_sessions (events_list w) ++
     [event_dict (now (clock_reads w)) dt mins s d oe on rc "Sala de estudio"
        stat false])%list /\
  book_reviews (events_list w') = book_reviews (events_list w) /\
  final_events (events_list w') = final_events (events_list w).
Proof.
  intros w'. subst w'. split; [now rewrite reading_sessions_add_event|].
  split; [apply book_reviews_reading|].
  unfold final_events. rewrite filter_add_event. apply app_nil_r.
Qed.

Lemma kinds_review w dt mins s d oe on rc stat :
  let w' := add_event w dt mins s d oe on rc "Espacio de estudio tranquilo"
              stat true in
  reading_sessions (events_list w') = reading_sessions (events_list w) /\
  book_reviews (events_list w')
  = (book_reviews (events_list w) ++
     [event_dict (now (clock_reads w)) dt mins s d oe on rc
        "Espacio de estudio tranquilo" stat true])%list /\
  final_events (events_list w') = final_events (events_list w).
Proof.
  intros w'. subst w'.
  split; [rewrite reading_sessions_add_event; apply app_nil_r|].
  split; [apply book_reviews_review|].
  unfold final_events. rewrite filter_add_event. apply app_nil_r.
Qed.

Lemma kinds_final w dt mins s d oe on rc stat :
  let w' := add_event w dt mins s d oe on rc "" stat true in
  reading_sessions (events_list w') = reading_sessions (events_list w) /\
  book_reviews (events_list w') = book_reviews (events_list w) /\
  final_events (events_list w')
  = (final_events (events_list w) ++
     [event_dict (now (clock_reads w)) dt mins s d oe on rc "" stat true])%list.
Proof.
  intros w'. subst w'.
  split; [rewrite reading_sessions_add_event; apply app_nil_r|].
  split; [apply book_reviews_final|].
  unfold final_events. now rewrite filter_add_event.
Qed.

Lemma accounted_add_event w dt mins s d oe on rc loc stat rev (a b c : nat) :
  clock_reads w = length (events_list w) ->
  length (events_list w) = (a + b + c)%nat ->
  clock_reads (add_event w dt mins s d oe on rc loc stat rev)
  = length (events_list (add_event w dt mins s d oe on rc loc stat rev)) /\
  length (events_list (add_event w dt mins s d oe on rc loc stat rev))
  = S (a + b + c).
Proof.
  intros Hc Hl. unfold add_event. cbn [clock_reads events_list].
  rewrite length_app. cbn [length]. lia.
Qed.

Lemma events_accounted_invariant st st' :
  events_accounted inp st ->
  (current_book_index st < length (book_schedule_list inp))%nat ->
  day_loop fuel inp st = Ok st' ->
  events_accounted inp st'.
Proof.
  apply (engine_invariant inp fuel (events_accounted inp)
           (events_accounted inp)); try (intros; assumption).
  intros s c s' (Hclock & Hlen & Hnone & Hlast) _ Hstep.
  destruct Hstep as [book Hb Ht|book Hb Ht Hrem|book d nb Hb Ht Hrem Hd Hn
                    |book d Hb Ht Hrem Hd Hn].
  - repeat split; assumption.
  - assert (Hidx : (current_book_index s
                    < length (book_schedule_list inp))%nat)
      by (apply nth_error_Some; congruence).
    unfold events_accounted.
    cbn [after_read world current_book_index]. unfold reading_world.
    destruct (kinds_reading (world s) (session_start_time s)
                (time_to_dedicate_of s) (reading_summary (title book))
                (reading_description (title book)
                   (current_book_remaining_min s) (time_to_dedicate_of s))
                (organizer_email inp) (organizer_name inp)
                the_reminders_config "CONFIRMED") as (-> & -> & ->).
    destruct (accounted_add_event (world s) (session_start_time s)
                (time_to_dedicate_of s) (reading_summary (title book))
                (reading_description (title book)
                   (current_book_remaining_min s) (time_to_dedicate_of s))
                (organizer_email inp) (organizer_name inp)
                the_reminders_config "Sala de estudio" "CONFIRMED" false
                _ _ _ Hclock Hlen) as (-> & ->).
    rewrite length_app. cbn [length].
    split; [reflexivity|]. split; [lia|]. split; [exact Hnone|].
    left. now apply Hnone.
  - assert (Hidx : (current_book_index s
                    < length (book_schedule_list inp))%nat)
      by (apply nth_error_Some; congruence).
    unfold events_accounted.
    cbn [after_complete world current_book_index].
    unfold review_world, reading_world.
    set (w1 := add_event (world s) _ _ _ _ _ _ _ "Sala de estudio" _ _).
    destruct (kinds_review w1 (combine d (start_time_review inp))
                (inject_Z (review_time_per_book_min inp))
                (review_summary (title book))
                (review_description (title book)
                   (calculate_reading_time_hours book (reading_speeds inp))
                   (review_time_per_book_min inp))
                (organizer_email inp) (organizer_name inp)
                the_reminders_config "CONFIRMED") as (-> & -> & ->).
    subst w1.
    destruct (kinds_reading (world s) (session_start_time s)
                (time_to_dedicate_of s) (reading_summary (title book))
                (reading_description (title book)
                   (current_book_remaining_min s) (time_to_dedicate_of s))
                (organizer_email inp) (organizer_name inp)
                the_reminders_config "CONFIRMED") as (-> & -> & ->).
    unfold add_event. cbn [clock_reads events_list].
    rewrite !length_app. cbn [length]. rewrite Hclock.
    split; [lia|]. split; [lia|].
    split; [intros _|left]; now apply Hnone.
  - assert (Hidx : (current_book_index s
                    < length (book_schedule_list inp))%nat)
      by (apply nth_error_Some; congruence).
    pose proof (Hnone Hidx) as Hfin.
    unfold events_accounted.
    cbn [after_last world current_book_index].
    set (w2 := review_world inp (reading_world inp s book) d book).
    assert (H2 : clock_reads w2 = length (events_list w2) /\
                 length (events_list w2)
                 = (length (reading_sessions (events_list w2))
                    + length (book_reviews (events_list w2))
                    + length (final_events (events_list w2)))%nat /\
                 final_events (events_list w2) = []).
    { subst w2. unfold review_world, reading_world.
      set (w1 := add_event (world s) _ _ _ _ _ _ _ "Sala de estudio" _ _).
      destruct (kinds_review w1 (combine d (start_time_review inp))
                  (inject_Z (review_time_per_book_min inp))
                  (review_summary (title book))
                  (review_description (title book)
                     (calculate_reading_time_hours book (reading_speeds inp))
                     (review_time_per_book_min inp))
                  (organizer_email inp) (organizer_name inp)
                  the_reminders_config "CONFIRMED") as (-> & -> & ->).
      subst w1.
      destruct (kinds_reading (world s) (session_start_time s)
                  (time_to_dedicate_of s) (reading_summary (title book))
                  (reading_description (title book)
                     (current_book_remaining_min s) (time_to_dedicate_of s))
                  (organizer_email inp) (organizer_name inp)
                  the_reminders_config "CONFIRMED") as (-> & -> & ->).
      unfold add_event. cbn [clock_reads events_list].
      rewrite !length_app. rewrite Hclock, Hfin.
      rewrite Hfin in Hlen. cbn [length] in *.
      split; [lia|]. split; [lia|reflexivity]. }
    destruct H2 as (Hc2 & Hl2 & Hf2).
    destruct (Qltb 0 _).
    + unfold final_world.
      destruct (kinds_final w2
                  (add_minutes (session_start_time s) (time_to_dedicate_of s))
                  (remaining_session_time s - time_to_dedicate_of s)
                  final_summary
                  (final_description (S (length (books_completed s))))
                  (organizer_email inp) (organizer_name inp)
                  the_reminders_config "CONFIRMED") as (-> & -> & ->).
      rewrite Hf2. rewrite Hf2 in Hl2. cbn [length] in Hl2.
      unfold add_event. cbn [clock_reads events_list].
      rewrite !length_app. cbn [length app]. rewrite Hc2.
      split; [lia|]. split; [lia|]. split; [intros H; lia|].
      right. eexists _, _. split; reflexivity.
    + split; [exact Hc2|]. split; [exact Hl2|].
      split; [intros _; exact Hf2|left; exact Hf2].
Qed.

Lemma sessions_in_book_order_invariant st st' :
  sessions_in_book_order inp st ->
  (current_book_index st < length (book_schedule_list inp))%nat ->
  day_loop fuel inp st = Ok st' ->
  sessions_in_book_order inp st'.
Proof.
  apply (engine_invariant inp fuel (sessions_in_book_order inp)
           (sessions_in_book_order inp)); try (intros; assumption).
  intros s c s' (Hsorted & Hall) _ Hstep.
  assert (Hread : forall book (n : nat),
    nth_error (book_schedule_list inp) (current_book_index s) = Some book ->
    (current_book_index s <= n)%nat ->
    StronglySorted (in_book_order inp)
      (reading_sessions (events_list (reading_world inp s book))) /\
    Forall (fun e => exists j, (j <= n)%nat /\ session_of_index inp j e)
      (reading_sessions (events_list (reading_world inp s book)))).
  { intros book n Hb Hn. unfold reading_world.
    rewrite reading_sessions_add_event.
    assert (Hnew : session_of_index inp (current_book_index s)
                     (event_dict (now (clock_reads (world s)))
                        (session_start_time s) (time_to_dedicate_of s)
                        (reading_summary (title book))
                        (reading_description (title book)
                           (current_book_remaining_min s)
                           (time_to_dedicate_of s))
                        (organizer_email inp) (organizer_name inp)
                        the_reminders_config "Sala de estudio" "CONFIRMED"
                        false)).
    { exists book. split; [exact Hb|reflexivity]. }
    split.
    - apply StronglySorted_snoc; [exact Hsorted|].
      eapply List.Forall_impl; [|exact Hall]. cbv beta.
      intros e (j & Hj & He). exists j, (current_book_index s).
      repeat split; assumption.
    - apply Forall_app. split.
      + eapply List.Forall_impl; [|exact Hall]. cbv beta.
        intros e (j & Hj & He). exists j. split; [lia|exact He].
      + constructor; [|constructor].
        exists (current_book_index s). split; [exact Hn|exact Hnew]. }
  destruct Hstep as [book Hb Ht|book Hb Ht Hrem|book d nb Hb Ht Hrem Hd Hn
                    |book d Hb Ht Hrem Hd Hn];
    unfold sessions_in_book_order.
  - split; assumption.
  - cbn [after_read world current_book_index]. now apply Hread.
  - cbn [after_complete world current_book_index]. unfold review_world.
    rewrite reading_sessions_add_event, app_nil_r. apply Hread; [exact Hb|lia].
  - cbn [after_last world current_book_index].
    assert (Hw : StronglySorted (in_book_order inp)
                   (reading_sessions
                      (events_list
                         (review_world inp (reading_world inp s book) d book)))
                 /\ Forall (fun e => exists j,
                               (j <= S (current_book_index s))%nat /\
                               session_of_index inp j e)
                      (reading_sessions
                         (events_list
                            (review_world inp (reading_world inp s book) d
                               book)))).
    { unfold review_world. rewrite reading_sessions_add_event, app_nil_r.
      apply Hread; [exact Hb|lia]. }
    destruct (Qltb 0 _); [|exact Hw].
    unfold final_world. now rewrite reading_sessions_add_event, app_nil_r.
Qed.

End Kinds.

Section KindsClaims.
Context {RT : PyRuntime}.

(** X6.  The events of a plan are its reading sessions, one review for each
    completed book and at most one final integration event, and nothing
    else; the clock was read once for each of them.  A final integration
    event exists only when every book was completed, and it is then the last
    event of the list. *)
Theorem events_are_sessions_reviews_and_final fuel inp :
  (enough_fuel inp <= fuel)%nat ->
  exists out,
    create_reading_plan fuel inp = Ok out /\
    out_clock_reads out = total_events (out_stats out) /\
    total_events (out_stats out)
    = (length (reading_sessions (out_events out))
       + books_completed_count (out_stats out)
       + length (final_events (out_events out)))%nat /\
    (length (final_events (out_events out)) <= 1)%nat /\
    (final_events (out_events out) <> [] ->
     books_completed_count (out_stats out)
     = length (book_schedule_list inp) /\
     exists l e, out_events out = (l ++ [e])%list /\
                 final_events (out_events out) = [e]).
Proof.
  intros Hfuel.
  destruct (book_schedule_list inp) as [|first rest] eqn:Hbooks.
  { exists empty_output. unfold create_reading_plan. rewrite Hbooks.
    split; [reflexivity|]. cbn. repeat split; try lia; congruence. }
  destruct (run_final_state inp fuel first rest Hbooks Hfuel)
    as (st & out & Hloop & Hrun & He & Hl & Hc & _ & Ht & Hn & _ & Hidx0).
  exists out. split; [exact Hrun|].
  destruct (ledger_and_reviews_of_run inp fuel first rest st Hbooks Hloop)
    as (_ & (Hidx & Hle & _) & Hreviews).
  apply List.Forall2_length in Hreviews.
  destruct (events_accounted_invariant inp fuel (initial_state inp first) st)
    as (Hclock & Hlen & Hnone & Hlast); [|exact Hidx0|exact Hloop|].
  { unfold events_accounted. cbn. repeat split; try lia. now left. }
  cbv zeta in Hclock, Hlen, Hnone, Hlast.
  rewrite Hc, Ht, Hn, He, <- Hbooks. split; [exact Hclock|].
  split; [lia|]. split.
  - destruct Hlast as [->|(l & e & _ & ->)]; cbn; lia.
  - intros Hfin. split.
    + destruct (Nat.lt_ge_cases (current_book_index st)
                  (length (book_schedule_list inp))) as [Hlt|Hge].
      * now apply Hnone in Hlt.
      * lia.
    + destruct Hlast as [H|H]; [contradiction|exact H].
Qed.

(** X7.  The books are read in the order of the list: of two reading
    sessions of the plan, the one appended first belongs to a book that
    stands no later in the book list than the book of the other. *)
Theorem reading_sessions_follow_book_order fuel inp :
  (enough_fuel inp <= fuel)%nat ->
  exists out,
    create_reading_plan fuel inp = Ok out /\
    forall p q e1 e2,
      (p < q)%nat ->
      nth_error (reading_sessions (out_events out)) p = Some e1 ->
      nth_error (reading_sessions (out_events out)) q = Some e2 ->
      in_book_order inp e1 e2.
Proof.
  intros Hfuel.
  destruct (book_schedule_list inp) as [|first rest] eqn:Hbooks.
  { exists empty_output. unfold create_reading_plan. rewrite Hbooks.
    split; [reflexivity|]. intros p q e1 e2 _ Hp. destruct p; discriminate. }
  destruct (run_final_state inp fuel first rest Hbooks Hfuel)
    as (st & out & Hloop & Hrun & He & _ & _ & _ & _ & _ & _ & Hidx0).
  exists out. split; [exact Hrun|]. rewrite He.
  destruct (sessions_in_book_order_invariant inp fuel
              (initial_state inp first) st) as (Hsorted & _);
    [|exact Hidx0|exact Hloop|].
  { split; constructor. }
  intros p q e1 e2 Hpq Hp Hq.
  exact (StronglySorted_nth _ _ Hsorted p q e1 e2 Hpq Hp Hq).
Qed.

Lemma plan_events_satisfy (P : Event -> Prop) fuel inp :
  (forall st book,
      nth_error (book_schedule_list inp) (current_book_index st) = Some book ->
      (0 < time_to_dedicate_of st)%Q ->
      P (event_dict (now (clock_reads (world st))) (session_start_time st)
           (time_to_dedicate_of st) (reading_summary (title book))
           (reading_description (title book) (current_book_remaining_min st)
              (time_to_dedicate_of st))
           (organizer_email inp) (organizer_name inp) the_reminders_config
           "Sala de estudio" "CONFIRMED" false)) ->
  (forall k d book,
      P (event_dict (now k) (combine d (start_time_review inp))
           (inject_Z (review_time_per_book_min inp))
           (review_summary (title book))
           (review_description (title book)
              (calculate_reading_time_hours book (reading_speeds inp))
              (review_time_per_book_min inp))
           (organizer_email inp) (organizer_name inp) the_reminders_config
           "Espacio de estudio tranquilo" "CONFIRMED" true)) ->
  (forall k start mins n,
      (0 < mins)%Q ->
      P (event_dict (now k) start mins final_summary (final_description n)
           (organizer_email inp) (organizer_name inp) the_reminders_config
           "" "CONFIRMED" true)) ->
  (enough_fuel inp <= fuel)%nat ->
  exists out,
    create_reading_plan fuel inp = Ok out /\
    total_events (out_stats out) = length (out_events out) /\
    Forall P (out_events out).
Proof.
  intros Hread Hreview Hfinal Hfuel.
  destruct (book_schedule_list inp) as [|first rest] eqn:Hbooks.
  { exists empty_output. unfold create_reading_plan. rewrite Hbooks.
    split; [reflexivity|]. split; [reflexivity|constructor]. }
  rewrite <- Hbooks in Hread.
  destruct (run_final_state inp fuel first rest Hbooks Hfuel)
    as (st & out & Hloop & Hrun & He & _ & _ & _ & Ht & _ & _ & Hidx0).
  exists out. split; [exact Hrun|]. rewrite He. split; [exact Ht|].
  revert Hloop.
  apply (events_invariant P fuel inp Hread Hreview Hfinal);
    [constructor|exact Hidx0].
Qed.

Lemma event_dict_well_formed inp stamp dt mins s d loc (rev : bool) :
  well_formed_event inp
    (event_dict stamp dt mins s d (organizer_email inp) (organizer_name inp)
       the_reminders_config loc "CONFIRMED" rev).
Proof.
  unfold well_formed_event, event_dict.
  cbn [status sequence transp ev_class ev_organizer_email ev_organizer_name
         valarms priority].
  destruct rev; repeat (split; [reflexivity|]); [right|left];
    split; reflexivity.
Qed.

(** X8.  Every event of a plan is confirmed, opaque and public with sequence
    number 0, carries the organizer given to the engine (the name escaped,
    the email as it is) and exactly one reminder: the 5-minute reminder with
    priority 5, or the 10-minute review reminder with priority 3. *)
Theorem events_are_well_formed fuel inp :
  (enough_fuel inp <= fuel)%nat ->
  exists out,
    create_reading_plan fuel inp = Ok out /\
    Forall (well_formed_event inp) (out_events out).
Proof.
  intros Hfuel.
  destruct (plan_events_satisfy (well_formed_event inp) fuel inp)
    as (out & Hrun & _ & Hall); try exact Hfuel;
    try (intros; apply event_dict_well_formed).
  exists out. split; [exact Hrun|exact Hall].
Qed.

End KindsClaims.

(** ** A first book that asks for no time *)

Section Stall.
Context {RT : PyRuntime}.

Lemma stalled_invariant fuel inp st st' :
  book_schedule_list inp <> [] ->
  stalled st ->
  (current_book_index st < length (book_schedule_list inp))%nat ->
  day_loop fuel inp st = Ok st' ->
  stalled st'.
Proof.
  intros Hne.
  apply (engine_invariant inp fuel stalled stalled); try (intros; assumption).
  - intros s c s' (He & Hl & Hm & Hi & Hrb) _ Hstep.
    pose proof (time_to_dedicate_le s) as [_ Hle].
    destruct Hstep; try lra. repeat split; assumption.
  - intros s msg (_ & _ & _ & Hi & _) Hlen. rewrite Hi in Hlen.
    destruct (book_schedule_list inp); [contradiction|]. cbn in Hlen. lia.
Qed.

(** X9.  When the first book requires no reading time (a book of 0 pages,
    for instance), the guard against empty sessions ends every session at
    once and the book is never completed: whatever the window and the other
    books, the plan has no event, no completed book and no message. *)
Theorem first_book_without_time_stalls_plan fuel inp first rest :
  book_schedule_list inp = first :: rest ->
  (calculate_reading_time_minutes first (reading_speeds inp) <= 0)%Q ->
  (enough_fuel inp <= fuel)%nat ->
  exists out,
    create_reading_plan fuel inp = Ok out /\
    out_events out = [] /\ out_books_completed out = [] /\
    out_messages out = [] /\
    total_events (out_stats out) = 0%nat.
Proof.
  intros Hbooks Hreq Hfuel.
  destruct (run_final_state inp fuel first rest Hbooks Hfuel)
    as (st & out & Hloop & Hrun & He & Hl & _ & Hm & Ht & _ & _ & Hidx0).
  exists out. split; [exact Hrun|].
  destruct (stalled_invariant fuel inp (initial_state inp first) st)
    as (H1 & H2 & H3 & _); [congruence| |exact Hidx0|exact Hloop|].
  { unfold stalled. cbn [initial_state world events_list books_completed
      st_messages current_book_index current_book_remaining_min].
    repeat split; try reflexivity. exact Hreq. }
  rewrite He, Hl, Hm, Ht, H1, H2, H3. repeat split.
Qed.

End Stall.

(** ** The message and the end of the window *)

Section Message.
Context {RT : PyRuntime}.
Variable inp : PlanInput.
Variable fuel : nat.

Lemma session_step_messages st c st' :
  session_step inp fuel st c st' ->
  st_messages (world st') = st_messages (world st).
Proof.
  destruct 1; try reflexivity.
  cbn [after_last world]. now destruct (Qltb 0 _).
Qed.

Lemma session_loop_messages n st st' :
  while (session_cond inp) (session_body fuel inp) n st = Ok st' ->
  st_messages (world st') = st_messages (world st).
Proof.
  apply (while_partial _ _
           (fun s => st_messages (world s) = st_messages (world st))
           (fun s => st_messages (world s) = st_messages (world st)));
    [auto| |reflexivity].
  intros s c s' Hs _ Hb. apply session_body_step in Hb.
  apply session_step_messages in Hb. destruct c; congruence.
Qed.

Lemma day_loop_stops st st' :
  walking inp st ->
  day_loop fuel inp st = Ok st' ->
  stopped inp st'.
Proof.
  unfold day_loop. apply (while_partial _ _ (walking inp) (stopped inp)).
  - intros s (Hidx & Hm & Hdate) Hc. unfold day_cond in Hc.
    apply Z.leb_gt in Hc. left. repeat split; try assumption. lia.
  - intros s c s' (Hidx & Hm & Hdate) Hc Hb. unfold day_cond in Hc.
    apply Z.leb_le in Hc. unfold day_body in Hb.
    assert (Hinner : exists s1,
      (if in_list (weekday (current_date s)) (reading_weekdays inp)
       then session_loop fuel inp (begin_session inp s) else Ok s) = Ok s1 /\
      st_messages (world s1) = [] /\ current_date s1 = current_date s).
    { destruct (in_list _ _).
      - destruct (session_loop fuel inp (begin_session inp s)) as [s1| |] eqn:Hs;
          cbn [bind] in Hb; try discriminate.
        exists s1. split; [reflexivity|]. unfold session_loop in Hs. split.
        + apply session_loop_messages in Hs. now rewrite Hs.
        + now apply session_loop_date in Hs.
      - exists s. repeat split. exact Hm. }
    destruct Hinner as (s1 & Hs1 & Hm1 & Hd1). rewrite Hs1 in Hb.
    cbn [bind] in Hb.
    destruct (_ <=? _)%nat eqn:Hall; injection Hb as <- <-.
    + apply Nat.leb_le in Hall. right.
      cbn [st_success next_day current_book_index world st_messages] in *.
      split; [exact Hall|]. rewrite Hm1. eexists. reflexivity.
    + apply Nat.leb_gt in Hall.
      unfold walking. cbn [next_day current_book_index world current_date] in *.
      repeat split; try assumption; lia.
Qed.

End Message.

Section MessageClaim.
Context {RT : PyRuntime}.

(** X10.  A run on a non-empty book list ends in one of two ways.  Either
    books are left: then the loop has walked the whole window, [total_days]
    is the number of days of the window (0 when the end date precedes the
    start date) and no message was shown.  Or every book was completed: then
    exactly one success message was shown. *)
Theorem window_exhausted_or_success_message fuel inp :
  book_schedule_list inp <> [] ->
  (enough_fuel inp <= fuel)%nat ->
  exists out,
    create_reading_plan fuel inp = Ok out /\
    (((books_completed_count (out_stats out)
       < length (book_schedule_list inp))%nat /\
      out_messages out = [] /\
      total_days (out_stats out)
      = Some (Z.max 0 (end_date inp - start_date inp + 1))) \/
     (books_completed_count (out_stats out) = length (book_schedule_list inp) /\
      exists msg, out_messages out = [msg])).
Proof.
  intros Hne Hfuel.
  destruct (book_schedule_list inp) as [|first rest] eqn:Hbooks;
    [contradiction|].
  destruct (run_final_state inp fuel first rest Hbooks Hfuel)
    as (st & out & Hloop & Hrun & _ & _ & _ & Hm & _ & Hn & Hd & Hidx0).
  exists out. split; [exact Hrun|].
  destruct (ledger_and_reviews_of_run inp fuel first rest st Hbooks Hloop)
    as (_ & (Hidx & Hle & _) & _).
  rewrite Hn, Hm, Hd, <- Hidx, <- Hbooks.
  destruct (day_loop_stops inp fuel (initial_state inp first) st)
    as [(Hlt & Hmsg & Hdate)|(Hge & Hmsg)]; [|exact Hloop| |].
  - unfold walking. cbn [initial_state current_book_index world st_messages
                           current_date].
    split; [exact Hidx0|]. split; [reflexivity|lia].
  - left. split; [exact Hlt|]. split; [exact Hmsg|]. f_equal. lia.
  - right. split; [lia|exact Hmsg].
Qed.

End MessageClaim.

(** ** A window that is large enough *)

Section LargeEnough.
Context {RT : PyRuntime}.
Variable inp : PlanInput.
Variable fuel : nat.

Lemma count_reading_days_succ weekdays n :
  forall from : date,
    count_reading_days weekdays from (S n)
    = (count_reading_days weekdays from n
       + if in_list (weekday (from + Z.of_nat n)%Z) weekdays then 1 else 0)%nat.
Proof.
  induction n as [|n IH]; intros from.
  - cbn [count_reading_days]. rewrite Z.add_0_r. lia.
  - change (count_reading_days weekdays from (S (S n)))
      with ((if in_list (weekday from) weekdays then 1 else 0)
            + count_reading_days weekdays (from + 1)%Z (S n))%nat.
    rewrite IH. cbn [count_reading_days].
    replace (from + 1 + Z.of_nat n)%Z with (from + Z.of_nat (S n))%Z by lia.
    lia.
Qed.

Lemma budget_so_far_next st (today : bool) :
  (start_date inp <= current_date st)%Z ->
  in_list (weekday (current_date st)) (reading_weekdays inp) = today ->
  (budget_so_far inp (next_day st)
   == budget_so_far inp st
      + if today then inject_Z (daily_time_total_minutes inp) else 0)%Q.
Proof.
  intros Hstart Hday. unfold budget_so_far. cbn [next_day current_date].
  replace (Z.to_nat (current_date st + 1 - start_date inp))
    with (S (Z.to_nat (current_date st - start_date inp))) by lia.
  rewrite count_reading_days_succ.
  replace (start_date inp
           + Z.of_nat (Z.to_nat (current_date st - start_date inp)))%Z
    with (current_date st) by lia.
  rewrite Hday. destruct today.
  - rewrite Nat2Z.inj_add, inject_Z_plus. change (inject_Z (Z.of_nat 1)) with 1%Q.
    ring.
  - rewrite Nat.add_0_r. ring.
Qed.

Lemma skipn_nth_error {A} (l : list A) i x :
  nth_error l i = Some x -> skipn i l = x :: skipn (S i) l.
Proof.
  revert i. induction l as [|a l IH]; intros [|i] H; try discriminate.
  - injection H as ->. reflexivity.
  - cbn in H. cbn [skipn]. now apply IH.
Qed.

Lemma sum_required_nonneg books :
  Forall (fun b => 0 < required inp b)%Q books ->
  (0 <= sum_required inp books)%Q.
Proof.
  induction 1 as [|b l Hb _ IH]; cbn [sum_required]; lra.
Qed.

Lemma Forall_skipn {A} (P : A -> Prop) n l :
  Forall P l -> Forall P (skipn n l).
Proof.
  revert l. induction n as [|n IH]; intros l H; [exact H|].
  destruct H as [|a l Ha Hl]; cbn [skipn]; [constructor|now apply IH].
Qed.

Lemma on_schedule_invariant st st' :
  Forall (fun b => 0 < required inp b)%Q (book_schedule_list inp) ->
  on_schedule inp st ->
  (current_book_index st < length (book_schedule_list inp))%nat ->
  day_loop fuel inp st = Ok st' ->
  on_schedule inp st'.
Proof.
  intros Hreq.
  apply (engine_invariant_exit inp fuel (on_schedule inp)
           (on_schedule_in_session inp)).
  - intros s (Hstart & Hgo) Hidx _ Hday.
    unfold on_schedule_in_session, pending, budget_so_far in *.
    cbn [begin_session current_date current_book_index
           current_book_remaining_min remaining_session_time].
    split; [exact Hstart|]. split; [exact Hday|].
    intros H. destruct (Hgo H) as [Hrb Hle]. split; [exact Hrb|]. lra.
  - intros s c s' (Hstart & Hday & Hgo) _ Hstep.
    pose proof (time_to_dedicate_le s) as [_ Hle].
    destruct Hstep as [book Hb Ht|book Hb Ht Hrem|book d nb Hb Ht Hrem Hd Hn
                      |book d Hb Ht Hrem Hd Hn];
      unfold on_schedule_in_session, pending, budget_so_far in *.
    + split; [exact Hstart|]. split; [exact Hday|exact Hgo].
    + cbn [after_read current_date current_book_index
             current_book_remaining_min remaining_session_time].
      split; [exact Hstart|]. split; [exact Hday|].
      intros H. destruct (Hgo H) as [Hrb Hsum]. split; lra.
    + assert (Hidx : (current_book_index s
                      < length (book_schedule_list inp))%nat)
        by (apply nth_error_Some; congruence).
      destruct (Hgo Hidx) as [Hrb Hsum].
      cbn [after_complete current_date current_book_index
             current_book_remaining_min remaining_session_time].
      split; [exact Hstart|]. split; [exact Hday|]. intros _.
      rewrite (skipn_nth_error _ _ _ Hn) in Hsum. cbn [sum_required] in Hsum.
      fold (required inp nb).
      split.
      * rewrite List.Forall_forall in Hreq. apply Hreq.
        eapply nth_error_In; eauto.
      * lra.
    + cbn [after_last current_date current_book_index].
      split; [exact Hstart|]. split; [exact Hday|]. intros H. lia.
  - intros s (Hstart & Hday & Hgo) Hexit. unfold on_schedule.
    split; [cbn [next_day current_date]; lia|].
    intros Hidx. cbn [next_day current_book_index] in Hidx.
    destruct (Hgo Hidx) as [Hrb Hsum].
    assert (Hrs : (remaining_session_time s <= 0)%Q).
    { destruct Hexit as [Hc|[Hlen|Ht]].
      - unfold session_cond in Hc. apply andb_false_iff in Hc.
        destruct Hc as [Hc|Hc]; [now apply Qltb_false in Hc|].
        apply Nat.ltb_ge in Hc. lia.
      - lia.
      - unfold time_to_dedicate_of in Ht.
        destruct (py_min_spec (remaining_session_time s)
                    (current_book_remaining_min s)) as [[? E]|[? E]];
          rewrite E in Ht; lra. }
    split; [exact Hrb|].
    rewrite (budget_so_far_next s true Hstart Hday).
    unfold pending in *.
    cbn [next_day current_book_index current_book_remaining_min]. lra.
  - intros s (Hstart & Hgo) Hidx _ Hday. unfold on_schedule.
    split; [cbn [next_day current_date]; lia|]. intros _.
    destruct (Hgo Hidx) as [Hrb Hsum]. split; [exact Hrb|].
    rewrite (budget_so_far_next s false Hstart Hday).
    unfold pending in *.
    cbn [next_day current_book_index current_book_remaining_min]. lra.
  - intros s msg (Hstart & Hgo) Hlen. split; [exact Hstart|].
    cbn [st_success current_book_index]. intros H. lia.
Qed.

End LargeEnough.

Section LargeEnoughClaim.
Context {RT : PyRuntime}.

(** X11.  A sufficient size of the window: when every book requires a
    positive time and the daily minutes of the reading days of the window
    add up to at least the minutes all books require, the run completes
    every book. *)
Theorem large_enough_window_completes_every_book fuel inp :
  Forall (fun b => 0 < required inp b)%Q (book_schedule_list inp) ->
  (sum_required inp (book_schedule_list inp)
   <= inject_Z (daily_time_total_minutes inp)
      * inject_Z (Z.of_nat (reading_days_in_window inp)))%Q ->
  (enough_fuel inp <= fuel)%nat ->
  exists out,
    create_reading_plan fuel inp = Ok out /\
    books_completed_count (out_stats out) = length (book_schedule_list inp).
Proof.
  intros Hreq Hsize Hfuel.
  destruct (book_schedule_list inp) as [|first rest] eqn:Hbooks.
  { exists empty_output. unfold create_reading_plan. rewrite Hbooks.
    split; reflexivity. }
  destruct (run_final_state inp fuel first rest Hbooks Hfuel)
    as (st & out & Hloop & Hrun & _ & _ & _ & _ & _ & Hn & _ & Hidx0).
  exists out. split; [exact Hrun|].
  destruct (ledger_and_reviews_of_run inp fuel first rest st Hbooks Hloop)
    as (_ & (Hidx & Hle & _) & _).
  rewrite Hn, <- Hidx, <- Hbooks in *.
  destruct (Nat.lt_ge_cases (current_book_index st)
              (length (book_schedule_list inp))) as [Hlt|Hge]; [|lia].
  exfalso.
  assert (Hfirst : required inp first
                   = current_book_remaining_min (initial_state inp first))
    by reflexivity.
  destruct (on_schedule_invariant inp fuel (initial_state inp first) st Hreq)
    as (Hstart & Hgo); [|exact Hidx0|exact Hloop|].
  { split; [cbn; lia|]. intros _. split.
    - rewrite <- Hfirst. rewrite Hbooks in Hreq. now inversion Hreq.
    - unfold pending, budget_so_far.
      cbn [initial_state current_book_index current_book_remaining_min
             current_date].
      rewrite Z.sub_diag. change (Z.to_nat 0) with 0%nat.
      cbn [count_reading_days Z.of_nat].
      rewrite Hbooks. change (skipn 1 (first :: rest)) with rest.
      cbn [sum_required]. unfold required.
      change (inject_Z (Z.of_nat 0)) with 0%Q. lra. }
  destruct (Hgo Hlt) as [Hrb Hsum].
  destruct (day_loop_stops inp fuel (initial_state inp first) st)
    as [(_ & _ & Hdate)|(Hge & _)]; [|exact Hloop| |lia].
  { unfold walking. cbn [initial_state current_book_index world st_messages
                           current_date].
    split; [exact Hidx0|]. split; [reflexivity|lia]. }
  assert (Hrest : (0 <= sum_required inp
                          (skipn (S (current_book_index st))
                             (book_schedule_list inp)))%Q)
    by (apply sum_required_nonneg, Forall_skipn, Hreq).
  assert (Hdays : budget_so_far inp st
                  = (inject_Z (daily_time_total_minutes inp)
                     * inject_Z (Z.of_nat (reading_days_in_window inp)))%Q).
  { unfold budget_so_far, reading_days_in_window. rewrite Hdate.
    do 4 f_equal. lia. }
  unfold pending in Hsum. rewrite Hdays in Hsum. lra.
Qed.

End LargeEnoughClaim.

(* ================================================================== *)
(** * The text, the badge and the settings *)

(** ** More on the escaping *)

Lemma length_string_app (a b : string) :
  String.length (a ++ b) = (String.length a + String.length b)%nat.
Proof.
  induction a as [|c a IH]; [reflexivity|].
  rewrite app_String. cbn [String.length]. now rewrite IH.
Qed.

Lemma occurs_app c (a b : string) :
  occurs c (a ++ b) = occurs c a || occurs c b.
Proof.
  induction a as [|x a IH]; [reflexivity|].
  rewrite app_String. cbn [occurs]. rewrite IH. now rewrite orb_assoc.
Qed.

Lemma escape_char_facts c :
  String.length (escape_char c) = (if is_special c then 2 else 1)%nat /\
  occurs newline (escape_char c) = false /\
  (is_special c = false -> escape_char c = String c EmptyString).
Proof.
  unfold escape_char, is_special.
  destruct (Ascii.eqb_spec c backslash) as [->|Hb];
    [repeat split; try reflexivity; discriminate|].
  destruct (Ascii.eqb_spec c comma) as [->|Hc];
    [repeat split; try reflexivity; discriminate|].
  destruct (Ascii.eqb_spec c semicolon) as [->|Hs];
    [repeat split; try reflexivity; discriminate|].
  destruct (Ascii.eqb_spec c newline) as [->|Hn];
    [repeat split; try reflexivity; discriminate|].
  repeat split; try reflexivity.
  cbn [occurs]. apply Ascii.eqb_neq in Hn. now rewrite Hn.
Qed.

Lemma length_escape_ics_text text :
  String.length (escape_ics_text text)
  = (String.length text + specials text)%nat.
Proof.
  rewrite escape_ics_text_chars.
  induction text as [|c text IH]; [reflexivity|].
  cbn [escape_chars specials String.length].
  rewrite length_string_app, IH.
  destruct (escape_char_facts c) as (-> & _). destruct (is_special c); lia.
Qed.

Lemma escape_chars_plain text :
  specials text = 0%nat -> escape_chars text = text.
Proof.
  induction text as [|c text IH]; intros H; [reflexivity|].
  cbn [specials] in H. cbn [escape_chars].
  destruct (is_special c) eqn:Hc; [lia|].
  destruct (escape_char_facts c) as (_ & _ & E). rewrite (E Hc).
  rewrite app_String, app_Empty, IH; [reflexivity|lia].
Qed.

Lemma specials_app (x y : string) :
  specials (x ++ y) = (specials x + specials y)%nat.
Proof.
  induction x as [|k x IH]; [reflexivity|].
  rewrite app_String. cbn [specials]. rewrite IH. lia.
Qed.

Lemma specials_escape_char c :
  ((if is_special c then 1 else 0) <= specials (escape_char c))%nat.
Proof.
  unfold escape_char, is_special at 1.
  destruct (Ascii.eqb_spec c backslash) as [->|Hb]; [vm_compute; lia|].
  destruct (Ascii.eqb_spec c comma) as [->|Hc]; [vm_compute; lia|].
  destruct (Ascii.eqb_spec c semicolon) as [->|Hs]; [vm_compute; lia|].
  destruct (Ascii.eqb_spec c newline) as [->|Hn]; [vm_compute; lia|].
  apply Nat.le_0_l.
Qed.

Lemma specials_escape_ics_text text :
  (specials text <= specials (escape_ics_text text))%nat.
Proof.
  rewrite escape_ics_text_chars.
  induction text as [|c text IH]; [reflexivity|].
  cbn [escape_chars specials]. rewrite specials_app.
  pose proof (specials_escape_char c). lia.
Qed.

(** X12.  The escaped text is the text with one backslash added for each
    backslash, comma, semicolon and newline in it: its length is the length
    of the text plus the number of these characters, so that a text is left
    as it is exactly when it has none of them. *)
Theorem escape_adds_one_character_per_special :
  forall text : string,
    String.length (escape_ics_text text)
    = (String.length text + specials text)%nat /\
    (escape_ics_text text = text <-> specials text = 0%nat).
Proof.
  intros text. pose proof (length_escape_ics_text text) as Hlen.
  split; [exact Hlen|]. split.
  - intros H. rewrite H in Hlen. lia.
  - intros H. rewrite escape_ics_text_chars. now apply escape_chars_plain.
Qed.

Lemma escape_chars_no_newline (text : string) :
  occurs newline (escape_chars text) = false.
Proof.
  induction text as [|c text IH]; [reflexivity|].
  cbn [escape_chars]. rewrite occurs_app, IH.
  destruct (escape_char_facts c) as (_ & -> & _). reflexivity.
Qed.

(** X13.  The newline character does not occur in an escaped text, whatever
    the text. *)
Theorem escaped_text_has_no_newline :
  forall text : string, occurs newline (escape_ics_text text) = false.
Proof.
  intros text. rewrite escape_ics_text_chars.
  apply escape_chars_no_newline.
Qed.

(** X14.  Escaping goes through concatenation, so that a text may be escaped
    piece by piece; and a text that is already escaped is changed again as
    soon as it holds one of the four characters: escaping twice is not
    escaping once. *)
Theorem escape_of_concatenation :
  forall a b : string,
    escape_ics_text (a ++ b) = escape_ics_text a ++ escape_ics_text b /\
    ((0 < specials a)%nat ->
     escape_ics_text (escape_ics_text a) <> escape_ics_text a).
Proof.
  intros a b. split; [apply escape_ics_text_app|].
  intros Hpos Heq.
  apply (f_equal String.length) in Heq.
  rewrite (length_escape_ics_text (escape_ics_text a)) in Heq.
  pose proof (specials_escape_ics_text a). lia.
Qed.

(** ** The badge of a reading speed *)

Section BadgeArithmetic.
Local Open Scope Q_scope.

Lemma Qfloor_div60 (a : Q) : Qfloor (a / 60) = (Qfloor a / 60)%Z.
Proof.
  pose proof (Qfloor_le a) as Hlo. pose proof (Qlt_floor a) as Hhi.
  set (f := Qfloor a) in *.
  pose proof (Z.div_mod f 60 ltac:(lia)) as Hdm.
  pose proof (Z.mod_pos_bound f 60 ltac:(lia)) as Hm.
  set (q := (f / 60)%Z) in *. set (r := (f mod 60)%Z) in *.
  assert (Hf : inject_Z f == 60 * inject_Z q + inject_Z r).
  { rewrite Hdm, inject_Z_plus, inject_Z_mult. reflexivity. }
  assert (Hr0 : 0 <= inject_Z r).
  { change 0 with (inject_Z 0). rewrite <- Zle_Qle. lia. }
  assert (Hr1 : inject_Z r <= 59).
  { change 59 with (inject_Z 59). rewrite <- Zle_Qle. lia. }
  rewrite inject_Z_plus in Hhi. change (inject_Z 1) with 1 in Hhi.
  apply Qfloor_unique.
  - apply Qle_shift_div_l; [reflexivity|]. lra.
  - apply Qlt_shift_div_r; [reflexivity|].
    rewrite inject_Z_plus. change (inject_Z 1) with 1. lra.
Qed.

Lemma truncate_seconds (a : Q) :
  truncate (a - 60 * inject_Z (Qfloor (a / 60))) = (Qfloor a mod 60)%Z.
Proof.
  rewrite Qfloor_div60.
  pose proof (Qfloor_le a) as Hlo. pose proof (Qlt_floor a) as Hhi.
  set (f := Qfloor a) in *.
  pose proof (Z.div_mod f 60 ltac:(lia)) as Hdm.
  pose proof (Z.mod_pos_bound f 60 ltac:(lia)) as Hm.
  set (q := (f / 60)%Z) in *. set (r := (f mod 60)%Z) in *.
  assert (Hf : inject_Z f == 60 * inject_Z q + inject_Z r).
  { rewrite Hdm, inject_Z_plus, inject_Z_mult. reflexivity. }
  assert (Hr0 : 0 <= inject_Z r).
  { change 0 with (inject_Z 0). rewrite <- Zle_Qle. lia. }
  rewrite inject_Z_plus in Hhi. change (inject_Z 1) with 1 in Hhi.
  unfold truncate.
  assert (H0 : Qltb (a - 60 * inject_Z q) 0 = false)
    by (apply Qltb_false; lra).
  rewrite H0. apply Qfloor_unique.
  - lra.
  - rewrite inject_Z_plus. change (inject_Z 1) with 1. lra.
Qed.

End BadgeArithmetic.

Lemma convert_digits (seconds : Q) :
  convert seconds
  = format_02d ((Qfloor seconds / 60) mod 60) ++ ":"
    ++ format_02d (Qfloor seconds mod 60).
Proof.
  unfold convert, divmod60. cbv zeta.
  rewrite !truncate_seconds, Qfloor_Z, Qfloor_div60. reflexivity.
Qed.

Lemma format_02d_two_digits (n : Z) :
  (0 <= n < 60)%Z -> String.length (format_02d n) = 2%nat.
Proof.
  intros Hn. replace n with (Z.of_nat (Z.to_nat n)) by lia.
  assert (Hk : (Z.to_nat n < 60)%nat) by lia.
  revert Hk. generalize (Z.to_nat n). clear. intros k Hk.
  do 60 (destruct k as [|k]; [vm_compute; reflexivity|]). lia.
Qed.

(** X15.  For a number of seconds from 0 up to 2^53, the badge shows the
    whole seconds of its argument as minutes and seconds, two digits each,
    and drops the hours: the text is five characters long, it is that of the
    minutes (modulo 60) and of the seconds (modulo 60) of the integer part,
    and two arguments whose whole seconds differ by whole hours give the
    same text. *)
Theorem convert_drops_the_hours :
  forall seconds : Q,
    (0 <= seconds)%Q -> (seconds < 9007199254740992)%Q ->
    convert seconds
    = format_02d ((Qfloor seconds / 60) mod 60) ++ ":"
      ++ format_02d (Qfloor seconds mod 60) /\
    String.length (convert seconds) = 5%nat /\
    forall other : Q,
      (0 <= other)%Q -> (other < 9007199254740992)%Q ->
      (Qfloor other mod 3600 = Qfloor seconds mod 3600)%Z ->
      convert other = convert seconds.
Proof.
  intros seconds _ _. split; [apply convert_digits|]. split.
  - rewrite convert_digits, !length_string_app.
    rewrite !format_02d_two_digits; [reflexivity| |];
      apply Z.mod_pos_bound; lia.
  - intros other _ _ Hsame. rewrite !convert_digits.
    assert (Hparts : forall f : Z,
               ((f / 60) mod 60 = (f mod 3600) / 60 /\
                f mod 60 = (f mod 3600) mod 60)%Z).
    { intros f. change 3600%Z with (60 * 60)%Z.
      rewrite Z.rem_mul_r by lia.
      pose proof (Z.mod_pos_bound f 60 ltac:(lia)) as H1.
      pose proof (Z.mod_pos_bound (f / 60) 60 ltac:(lia)) as H2.
      rewrite (Z.mul_comm 60 ((f / 60) mod 60)). split.
      - rewrite Z.div_add by lia.
        rewrite (Z.div_small (f mod 60) 60) by lia. lia.
      - rewrite Z.mod_add by lia. now rewrite Z.mod_mod by lia. }
    destruct (Hparts (Qfloor other)) as [-> ->].
    destruct (Hparts (Qfloor seconds)) as [-> ->].
    now rewrite Hsame.
Qed.

Lemma convert_drops_the_hours_witness :
  (0 <= 145)%Q /\ (145 < 9007199254740992)%Q /\
  convert 145 = "02:25" /\
  (forall other : Q,
      (0 <= other)%Q -> (other < 9007199254740992)%Q ->
      (Qfloor other mod 3600 = Qfloor 145 mod 3600)%Z ->
      convert other = convert 145).
Proof.
  assert (H1 : (0 <= 145)%Q) by (vm_compute; discriminate).
  assert (H2 : (145 < 9007199254740992)%Q) by (vm_compute; reflexivity).
  split; [exact H1|]. split; [exact H2|].
  split; [vm_compute; reflexivity|].
  exact (proj2 (proj2 (convert_drops_the_hours 145 H1 H2))).
Defined.

(** ** The settings and the form *)

(** X16.  A book added through the form is always read at a speed of the
    settings, never at the default of 2 minutes a page: its required minutes
    are its pages times the seconds per page of its category over 60, the
    theory speed standing for every category other than analysis and popular
    science. *)
Theorem form_books_use_the_settings :
  forall (book_title book_category : string) (book_pages : Z)
         (speed_d speed_t speed_a : Q),
    calculate_reading_time_minutes
      {| title := book_title; pages := book_pages;
         category := category_code book_category |}
      (reading_speeds_dict speed_d speed_t speed_a)
    = (inject_Z book_pages
       * (form_speed speed_d speed_t speed_a book_category / 60))%Q /\
    is_Some (reading_speeds_dict speed_d speed_t speed_a
             !! category_code book_category).
Proof.
  intros. unfold calculate_reading_time_minutes, category_code, form_speed,
    reading_speeds_dict. cbn [category].
  destruct (String.eqb book_category "Análisis");
    [|destruct (String.eqb book_category "Divulgación")].
  - rewrite lookup_insert_eq. split; [reflexivity|eauto].
  - rewrite lookup_insert_ne, lookup_insert_ne, lookup_insert_eq by discriminate.
    split; [reflexivity|eauto].
  - rewrite lookup_insert_ne, lookup_insert_eq by discriminate.
    split; [reflexivity|eauto].
Qed.

Lemma day_map_lookup name :
  In name day_names ->
  exists i, day_map !! name = Some i /\ (0 <= i < 7)%Z /\
            nth_error day_names (Z.to_nat i) = Some name.
Proof.
  intros H. cbn in H.
  repeat (destruct H as [<-|H];
          [eexists; split; [vm_compute; reflexivity|];
           split; [lia|reflexivity]|]).
  contradiction.
Qed.

Lemma day_map_only_names name i :
  day_map !! name = Some i -> nth_error day_names (Z.to_nat i) = Some name.
Proof.
  unfold day_map. cbn [enumerate day_names fold_left]. intros H.
  repeat (apply lookup_insert_Some in H as [[<- <-]|[_ H]]; [reflexivity|]).
  now rewrite lookup_empty in H.
Qed.

(** X17.  The weekdays handed to the engine are indices of [day_names],
    Monday being 0 and Sunday 6 as for [date.weekday()]: for a selection
    among the seven names the list is built, it has one index between 0 and
    6 for each selected name, in the order of the selection, the index being
    the position of the name; a name that is not a day name is a
    [KeyError]. *)
Theorem selected_weekdays_are_valid :
  forall selected : list string,
    (Forall (fun name => In name day_names) selected ->
     exists weekdays,
       selected_weekdays selected = Some weekdays /\
       Forall (fun i => 0 <= i < 7)%Z weekdays /\
       Forall2 (fun name i => nth_error day_names (Z.to_nat i) = Some name)
         selected weekdays) /\
    (~ Forall (fun name => In name day_names) selected ->
     selected_weekdays selected = None).
Proof.
  induction selected as [|name rest [IHyes IHno]]; split.
  - intros _. exists []. repeat split; constructor.
  - intros H. exfalso. apply H. constructor.
  - intros H. inversion H as [|? ? Hname Hrest]; subst.
    destruct (day_map_lookup name Hname) as (i & Hi & Hrange & Hnth).
    destruct (IHyes Hrest) as (ws & Hws & Hvalid & Hpos).
    exists (i :: ws). cbn [selected_weekdays]. rewrite Hi, Hws.
    repeat split; constructor; assumption.
  - intros H. cbn [selected_weekdays].
    destruct (day_map !! name) as [i|] eqn:Hi; [|reflexivity].
    rewrite IHno; [reflexivity|].
    intros Hrest. apply H. constructor; [|exact Hrest].
    apply day_map_only_names in Hi. eapply nth_error_In; eauto.
Qed.

(** ** The calendar file of a plan *)

Section IcsFileProperties.
Context {RT : PyRuntime}.
Variable format_ics_datetime : datetime -> string.

Lemma append_valarms (vs acc : list string) :
  fold_left (fun ics_content valarm => (ics_content ++ [valarm])%list) vs acc
  = (acc ++ vs)%list.
Proof.
  revert acc. induction vs as [|v vs IH]; intros acc; cbn [fold_left].
  - now rewrite app_nil_r.
  - rewrite IH, <- app_assoc. reflexivity.
Qed.

Lemma ics_content_blocks events cal_name :
  ics_content format_ics_datetime events cal_name
  = (ics_header cal_name
     ++ flat_map (event_block format_ics_datetime) events
     ++ ["END:VCALENDAR"])%list.
Proof.
  unfold ics_content. cbv zeta. generalize (ics_header cal_name) as acc.
  induction events as [|e events IH]; intros acc; cbn [fold_left flat_map].
  - reflexivity.
  - rewrite IH, append_valarms. unfold event_block.
    now rewrite <- !app_assoc.
Qed.

Lemma count_lines_app line l1 l2 :
  count_lines line (l1 ++ l2) = (count_lines line l1 + count_lines line l2)%nat.
Proof. unfold count_lines. now rewrite List.filter_app, length_app. Qed.

Lemma well_formed_block inp e :
  well_formed_event inp e ->
  length (event_block format_ics_datetime e) = 16%nat /\
  count_lines "BEGIN:VEVENT" (event_block format_ics_datetime e) = 1%nat /\
  count_lines "END:VEVENT" (event_block format_ics_datetime e) = 1%nat /\
  count_lines "BEGIN:VCALENDAR" (event_block format_ics_datetime e) = 0%nat /\
  count_lines "END:VCALENDAR" (event_block format_ics_datetime e) = 0%nat.
Proof.
  intros (_ & _ & _ & _ & _ & _ & _ & Hv).
  unfold event_block, count_lines.
  destruct Hv as [[_ ->]|[_ ->]]; repeat split; vm_compute; reflexivity.
Qed.

Lemma well_formed_blocks inp events :
  Forall (well_formed_event inp) events ->
  let blocks := flat_map (event_block format_ics_datetime) events in
  length blocks = (16 * length events)%nat /\
  count_lines "BEGIN:VEVENT" blocks = length events /\
  count_lines "END:VEVENT" blocks = length events /\
  count_lines "BEGIN:VCALENDAR" blocks = 0%nat /\
  count_lines "END:VCALENDAR" blocks = 0%nat.
Proof.
  induction 1 as [|e events He _ IH]; cbn [flat_map length].
  - repeat split; reflexivity.
  - cbv zeta in IH. destruct IH as (I1 & I2 & I3 & I4 & I5).
    destruct (well_formed_block inp e He) as (B1 & B2 & B3 & B4 & B5).
    rewrite length_app, !count_lines_app, I1, I2, I3, I4, I5, B1, B2, B3, B4, B5.
    repeat split; lia.
Qed.

Lemma header_lines cal_name :
  length (ics_header cal_name) = 7%nat /\
  count_lines "BEGIN:VEVENT" (ics_header cal_name) = 0%nat /\
  count_lines "END:VEVENT" (ics_header cal_name) = 0%nat /\
  count_lines "BEGIN:VCALENDAR" (ics_header cal_name) = 1%nat /\
  count_lines "END:VCALENDAR" (ics_header cal_name) = 0%nat.
Proof. repeat split; vm_compute; reflexivity. Qed.

Lemma closing_line :
  count_lines "BEGIN:VEVENT" ["END:VCALENDAR"] = 0%nat /\
  count_lines "END:VEVENT" ["END:VCALENDAR"] = 0%nat /\
  count_lines "BEGIN:VCALENDAR" ["END:VCALENDAR"] = 0%nat /\
  count_lines "END:VCALENDAR" ["END:VCALENDAR"] = 1%nat.
Proof. repeat split; vm_compute; reflexivity. Qed.

(** X18.  The calendar file of a plan.  The lines joined into the file of the
    events of a plan are the 7 header lines, 16 lines for each event (its 14
    fields, its one reminder block and the closing line) and the closing
    line of the calendar: there are as many [BEGIN:VEVENT] and [END:VEVENT]
    entries as the statistics count events, and one opening and one closing
    line of the calendar, whatever the texts of the books and the
    organizer. *)
Theorem calendar_file_has_one_block_per_event :
  forall fuel inp (organizer_name_ organizer_email_ cal_name : string),
    (enough_fuel inp <= fuel)%nat ->
    exists out,
      create_reading_plan fuel inp = Ok out /\
      let lines := ics_content format_ics_datetime (out_events out) cal_name in
      generate_ics_content format_ics_datetime (out_events out)
        organizer_name_ organizer_email_ cal_name = join nl lines /\
      length lines = (8 + 16 * total_events (out_stats out))%nat /\
      count_lines "BEGIN:VEVENT" lines = total_events (out_stats out) /\
      count_lines "END:VEVENT" lines = total_events (out_stats out) /\
      count_lines "BEGIN:VCALENDAR" lines = 1%nat /\
      count_lines "END:VCALENDAR" lines = 1%nat.
Proof.
  intros fuel inp oname oemail cal_name Hfuel.
  destruct (plan_events_satisfy (well_formed_event inp) fuel inp)
    as (out & Hrun & Htotal & Hwf); try exact Hfuel;
    try (intros; apply event_dict_well_formed).
  exists out. split; [exact Hrun|]. cbv zeta.
  split; [reflexivity|].
  rewrite Htotal, ics_content_blocks.
  destruct (well_formed_blocks inp (out_events out) Hwf)
    as (I1 & I2 & I3 & I4 & I5).
  destruct (header_lines cal_name) as (H1 & H2 & H3 & H4 & H5).
  destruct closing_line as (E2 & E3 & E4 & E5).
  rewrite !length_app, !count_lines_app, I1, I2, I3, I4, I5, H1, H2, H3, H4,
    H5, E2, E3, E4, E5.
  cbn [length]. repeat split; lia.
Qed.

End IcsFileProperties.

(** ** A plan without events *)

Section NoEvents.
Context {RT : PyRuntime}.
Variable inp : PlanInput.
Variable fuel : nat.

Lemma add_event_not_empty w dt mins s d oe on rc loc stat (rev : bool) :
  events_list (add_event w dt mins s d oe on rc loc stat rev) <> [].
Proof.
  unfold add_event. cbn [events_list].
  destruct (events_list w); discriminate.
Qed.

Lemma session_step_adds_event st c st' :
  session_step inp fuel st c st' ->
  st' = st \/ events_list (world st') <> [].
Proof.
  destruct 1; [now left|right..].
  - apply add_event_not_empty.
  - apply add_event_not_empty.
  - cbn [after_last world]. destruct (Qltb 0 _); apply add_event_not_empty.
Qed.

Lemma count_zero_no_reading_day weekdays n :
  forall from d : date,
    count_reading_days weekdays from n = 0%nat ->
    (from <= d < from + Z.of_nat n)%Z ->
    in_list (weekday d) weekdays = false.
Proof.
  induction n as [|n IH]; intros from d Hcount Hd; [lia|].
  cbn [count_reading_days] in Hcount.
  destruct (in_list (weekday from) weekdays) eqn:Hfrom; [discriminate|].
  destruct (Z.eq_dec d from) as [->|Hne]; [exact Hfrom|].
  apply (IH (from + 1)%Z); [exact Hcount|lia].
Qed.

Lemma waiting_invariant first rest st st' :
  book_schedule_list inp = first :: rest ->
  (0 < required inp first)%Q ->
  (0 < daily_time_total_minutes inp)%Z ->
  waiting inp first st ->
  (current_book_index st < length (book_schedule_list inp))%nat ->
  day_loop fuel inp st = Ok st' ->
  waiting inp first st'.
Proof.
  intros Hbooks Hreq Hbudget.
  assert (Hb : (0 < inject_Z (daily_time_total_minutes inp))%Q).
  { change 0%Q with (inject_Z 0). now rewrite <- Zlt_Qlt. }
  apply (engine_invariant_exit inp fuel (waiting inp first)
           (waiting_in_session inp first)).
  - intros s (Hstart & Hw) _ _ _. split; [exact Hstart|].
    cbn [begin_session world current_book_index current_book_remaining_min
           remaining_session_time].
    intros He. destruct (Hw He) as (Hi & Hr & _). repeat split; assumption.
  - intros s c s' (Hstart & Hw) _ Hstep.
    assert (Hdate : current_date s' = current_date s)
      by (destruct Hstep; reflexivity).
    destruct (session_step_adds_event s c s' Hstep) as [->|Hne].
    + split; assumption.
    + split; [now rewrite Hdate|]. intros He. contradiction.
  - intros s (Hstart & Hw) Hexit.
    split; [cbn [next_day current_date]; lia|].
    cbn [next_day world]. intros He. exfalso.
    destruct (Hw He) as (Hi & Hr & Ht).
    destruct Hexit as [Hc|[Hlen|Hd]].
    + unfold session_cond in Hc. apply andb_false_iff in Hc.
      destruct Hc as [Hc|Hc].
      * apply Qltb_false in Hc. rewrite Ht in Hc. lra.
      * apply Nat.ltb_ge in Hc. rewrite Hi, Hbooks in Hc. cbn in Hc. lia.
    + rewrite Hi, Hbooks in Hlen. cbn in Hlen. lia.
    + unfold time_to_dedicate_of in Hd. rewrite Hr, Ht in Hd.
      destruct (py_min_spec (inject_Z (daily_time_total_minutes inp))
                  (required inp first)) as [[? E]|[? E]];
        rewrite E in Hd; lra.
  - intros s (Hstart & Hw) _ _ Hday.
    split; [cbn [next_day current_date]; lia|].
    cbn [next_day world current_book_index current_book_remaining_min
           current_date].
    intros He. destruct (Hw He) as (Hi & Hr & Hn).
    split; [exact Hi|]. split; [exact Hr|].
    replace (Z.to_nat (current_date s + 1 - start_date inp))
      with (S (Z.to_nat (current_date s - start_date inp))) by lia.
    rewrite count_reading_days_succ, Hn.
    replace (start_date inp
             + Z.of_nat (Z.to_nat (current_date s - start_date inp)))%Z
      with (current_date s) by lia.
    now rewrite Hday.
  - intros s msg H _. exact H.
Qed.


Lemma no_budget_invariant st st' :
  (daily_time_total_minutes inp <= 0)%Z ->
  events_list (world st) = [] ->
  (current_book_index st < length (book_schedule_list inp))%nat ->
  day_loop fuel inp st = Ok st' ->
  events_list (world st') = [].
Proof.
  intros Hbudget.
  assert (Hb : (inject_Z (daily_time_total_minutes inp) <= 0)%Q).
  { change 0%Q with (inject_Z 0). now rewrite <- Zle_Qle. }
  apply (engine_invariant inp fuel
           (fun s => events_list (world s) = [])
           (fun s => events_list (world s) = [] /\
                     (remaining_session_time s <= 0)%Q)).
  - intros s He _ _ _. split; [exact He|exact Hb].
  - intros s c s' (He & Ht) Hc _. exfalso.
    unfold session_cond in Hc. apply andb_true_iff in Hc.
    destruct Hc as [Hc _]. apply Qltb_true in Hc. lra.
  - intros s (He & _). exact He.
  - intros s He _ _ _. exact He.
  - intros s msg He _. exact He.
Qed.

Lemma no_reading_day_invariant st st' :
  reading_days_in_window inp = 0%nat ->
  events_list (world st) = [] /\ (start_date inp <= current_date st)%Z ->
  (current_book_index st < length (book_schedule_list inp))%nat ->
  day_loop fuel inp st = Ok st' ->
  events_list (world st') = [] /\ (start_date inp <= current_date st')%Z.
Proof.
  intros Hnone.
  apply (engine_invariant inp fuel
           (fun s => events_list (world s) = [] /\
                     (start_date inp <= current_date s)%Z)
           (fun _ => False)).
  - intros s (_ & Hstart) _ Hend Hday.
    unfold reading_days_in_window in Hnone.
    rewrite (count_zero_no_reading_day _ _ _ (current_date s) Hnone) in Hday;
      [discriminate|lia].
  - intros s c s' [].
  - intros s [].
  - intros s (He & Hstart) _ _ _. split; [exact He|].
    cbn [next_day current_date]. lia.
  - intros s msg H _. exact H.
Qed.

End NoEvents.

Section NoEventsClaim.
Context {RT : PyRuntime}.

Lemma no_event_nothing_to_read fuel inp first rest :
  book_schedule_list inp = first :: rest ->
  (enough_fuel inp <= fuel)%nat ->
  exists out,
    create_reading_plan fuel inp = Ok out /\
    (out_events out = [] ->
     (required inp first <= 0)%Q \/
     (daily_time_total_minutes inp <= 0)%Z \/
     reading_days_in_window inp = 0%nat).
Proof.
  intros Hbooks Hfuel.
  destruct (run_final_state inp fuel first rest Hbooks Hfuel)
    as (st & out & Hloop & Hrun & He & _ & _ & _ & _ & _ & _ & Hidx0).
  exists out. split; [exact Hrun|]. rewrite He.
  intros Hnone.
  destruct (Qlt_le_dec 0 (required inp first)) as [Hreq|Hreq];
    [|now left].
  destruct (Z_lt_le_dec 0 (daily_time_total_minutes inp)) as [Hbudget|Hbudget];
    [|now right; left].
  right; right.
  destruct (waiting_invariant inp fuel first rest (initial_state inp first) st
              Hbooks Hreq Hbudget) as (Hstart & Hw);
    [|exact Hidx0|exact Hloop|].
  { split; [cbn; lia|]. intros _.
    cbn [initial_state current_book_index current_book_remaining_min
           current_date].
    rewrite Z.sub_diag. repeat split. }
  destruct (Hw Hnone) as (Hi & _ & Hcount).
  destruct (day_loop_stops inp fuel (initial_state inp first) st)
    as [(_ & _ & Hdate)|(Hge & _)]; [|exact Hloop| |].
  - unfold walking. cbn [initial_state current_book_index world st_messages
                           current_date].
    split; [exact Hidx0|]. split; [reflexivity|lia].
  - unfold reading_days_in_window. rewrite Hdate in Hcount.
    destruct (Z_lt_le_dec (end_date inp) (start_date inp)) as [Hlt|Hle].
    + replace (Z.to_nat (end_date inp - start_date inp + 1)) with 0%nat
        by lia. reflexivity.
    + rewrite <- Hcount. f_equal. lia.
  - rewrite Hi, Hbooks in Hge. cbn in Hge. lia.
Qed.

Lemma weekday_within_a_week (from w : Z) :
  (0 <= w < 7)%Z ->
  exists d : date, (from <= d < from + 7)%Z /\ weekday d = w.
Proof.
  intros Hw. exists (from + (w - weekday from) mod 7)%Z.
  pose proof (Z.mod_pos_bound (w - weekday from) 7 ltac:(lia)) as Hm.
  split; [lia|]. unfold weekday.
  replace (from + (w - (from + 6) mod 7) mod 7 + 6)%Z
    with ((from + 6) + (w - (from + 6) mod 7) mod 7)%Z by lia.
  rewrite Z.add_mod_idemp_r by lia.
  replace (from + 6 + (w - (from + 6) mod 7))%Z
    with (w + ((from + 6) - (from + 6) mod 7))%Z by lia.
  rewrite (Z.mod_eq (from + 6) 7) by lia.
  replace (w + (from + 6 - (from + 6 - 7 * ((from + 6) / 7))))%Z
    with (w + ((from + 6) / 7) * 7)%Z by lia.
  rewrite Z.mod_add by lia. now apply Z.mod_small.
Qed.

Lemma in_list_In x l : In x l -> in_list x l = true.
Proof.
  intros H. unfold in_list. apply existsb_exists. exists x.
  split; [exact H|apply Z.eqb_refl].
Qed.

(** X19.  When a plan has no event.  For a non-empty book list the run
    schedules nothing exactly when nothing can be read: the first book
    requires no time, or the daily minutes are not positive, or no day of
    the window is a reading day.  In every other case the plan has at least
    one event. *)
Theorem plan_has_no_event_iff_nothing_can_be_read fuel inp first rest :
  book_schedule_list inp = first :: rest ->
  (enough_fuel inp <= fuel)%nat ->
  exists out,
    create_reading_plan fuel inp = Ok out /\
    (out_events out = [] <->
     (required inp first <= 0)%Q \/
     (daily_time_total_minutes inp <= 0)%Z \/
     reading_days_in_window inp = 0%nat).
Proof.
  intros Hbooks Hfuel.
  destruct (no_event_nothing_to_read fuel inp first rest Hbooks Hfuel)
    as (out & Hrun & Honly).
  exists out. split; [exact Hrun|]. split; [exact Honly|].
  destruct (run_final_state inp fuel first rest Hbooks Hfuel)
    as (st & out' & Hloop & Hrun' & He & _ & _ & _ & _ & _ & _ & Hidx0).
  rewrite Hrun in Hrun'. injection Hrun' as <-. rewrite He.
  intros [Hreq|[Hbudget|Hnone]].
  - destruct (stalled_invariant fuel inp (initial_state inp first) st)
      as (H1 & _); [congruence| |exact Hidx0|exact Hloop|exact H1].
    unfold stalled. cbn [initial_state world events_list books_completed
      st_messages current_book_index current_book_remaining_min].
    repeat split; try reflexivity. exact Hreq.
  - apply (no_budget_invariant inp fuel (initial_state inp first) st Hbudget);
      [reflexivity|exact Hidx0|exact Hloop].
  - apply (no_reading_day_invariant inp fuel (initial_state inp first) st
             Hnone); [|exact Hidx0|exact Hloop].
    split; [reflexivity|cbn; lia].
Qed.

(** X20.  A window of at least seven days always has a reading day: when a
    selected weekday is one of the seven (0 to 6), the end date is at least
    six days after the start date, the first book requires a positive time
    and the daily minutes are positive, the plan has at least one event. *)
Theorem week_long_window_has_events fuel inp first rest w :
  book_schedule_list inp = first :: rest ->
  In w (reading_weekdays inp) ->
  (0 <= w < 7)%Z ->
  (start_date inp + 6 <= end_date inp)%Z ->
  (0 < required inp first)%Q ->
  (0 < daily_time_total_minutes inp)%Z ->
  (enough_fuel inp <= fuel)%nat ->
  exists out,
    create_reading_plan fuel inp = Ok out /\ out_events out <> [].
Proof.
  intros Hbooks Hin Hw Hwindow Hreq Hbudget Hfuel.
  destruct (no_event_nothing_to_read fuel inp first rest Hbooks Hfuel)
    as (out & Hrun & Honly).
  exists out. split; [exact Hrun|]. intros Hnone.
  apply Honly in Hnone. destruct Hnone as [H|[H|H]]; [lra|lia|].
  destruct (weekday_within_a_week (start_date inp) w Hw) as (d & Hd & Hwd).
  unfold reading_days_in_window in H.
  pose proof (count_zero_no_reading_day _ _ _ d H ltac:(lia)) as Hday.
  rewrite Hwd, (in_list_In _ _ Hin) in Hday. discriminate.
Qed.

End NoEventsClaim.

(** ** The statistics and the handler *)

Section Statistics.
Context {RT : PyRuntime}.

(** X22.  A plan generated through the button.  The handler calls the engine
    only when its own book list is not empty, a reading weekday is selected
    and the end date is after the start date.  What the engine is given is
    the rows of the editable table: when no row is left it returns the empty
    plan, with [total_days] left at [None]; otherwise it returns a plan whose
    [total_days] is a number of days between 1 and the length of the
    window. *)
Theorem handler_generates_within_window fuel book_list inp r :
  on_generate fuel book_list inp = Generated r ->
  (enough_fuel inp <= fuel)%nat ->
  book_list <> [] /\
  reading_weekdays inp <> [] /\
  (start_date inp < end_date inp)%Z /\
  exists out,
    r = Ok out /\
    ((book_schedule_list inp = [] /\ out = empty_output) \/
     (book_schedule_list inp <> [] /\
      exists n,
        total_days (out_stats out) = Some n /\
        (1 <= n <= end_date inp - start_date inp + 1)%Z)).
Proof.
  intros Hgen Hfuel. unfold on_generate in Hgen.
  destruct book_list as [|row rows]; [discriminate|].
  destruct (reading_weekdays inp) as [|w ws] eqn:Hdays; [discriminate|].
  destruct (end_date inp <=? start_date inp)%Z eqn:Hdates; [discriminate|].
  apply Z.leb_gt in Hdates. injection Hgen as <-.
  split; [discriminate|]. split; [discriminate|]. split; [exact Hdates|].
  destruct (book_schedule_list inp) as [|first rest] eqn:Hbooks.
  { exists empty_output. unfold create_reading_plan. rewrite Hbooks.
    split; [reflexivity|]. left. split; reflexivity. }
  destruct (run_final_state inp fuel first rest Hbooks Hfuel)
    as (st & out & Hloop & Hrun & _ & _ & _ & _ & _ & _ & Hd & Hidx0).
  exists out. split; [exact Hrun|]. right. split; [discriminate|].
  exists (Z.abs (start_date inp - current_date st)). split; [exact Hd|].
  assert (Hinv : ledger_between_days inp st).
  { apply (ledger_invariant inp fuel (initial_state inp first));
      [|exact Hidx0|exact Hloop].
    unfold ledger_between_days.
    cbn [initial_state current_book_index books_completed current_date].
    split; [reflexivity|]. split; [lia|]. split; [constructor|].
    rewrite Hbooks. cbn [length]. lia. }
  destruct Hinv as (_ & Hstart & Hall & Hlast).
  destruct (day_loop_stops inp fuel (initial_state inp first) st)
    as [(_ & _ & Hdate)|(Hge & _)]; [|exact Hloop| |].
  - unfold walking. cbn [initial_state current_book_index world st_messages
                           current_date].
    split; [exact Hidx0|]. split; [reflexivity|lia].
  - lia.
  - destruct (Hlast Hge) as (c & Hc & Hnext).
    rewrite List.Forall_forall in Hall.
    assert (Hin : In c (books_completed st)).
    { apply last_Some_elem_of in Hc. now apply list_elem_of_In. }
    apply Hall in Hin. lia.
Qed.

End Statistics.

(** ** The texts of the events *)

(** [escape_ics_text] leaves a carriage return as it is. *)
Lemma carriage_return_is_kept :
  forall before after : string,
    escape_ics_text (before ++ String (ascii_of_nat 13) after)
    = escape_ics_text before ++ String (ascii_of_nat 13) (escape_ics_text after).
Proof.
  intros before after. rewrite escape_ics_text_app.
  change (String (ascii_of_nat 13) after)
    with (String (ascii_of_nat 13) EmptyString ++ after).
  rewrite (escape_ics_text_app (String (ascii_of_nat 13) EmptyString) after).
  rewrite escape_ics_text_char. reflexivity.
Qed.

Section EventTexts.
Context {RT : PyRuntime}.

(** X23.  The newline character (LF) does not occur in the texts of the
    events of a plan: in the summary, the description (which the engine
    writes with newlines), the location and the organizer name of every
    event it is escaped, whatever the titles of the books and the name of the
    organizer.  (A carriage return is not one of the four escaped
    characters: see [carriage_return_is_kept].) *)
Theorem event_texts_hold_no_newline fuel inp :
  (enough_fuel inp <= fuel)%nat ->
  exists out,
    create_reading_plan fuel inp = Ok out /\
    Forall (fun e => occurs newline (summary e) = false /\
                     occurs newline (description e) = false /\
                     occurs newline (location e) = false /\
                     occurs newline (ev_organizer_name e) = false)
      (out_events out).
Proof.
  intros Hfuel.
  destruct (plan_events_satisfy
              (fun e => occurs newline (summary e) = false /\
                        occurs newline (description e) = false /\
                        occurs newline (location e) = false /\
                        occurs newline (ev_organizer_name e) = false)
              fuel inp) as (out & Hrun & _ & Hall); try exact Hfuel;
    try (intros; unfold event_dict;
         cbn [summary description location ev_organizer_name];
         rewrite !escape_ics_text_chars;
         repeat split; apply escape_chars_no_newline).
  exists out. split; [exact Hrun|exact Hall].
Qed.

End EventTexts.

(** ** The further properties at sample inputs *)

Lemma ledger_is_prefix_of_book_list_witness :
  (enough_fuel two_short_books <= 40)%nat /\
  exists out,
    create_reading_plan (RT := sample_runtime) 40 two_short_books = Ok out /\
    (books_completed_count (out_stats out)
     <= length (book_schedule_list two_short_books))%nat /\
    length (out_books_completed out) = books_completed_count (out_stats out) /\
    Forall2 (fun b c => Libro c = title b)
      (firstn (books_completed_count (out_stats out))
         (book_schedule_list two_short_books))
      (out_books_completed out).
Proof.
  assert (H1 : (enough_fuel two_short_books <= 40)%nat) by (vm_compute; lia).
  split; [exact H1|].
  exact (ledger_is_prefix_of_book_list (RT := sample_runtime) 40
           two_short_books H1).
Defined.

Lemma completion_dates_are_reading_days_witness :
  (enough_fuel two_short_books <= 40)%nat /\
  exists out,
    create_reading_plan (RT := sample_runtime) 40 two_short_books = Ok out /\
    Forall (fun c => is_reading_day two_short_books (Fecha_de_finalizacion c))
      (out_books_completed out) /\
    forall i j c1 c2,
      (i < j)%nat ->
      nth_error (out_books_completed out) i = Some c1 ->
      nth_error (out_books_completed out) j = Some c2 ->
      (Fecha_de_finalizacion c1 <= Fecha_de_finalizacion c2)%Z.
Proof.
  assert (H1 : (enough_fuel two_short_books <= 40)%nat) by (vm_compute; lia).
  split; [exact H1|].
  exact (completion_dates_are_reading_days (RT := sample_runtime) 40
           two_short_books H1).
Defined.

Lemma one_review_per_completed_book_witness :
  (enough_fuel two_short_books <= 40)%nat /\
  exists out,
    create_reading_plan (RT := sample_runtime) 40 two_short_books = Ok out /\
    Forall2 (review_follows two_short_books) (out_books_completed out)
      (book_reviews (out_events out)).
Proof.
  assert (H1 : (enough_fuel two_short_books <= 40)%nat) by (vm_compute; lia).
  split; [exact H1|].
  exact (one_review_per_completed_book (RT := sample_runtime) 40
           two_short_books H1).
Defined.

Lemma events_start_on_reading_weekdays_witness :
  valid_time (start_time_books two_short_books) /\
  valid_time (start_time_review two_short_books) /\
  (minutes_of_time (start_time_books two_short_books)
   + inject_Z (daily_time_total_minutes two_short_books) < 1440)%Q /\
  (enough_fuel two_short_books <= 40)%nat /\
  exists out,
    create_reading_plan (RT := sample_runtime) 40 two_short_books = Ok out /\
    Forall (fun e => in_list (weekday (date_of (dtstart e)))
                       (reading_weekdays two_short_books) = true)
      (out_events out).
Proof.
  assert (H1 : valid_time (start_time_books two_short_books))
    by (split; vm_compute; [discriminate|reflexivity]).
  assert (H2 : valid_time (start_time_review two_short_books))
    by (split; vm_compute; [discriminate|reflexivity]).
  assert (H3 : (minutes_of_time (start_time_books two_short_books)
                + inject_Z (daily_time_total_minutes two_short_books)
                < 1440)%Q) by (vm_compute; reflexivity).
  assert (H4 : (enough_fuel two_short_books <= 40)%nat) by (vm_compute; lia).
  split; [exact H1|]. split; [exact H2|]. split; [exact H3|].
  split; [exact H4|].
  exact (events_start_on_reading_weekdays (RT := sample_runtime) 40
           two_short_books H1 H2 H3 H4).
Defined.

Lemma events_are_sessions_reviews_and_final_witness :
  (enough_fuel two_short_books <= 40)%nat /\
  exists out,
    create_reading_plan (RT := sample_runtime) 40 two_short_books = Ok out /\
    out_clock_reads out = total_events (out_stats out) /\
    total_events (out_stats out)
    = (length (reading_sessions (out_events out))
       + books_completed_count (out_stats out)
       + length (final_events (out_events out)))%nat /\
    (length (final_events (out_events out)) <= 1)%nat /\
    (final_events (out_events out) <> [] ->
     books_completed_count (out_stats out)
     = length (book_schedule_list two_short_books) /\
     exists l e, out_events out = (l ++ [e])%list /\
                 final_events (out_events out) = [e]).
Proof.
  assert (H1 : (enough_fuel two_short_books <= 40)%nat) by (vm_compute; lia).
  split; [exact H1|].
  exact (events_are_sessions_reviews_and_final (RT := sample_runtime) 40
           two_short_books H1).
Defined.

Lemma reading_sessions_follow_book_order_witness :
  (enough_fuel two_short_books <= 40)%nat /\
  exists out,
    create_reading_plan (RT := sample_runtime) 40 two_short_books = Ok out /\
    forall p q e1 e2,
      (p < q)%nat ->
      nth_error (reading_sessions (out_events out)) p = Some e1 ->
      nth_error (reading_sessions (out_events out)) q = Some e2 ->
      in_book_order two_short_books e1 e2.
Proof.
  assert (H1 : (enough_fuel two_short_books <= 40)%nat) by (vm_compute; lia).
  split; [exact H1|].
  exact (reading_sessions_follow_book_order (RT := sample_runtime) 40
           two_short_books H1).
Defined.

Lemma events_are_well_formed_witness :
  (enough_fuel two_short_books <= 40)%nat /\
  exists out,
    create_reading_plan (RT := sample_runtime) 40 two_short_books = Ok out /\
    Forall (well_formed_event (RT := sample_runtime) two_short_books)
      (out_events out).
Proof.
  assert (H1 : (enough_fuel two_short_books <= 40)%nat) by (vm_compute; lia).
  split; [exact H1|].
  exact (events_are_well_formed (RT := sample_runtime) 40 two_short_books H1).
Defined.

Lemma first_book_without_time_stalls_plan_witness :
  let first := {| title := "Z"; pages := 0; category := "D" |} in
  let rest := [ {| title := "A"; pages := 10; category := "D" |} ] in
  book_schedule_list zero_page_first = first :: rest /\
  (calculate_reading_time_minutes first (reading_speeds zero_page_first)
   <= 0)%Q /\
  (enough_fuel zero_page_first <= 40)%nat /\
  exists out,
    create_reading_plan (RT := sample_runtime) 40 zero_page_first = Ok out /\
    out_events out = [] /\ out_books_completed out = [] /\
    out_messages out = [] /\
    total_events (out_stats out) = 0%nat.
Proof.
  intros first rest.
  assert (H1 : book_schedule_list zero_page_first = first :: rest)
    by reflexivity.
  assert (H2 : (calculate_reading_time_minutes first
                  (reading_speeds zero_page_first) <= 0)%Q)
    by (vm_compute; discriminate).
  assert (H3 : (enough_fuel zero_page_first <= 40)%nat) by (vm_compute; lia).
  split; [exact H1|]. split; [exact H2|]. split; [exact H3|].
  exact (first_book_without_time_stalls_plan (RT := sample_runtime) 40
           zero_page_first first rest H1 H2 H3).
Defined.

Lemma window_exhausted_or_success_message_witness :
  book_schedule_list two_short_books <> [] /\
  (enough_fuel two_short_books <= 40)%nat /\
  exists out,
    create_reading_plan (RT := sample_runtime) 40 two_short_books = Ok out /\
    (((books_completed_count (out_stats out)
       < length (book_schedule_list two_short_books))%nat /\
      out_messages out = [] /\
      total_days (out_stats out)
      = Some (Z.max 0 (end_date two_short_books
                       - start_date two_short_books + 1))) \/
     (books_completed_count (out_stats out)
      = length (book_schedule_list two_short_books) /\
      exists msg, out_messages out = [msg])).
Proof.
  assert (H1 : book_schedule_list two_short_books <> []) by discriminate.
  assert (H2 : (enough_fuel two_short_books <= 40)%nat) by (vm_compute; lia).
  split; [exact H1|]. split; [exact H2|].
  exact (window_exhausted_or_success_message (RT := sample_runtime) 40
           two_short_books H1 H2).
Defined.

Lemma large_enough_window_completes_every_book_witness :
  Forall (fun b => 0 < required two_short_books b)%Q
    (book_schedule_list two_short_books) /\
  (sum_required two_short_books (book_schedule_list two_short_books)
   <= inject_Z (daily_time_total_minutes two_short_books)
      * inject_Z (Z.of_nat (reading_days_in_window two_short_books)))%Q /\
  (enough_fuel two_short_books <= 40)%nat /\
  exists out,
    create_reading_plan (RT := sample_runtime) 40 two_short_books = Ok out /\
    books_completed_count (out_stats out)
    = length (book_schedule_list two_short_books).
Proof.
  assert (H1 : Forall (fun b => 0 < required two_short_books b)%Q
                 (book_schedule_list two_short_books))
    by (repeat constructor; vm_compute; reflexivity).
  assert (H2 : (sum_required two_short_books
                  (book_schedule_list two_short_books)
                <= inject_Z (daily_time_total_minutes two_short_books)
                   * inject_Z (Z.of_nat
                       (reading_days_in_window two_short_books)))%Q)
    by (vm_compute; discriminate).
  assert (H3 : (enough_fuel two_short_books <= 40)%nat) by (vm_compute; lia).
  split; [exact H1|]. split; [exact H2|]. split; [exact H3|].
  exact (large_enough_window_completes_every_book (RT := sample_runtime) 40
           two_short_books H1 H2 H3).
Defined.

Lemma calendar_file_has_one_block_per_event_witness :
  let format_ics_datetime := fun _ : datetime => "T" in
  (enough_fuel two_short_books <= 40)%nat /\
  exists out,
    create_reading_plan (RT := sample_runtime) 40 two_short_books = Ok out /\
    let lines :=
      ics_content (RT := sample_runtime) format_ics_datetime (out_events out)
        "Plan Lectura 2024" in
    generate_ics_content (RT := sample_runtime) format_ics_datetime
      (out_events out) "Reader" "reader@example.org" "Plan Lectura 2024"
    = join nl lines /\
    length lines = (8 + 16 * total_events (out_stats out))%nat /\
    count_lines "BEGIN:VEVENT" lines = total_events (out_stats out) /\
    count_lines "END:VEVENT" lines = total_events (out_stats out) /\
    count_lines "BEGIN:VCALENDAR" lines = 1%nat /\
    count_lines "END:VCALENDAR" lines = 1%nat.
Proof.
  intros format_ics_datetime.
  assert (H1 : (enough_fuel two_short_books <= 40)%nat) by (vm_compute; lia).
  split; [exact H1|].
  exact (calendar_file_has_one_block_per_event (RT := sample_runtime)
           format_ics_datetime 40 two_short_books "Reader"
           "reader@example.org" "Plan Lectura 2024" H1).
Defined.

Lemma plan_has_no_event_iff_nothing_can_be_read_witness :
  let first := {| title := "A"; pages := 20; category := "D" |} in
  let rest := [ {| title := "B"; pages := 20; category := "D" |} ] in
  book_schedule_list two_short_books = first :: rest /\
  (enough_fuel two_short_books <= 40)%nat /\
  exists out,
    create_reading_plan (RT := sample_runtime) 40 two_short_books = Ok out /\
    (out_events out = [] <->
     (required two_short_books first <= 0)%Q \/
     (daily_time_total_minutes two_short_books <= 0)%Z \/
     reading_days_in_window two_short_books = 0%nat).
Proof.
  intros first rest.
  assert (H1 : book_schedule_list two_short_books = first :: rest)
    by reflexivity.
  assert (H2 : (enough_fuel two_short_books <= 40)%nat) by (vm_compute; lia).
  split; [exact H1|]. split; [exact H2|].
  exact (plan_has_no_event_iff_nothing_can_be_read (RT := sample_runtime) 40
           two_short_books first rest H1 H2).
Defined.

Lemma week_long_window_has_events_witness :
  let first := {| title := "A"; pages := 20; category := "D" |} in
  let rest := [ {| title := "B"; pages := 20; category := "D" |} ] in
  book_schedule_list two_short_books = first :: rest /\
  In 2%Z (reading_weekdays two_short_books) /\
  (0 <= 2 < 7)%Z /\
  (start_date two_short_books + 6 <= end_date two_short_books)%Z /\
  (0 < required two_short_books first)%Q /\
  (0 < daily_time_total_minutes two_short_books)%Z /\
  (enough_fuel two_short_books <= 40)%nat /\
  exists out,
    create_reading_plan (RT := sample_runtime) 40 two_short_books = Ok out /\
    out_events out <> [].
Proof.
  intros first rest.
  assert (H1 : book_schedule_list two_short_books = first :: rest)
    by reflexivity.
  assert (H2 : In 2%Z (reading_weekdays two_short_books))
    by (right; right; left; reflexivity).
  assert (H3 : (0 <= 2 < 7)%Z) by lia.
  assert (H4 : (start_date two_short_books + 6
                <= end_date two_short_books)%Z)
    by (vm_compute; discriminate).
  assert (H5 : (0 < required two_short_books first)%Q)
    by (vm_compute; reflexivity).
  assert (H6 : (0 < daily_time_total_minutes two_short_books)%Z)
    by reflexivity.
  assert (H7 : (enough_fuel two_short_books <= 40)%nat) by (vm_compute; lia).
  split; [exact H1|]. split; [exact H2|]. split; [exact H3|].
  split; [exact H4|]. split; [exact H5|]. split; [exact H6|].
  split; [exact H7|].
  exact (week_long_window_has_events (RT := sample_runtime) 40
           two_short_books first rest 2%Z H1 H2 H3 H4 H5 H6 H7).
Defined.

Lemma handler_generates_within_window_witness :
  let book_list := book_schedule_list two_short_books in
  let r := create_reading_plan (RT := sample_runtime) 40 emptied_table in
  on_generate (RT := sample_runtime) 40 book_list emptied_table
  = Generated r /\
  (enough_fuel emptied_table <= 40)%nat /\
  book_list <> [] /\
  reading_weekdays emptied_table <> [] /\
  (start_date emptied_table < end_date emptied_table)%Z /\
  exists out,
    r = Ok out /\
    ((book_schedule_list emptied_table = [] /\ out = empty_output) \/
     (book_schedule_list emptied_table <> [] /\
      exists n,
        total_days (out_stats out) = Some n /\
        (1 <= n <= end_date emptied_table - start_date emptied_table + 1)%Z)).
Proof.
  intros book_list r.
  assert (H1 : on_generate (RT := sample_runtime) 40 book_list emptied_table
               = Generated r) by reflexivity.
  assert (H2 : (enough_fuel emptied_table <= 40)%nat) by (vm_compute; lia).
  split; [exact H1|]. split; [exact H2|].
  exact (handler_generates_within_window (RT := sample_runtime) 40
           book_list emptied_table r H1 H2).
Defined.

Lemma event_texts_hold_no_newline_witness :
  (enough_fuel two_short_books <= 40)%nat /\
  exists out,
    create_reading_plan (RT := sample_runtime) 40 two_short_books = Ok out /\
    Forall (fun e => occurs newline (summary e) = false /\
                     occurs newline (description e) = false /\
                     occurs newline (location e) = false /\
                     occurs newline (ev_organizer_name e) = false)
      (out_events out).
Proof.
  assert (H1 : (enough_fuel two_short_books <= 40)%nat) by (vm_compute; lia).
  split; [exact H1|].
  exact (event_texts_hold_no_newline (RT := sample_runtime) 40
           two_short_books H1).
Defined.

